(** * smart_rag_project: chunker, index builder and query service

    A shallow embedding of the Python sources

      - [processor/chunker.py]    (heading-aware chunking),
      - [indexer/build_index.py]  (change detection and index build),
      - [rag_service/app.py]      (retrieval and the event stream),

    together with the properties of the specification that concern them.
    External libraries (tiktoken, hashlib, json, faiss, the embedding and
    generation providers) are section variables: every theorem holds for
    all of their behaviours unless a hypothesis says otherwise. *)

From Stdlib Require Import ZArith Ascii String.
From stdpp Require Import gmap strings list fin_maps pretty.

#[global] Set Warnings "-clear-no-such-hyp".

(** ** Python strings

    A [str] is modelled as a [string] of code points below 256. *)

Module PyStr.

(** [str.isspace] restricted to the code points below 256. *)
Definition isspace (c : ascii) : bool :=
  bool_decide (Ascii.nat_of_ascii c ∈ [9; 10; 11; 12; 13; 28; 29; 30; 31; 32; 133; 160]%nat).

Fixpoint lstrip (s : string) : string :=
  match s with
  | EmptyString => EmptyString
  | String c s' => if isspace c then lstrip s' else s
  end.

Fixpoint rstrip (s : string) : string :=
  match s with
  | EmptyString => EmptyString
  | String c s' =>
      match rstrip s' with
      | EmptyString => if isspace c then EmptyString else String c EmptyString
      | r => String c r
      end
  end.

(** [s.strip()] *)
Definition strip (s : string) : string := rstrip (lstrip s).

(** [s.startswith(p)] *)
Definition startswith (p s : string) : bool := String.prefix p s.

(** [sep.join(parts)] *)
Fixpoint join (sep : string) (parts : list string) : string :=
  match parts with
  | [] => EmptyString
  | [p] => p
  | p :: rest => p +:+ sep +:+ join sep rest
  end.

(** [s.endswith(p)]: some suffix of [s] is [p]. *)
Fixpoint endswith (p s : string) : bool :=
  String.eqb p s ||
  match s with
  | EmptyString => false
  | String _ s' => endswith p s'
  end.

Definition NL : string := String (Ascii.ascii_of_nat 10) EmptyString.

(** [os.path.join(a, b)] of [posixpath]. *)
Definition path_join (a b : string) : string :=
  if startswith "/" b then b
  else if bool_decide (a = "") || endswith "/" a then a +:+ b
  else a +:+ "/" +:+ b.

(** [os.path.basename(p)]: what follows the last slash. *)
Fixpoint has_slash (s : string) : bool :=
  match s with
  | EmptyString => false
  | String c s' => bool_decide (c = "/"%char) || has_slash s'
  end.

Fixpoint basename (p : string) : string :=
  match p with
  | EmptyString => EmptyString
  | String c p' =>
      if has_slash p' then basename p'
      else if bool_decide (c = "/"%char) then p' else p
  end.

(** A line as the chunker's caller passes it: [ln.strip()] of a line that
    is not blank. *)
Definition stripped (s : string) : Prop :=
  lstrip s = s ∧ rstrip s = s ∧ s ≠ "".

#[global] Instance stripped_dec s : Decision (stripped s).
Proof. unfold stripped. apply _. Defined.

End PyStr.

(** ** processor/chunker.py *)

Module Chunker.
Import PyStr.

Definition MAX_TOKENS : nat := 450.
Definition MIN_TOKENS : nat := 60.

(** Why a buffer was closed as a chunk. *)
Inductive closed_by := AtHeading | BySizeCap | AtEndOfInput.

Section Chunker.

(** [token_len(t) = len(ENC.encode(t))]: the tokenizer is tiktoken's. *)
Variable token_len : string -> nat.

(** Lines 37-39 and 47-49: [txt = "\n".join(cur).strip()], appended when
    it is longer than [MIN_TOKENS]. *)
Definition close_buffer (chunks cur : list string) : list string :=
  let txt := strip (join NL cur) in
  if (MIN_TOKENS <? token_len txt)%nat then chunks ++ [txt] else chunks.

(** One iteration of the loop of lines 34-45 on the state [(chunks, cur)]. *)
Definition step (st : list string * list string) (ln : string)
  : list string * list string :=
  let '(chunks, cur) := st in
  let '(chunks, cur) :=
    if startswith "#" ln then
      match cur with
      | [] => (chunks, cur)
      | _ :: _ => (close_buffer chunks cur, [])
      end
    else (chunks, cur) in
  let cur := cur ++ [ln] in
  if (MAX_TOKENS <? token_len (join NL cur))%nat
  then (chunks ++ [strip (join NL cur)], [])
  else (chunks, cur).

Definition chunk_heading_recursive (lines : list string) : list string :=
  let '(chunks, cur) := fold_left step lines ([], []) in
  match cur with
  | [] => chunks
  | _ :: _ => close_buffer chunks cur
  end.

(** The same loop, recording for every emitted chunk the buffer it was
    made from and the reason the buffer was closed. *)
Definition close_buffer_tr (why : closed_by)
    (tr : list (closed_by * list string)) (cur : list string) :=
  if (MIN_TOKENS <? token_len (strip (join NL cur)))%nat
  then tr ++ [(why, cur)] else tr.

Definition step_tr (st : list (closed_by * list string) * list string)
    (ln : string) : list (closed_by * list string) * list string :=
  let '(tr, cur) := st in
  let '(tr, cur) :=
    if startswith "#" ln then
      match cur with
      | [] => (tr, cur)
      | _ :: _ => (close_buffer_tr AtHeading tr cur, [])
      end
    else (tr, cur) in
  let cur := cur ++ [ln] in
  if (MAX_TOKENS <? token_len (join NL cur))%nat
  then (tr ++ [(BySizeCap, cur)], [])
  else (tr, cur).

Definition chunk_trace (lines : list string) : list (closed_by * list string) :=
  let '(tr, cur) := fold_left step_tr lines ([], []) in
  match cur with
  | [] => tr
  | _ :: _ => close_buffer_tr AtEndOfInput tr cur
  end.

Definition chunk_text (e : closed_by * list string) : string :=
  strip (join NL e.2).

End Chunker.

(** A stand-in tokenizer for concrete runs: one token per
    whitespace-separated word. *)
Fixpoint count_words (in_word : bool) (s : string) : nat :=
  match s with
  | EmptyString => 0
  | String c s' =>
      if isspace c then count_words false s'
      else if in_word then count_words true s'
      else S (count_words true s')
  end.

Definition word_tokens (s : string) : nat := count_words false s.

(** [n] copies of the word [w], separated by single spaces. *)
Definition words (w : string) (n : nat) : string := join " " (replicate n w).

(** *** Statements about the chunker *)

(** What is known of a recorded chunk, from the reason it was closed. *)
Definition entry_ok (token_len : string → nat)
    (e : closed_by * list string) : Prop :=
  e.2 ≠ [] ∧
  match e.1 with
  | BySizeCap =>
      (MAX_TOKENS < token_len (join NL e.2))%nat ∧
      ∃ pre ln, e.2 = pre ++ [ln] ∧
                (pre = [] ∨ (token_len (join NL pre) ≤ MAX_TOKENS)%nat)
  | AtHeading | AtEndOfInput =>
      (token_len (join NL e.2) ≤ MAX_TOKENS)%nat ∧
      (MIN_TOKENS < token_len (strip (join NL e.2)))%nat
  end.

(** The loop invariant on [(trace, cur)]. *)
Definition state_ok (token_len : string → nat)
    (st : list (closed_by * list string) * list string) : Prop :=
  Forall (entry_ok token_len) st.1 ∧
  (st.2 = [] ∨ (token_len (join NL st.2) ≤ MAX_TOKENS)%nat).

(** C3 as the specification states it: every chunk but the last is within
    the cap. *)
Definition nonfinal_chunks_within_cap (token_len : string → nat)
    (lines : list string) : Prop :=
  ∀ i c, chunk_heading_recursive token_len lines !! i = Some c →
         (S i < length (chunk_heading_recursive token_len lines))%nat →
         (token_len c ≤ MAX_TOKENS)%nat.

(** The loop ran without closing any buffer: all lines are still in the
    buffer and no chunk was emitted. *)
Definition single_trailing_buffer (token_len : string → nat)
    (lines : list string) : Prop :=
  lines ≠ [] ∧ fold_left (step token_len) lines ([], []) = ([], lines).

(** C4 as the specification states it: a short trailing buffer that would
    be the only chunk is emitted all the same. *)
Definition only_chunk_is_kept (token_len : string → nat)
    (lines : list string) : Prop :=
  single_trailing_buffer token_len lines →
  (token_len (strip (join NL lines)) < MIN_TOKENS)%nat →
  strip (join NL lines) ∈ chunk_heading_recursive token_len lines.

(** Every line of every buffer satisfies [P]. *)
Definition lines_ok (P : string → Prop)
    (st : list (closed_by * list string) * list string) : Prop :=
  Forall (λ e, Forall P e.2) st.1 ∧ Forall P st.2.

End Chunker.

(** ** Python values shared by the indexer and the service *)

Module Py.
Import PyStr.

(** Exceptions: FastAPI's [HTTPException], and every other exception by
    class name and message. *)
Inductive exn :=
  | HTTPException (status_code : Z) (detail : string)
  | Exception (cls msg : string).

(** The outcome of a call that may raise. *)
Inductive result (A : Type) :=
  | Ok (a : A)
  | Raise (e : exn).
Arguments Ok {A} a.
Arguments Raise {A} e.

#[global] Instance result_ret : MRet result := λ A a, Ok a.
#[global] Instance result_bind : MBind result := λ A B f m,
  match m with
  | Ok a => f a
  | Raise e => Raise e
  end.

(** Values of the [json] module. Numbers are restricted to integers. *)
#[warnings="-register-all"]
Inductive json :=
  | JNull
  | JBool (b : bool)
  | JInt (n : Z)
  | JStr (s : string)
  | JList (items : list json)
  | JDict (items : list (string * json)).

Fixpoint assoc (k : string) (items : list (string * json)) : option json :=
  match items with
  | [] => None
  | (k', v) :: rest => if String.eqb k k' then Some v else assoc k rest
  end.

(** [data.get(key, default)]: an [AttributeError] unless [data] is a dict. *)
Definition dict_get (data : json) (key : string) (dflt : json) : result json :=
  match data with
  | JDict items => Ok (default dflt (assoc key items))
  | _ => Raise (Exception "AttributeError" "object has no attribute get")
  end.

(** The file system, by path as the program writes it: a regular file
    with its bytes, or a directory with the bytes of its entries. *)
Inductive node :=
  | File (data : string)
  | Dir (entries : gmap string string).

(** [os.path.exists(p)] *)
Definition exists_ (fs : gmap string node) (p : string) : bool :=
  bool_decide (is_Some (fs !! p)).

(** [open(p).read()] *)
Definition read_file (fs : gmap string node) (p : string) : result string :=
  match fs !! p with
  | Some (File data) => Ok data
  | Some (Dir _) => Raise (Exception "IsADirectoryError" p)
  | None => Raise (Exception "FileNotFoundError" p)
  end.

(** [open(os.path.join(d, name)).read()] *)
Definition read_entry (fs : gmap string node) (d name : string) : result string :=
  match fs !! d with
  | Some (Dir entries) =>
      match entries !! name with
      | Some data => Ok data
      | None => Raise (Exception "FileNotFoundError" name)
      end
  | _ => Raise (Exception "FileNotFoundError" name)
  end.

(** [open(p, "w").write(data)] *)
Definition write_file (fs : gmap string node) (p data : string)
  : result (gmap string node) :=
  match fs !! p with
  | Some (Dir _) => Raise (Exception "IsADirectoryError" p)
  | _ => Ok (<[p := File data]> fs)
  end.

(** [os.listdir(d)], in the order the operating system gives. *)
Definition listdir (fs : gmap string node) (d : string) : result (list string) :=
  match fs !! d with
  | Some (Dir entries) => Ok (map fst (map_to_list entries))
  | Some (File _) => Raise (Exception "NotADirectoryError" d)
  | None => Raise (Exception "FileNotFoundError" d)
  end.

(** [sorted(names)]: insertion into code-point order. *)
Fixpoint insert_sorted (x : string) (l : list string) : list string :=
  match l with
  | [] => [x]
  | y :: l' => if String.leb x y then x :: l else y :: insert_sorted x l'
  end.

Definition sorted (l : list string) : list string :=
  foldr insert_sorted [] l.

End Py.

(** ** indexer/build_index.py *)

Module Indexer.
Import PyStr Py.

Definition INPUT_DIR : string := "chunks".
Definition FAISS_FILE : string := "aiss_index.index".
Definition META_FILE : string := "meta.json".
Definition INDEX_INFO_FILE : string := "index_info.json".
Definition BATCH_SIZE : nat := 16.

(** [faiss.IndexFlatL2]: the dimension and the stored vectors. *)
Record IndexFlatL2 (F : Type) := { d : nat; xb : list (list F) }.
Arguments d {F} _.
Arguments xb {F} _.

Definition ntotal {F} (index : IndexFlatL2 F) : nat := length (xb index).

(** What a run can change or consume: the files, the embedding calls made
    so far (the texts sent, in order) and the number of clock readings. *)
Record world := {
  fs : gmap string node;
  embed_log : list json;
  clock : nat
}.

(** Computations that raise and change the world. *)
Definition M (A : Type) : Type := world → result A * world.

#[global] Instance M_ret : MRet M := λ A a w, (Ok a, w).
#[global] Instance M_bind : MBind M := λ A B f m w,
  match m w with
  | (Ok a, w') => f a w'
  | (Raise e, w') => (Raise e, w')
  end.

Definition lift {A} (r : result A) : M A := λ w, (r, w).
Definition get_fs : M (gmap string node) := λ w, (Ok (fs w), w).
Definition put_fs (fs' : gmap string node) : M unit :=
  λ w, (Ok (), {| fs := fs'; embed_log := embed_log w; clock := clock w |}).
(** [datetime.now()]: the reading is the number of earlier readings. *)
Definition now : M nat :=
  λ w, (Ok (clock w), {| fs := fs w; embed_log := embed_log w; clock := S (clock w) |}).

Definition of_option {A} (cls : string) (o : option A) : result A :=
  match o with
  | Some a => Ok a
  | None => Raise (Exception cls "")
  end.

Section Indexer.

(** [float32] and its zero. *)
Variable F : Type.
Variable zero : F.

(** [genai.embed_content]: the answer to the [n]-th call of the run on a
    text, [None] when the call raises. *)
Variable embed_content : nat → json → option (list F).
(** [hashlib.md5(bytes).hexdigest()] *)
Variable md5_hexdigest : string → string.
(** [json.loads] ([None] when it raises) and [json.dumps] *)
Variable json_loads : string → option json.
Variable json_dumps : json → string.
(** The bytes [faiss.write_index] writes and [faiss.read_index] reads. *)
Variable faiss_loads : string → option (IndexFlatL2 F).
Variable faiss_dumps : IndexFlatL2 F → string.
(** [datetime.isoformat] of the [n]-th clock reading. *)
Variable isoformat : nat → string.

(** Lines 24-38: one text of the batch, given the batch's [embeddings] so
    far. *)
Definition embed_one (embeddings : list (list F)) (text : json) (w : world)
  : list F * world :=
  let w' := {| fs := fs w; embed_log := embed_log w ++ [text]; clock := clock w |} in
  match embed_content (length (embed_log w)) text with
  | Some v => (v, w')
  | None =>
      match embeddings with
      | e0 :: _ => (replicate (length e0) zero, w')
      | [] => (replicate 768 zero, w')
      end
  end.

Fixpoint embeddings_loop (texts : list json) (embeddings : list (list F))
    (w : world) : list (list F) * world :=
  match texts with
  | [] => (embeddings, w)
  | text :: rest =>
      let '(e, w') := embed_one embeddings text w in
      embeddings_loop rest (embeddings ++ [e]) w'
  end.

Definition get_gemini_embeddings (texts : list json) (w : world)
  : list (list F) * world :=
  embeddings_loop texts [] w.

(** Lines 52-67: one file of the chunk directory; [t] counts the clock
    readings. A file that fails to load changes nothing. *)
Definition load_one (files : gmap string node) (input_dir : string)
    (acc : list json * list json * nat) (f : string)
  : list json * list json * nat :=
  let '(texts, metas, t) := acc in
  let loaded : result (json * json) :=
    bytes ← read_entry files input_dir f;
    data ← of_option "JSONDecodeError" (json_loads bytes);
    text ← dict_get data "text" (JStr "");
    url ← dict_get data "url" (JStr "");
    title ← dict_get data "title" (JStr "");
    position ← dict_get data "position" (JInt 0);
    checksum ← dict_get data "checksum" (JStr "");
    Ok (text, JDict [("url", url); ("title", title); ("position", position);
                     ("checksum", checksum); ("filename", JStr f);
                     ("indexed_at", JStr (isoformat t))]) in
  match loaded with
  | Ok (text, meta) => (texts ++ [text], metas ++ [meta], S t)
  | Raise _ => acc
  end.

Definition json_files (names : list string) : list string :=
  filter (λ f, endswith ".json" f = true) names.

Definition load_chunks (input_dir : string) : M (list json * list json) :=
  λ w,
    if negb (exists_ (fs w) input_dir) then (Ok ([], []), w)
    else
      match listdir (fs w) input_dir with
      | Raise e => (Raise e, w)
      | Ok names =>
          let '(texts, metas, t) :=
            fold_left (load_one (fs w) input_dir) (sorted (json_files names))
                      ([], [], clock w) in
          (Ok (texts, metas),
           {| fs := fs w; embed_log := embed_log w; clock := t |})
      end.

(** Lines 71-84: [None] when the directory is missing. *)
Definition calculate_directory_hash (files : gmap string node)
    (input_dir : string) : result (option string) :=
  if negb (exists_ files input_dir) then Ok None
  else
    names ← listdir files input_dir;
    contents ← mapM (read_entry files input_dir) (json_files (sorted names));
    Ok (Some (md5_hexdigest (String.concat "" contents))).

(** Lines 97-100: [index_info.get('content_hash')]. *)
Definition read_last_hash (files : gmap string node) : result json :=
  bytes ← read_file files INDEX_INFO_FILE;
  index_info ← of_option "JSONDecodeError" (json_loads bytes);
  dict_get index_info "content_hash" JNull.

(** [last_hash != current_hash], where [current_hash] is a [str] or
    [None]. *)
Definition hash_differs (last_hash : json) (current_hash : option string) : bool :=
  match last_hash, current_hash with
  | JNull, None => false
  | JStr a, Some b => negb (String.eqb a b)
  | _, _ => true
  end.

Definition should_reindex (files : gmap string node) (input_dir : string)
  : result bool :=
  if negb (exists_ files FAISS_FILE) || negb (exists_ files META_FILE) then Ok true
  else if negb (exists_ files INDEX_INFO_FILE) then Ok true
  else
    match read_last_hash files with
    | Raise _ => Ok true
    | Ok last_hash =>
        current_hash ← calculate_directory_hash files input_dir;
        Ok (hash_differs last_hash current_hash)
    end.

Definition hash_json (h : option string) : json :=
  match h with
  | Some s => JStr s
  | None => JNull
  end.

(** Lines 117-122: the [info] dictionary. *)
Definition index_info (content_hash : option string) (num_chunks t : nat) : json :=
  JDict [("content_hash", hash_json content_hash);
         ("num_chunks", JInt (Z.of_nat num_chunks));
         ("indexed_at", JStr (isoformat t));
         ("model", JStr "text-embedding-004")].

Definition save_index_info (content_hash : option string) (num_chunks : nat)
  : M unit :=
  t ← now;
  files ← get_fs;
  files' ← lift (write_file files INDEX_INFO_FILE
                   (json_dumps (index_info content_hash num_chunks t)));
  put_fs files'.

(** [np.stack]: a [ValueError] on no arrays or on arrays of different
    shapes. *)
Definition np_stack (arrays : list (list F)) : result (list (list F)) :=
  match arrays with
  | [] => Raise (Exception "ValueError" "need at least one array to stack")
  | a0 :: _ =>
      if forallb (λ a, length a =? length a0) arrays then Ok arrays
      else Raise (Exception "ValueError" "all input arrays must have the same shape")
  end.

(** Lines 153-157: the batches [texts[i:i+BATCH_SIZE]] for
    [i = 0, BATCH_SIZE, ...], one per unit of [fuel]. *)
Fixpoint batch_loop (fuel : nat) (texts : list json)
    (all_embeddings : list (list F)) (w : world) : list (list F) * world :=
  match fuel, texts with
  | S fuel', _ :: _ =>
      let '(batch_embs, w') := get_gemini_embeddings (take BATCH_SIZE texts) w in
      batch_loop fuel' (drop BATCH_SIZE texts) (all_embeddings ++ batch_embs) w'
  | _, _ => (all_embeddings, w)
  end.

(** Lines 132-137: the persisted index and metadata. *)
Definition load_existing : M (option (IndexFlatL2 F) * json) :=
  files ← get_fs;
  index_bytes ← lift (read_file files FAISS_FILE);
  index ← lift (of_option "RuntimeError" (faiss_loads index_bytes));
  meta_bytes ← lift (read_file files META_FILE);
  metas ← lift (of_option "JSONDecodeError" (json_loads meta_bytes));
  mret (Some index, metas).

(** Lines 140-184. *)
Definition rebuild : M (option (IndexFlatL2 F) * json) :=
  '(texts, metas) ← load_chunks INPUT_DIR;
  if length texts =? 0 then mret (None, JList [])
  else
    all_embeddings ← (λ w, let '(embs, w') := batch_loop (length texts) texts [] w
                           in (Ok embs, w'));
    embeddings_array ← lift (np_stack all_embeddings);
    let dim := length (default [] (head embeddings_array)) in
    let index := {| d := dim; xb := embeddings_array |} in
    files ← get_fs;
    files ← lift (write_file files FAISS_FILE (faiss_dumps index));
    put_fs files;;
    files ← lift (write_file files META_FILE (json_dumps (JList metas)));
    put_fs files;;
    content_hash ← lift (calculate_directory_hash files INPUT_DIR);
    save_index_info content_hash (length texts);;
    mret (Some index, JList metas).

Definition build_faiss_index (force_reindex : bool)
  : M (option (IndexFlatL2 F) * json) :=
  needed ← (if force_reindex then mret true
            else get_fs ≫= λ files, lift (should_reindex files INPUT_DIR));
  if negb needed then load_existing else rebuild.

(** What the build wrote reads back: the two conditions on [json] and the
    one on [faiss] under which the files of a build can be loaded. *)
Definition reads_back (index : IndexFlatL2 F) (metas : json) : Prop :=
  faiss_loads (faiss_dumps index) = Some index ∧
  json_loads (json_dumps metas) = Some metas ∧
  ∀ h n t, ∃ info,
    json_loads (json_dumps (index_info h n t)) = Some info ∧
    dict_get info "content_hash" JNull = Ok (hash_json h).

End Indexer.

End Indexer.

(** Stand-ins for the libraries and the provider, for concrete runs. *)
Module IndexerDemo.
Import PyStr Py Indexer.

Definition md5_hexdigest (bytes : string) : string := "md5:" +:+ bytes.
Definition isoformat (n : nat) : string := "2025-01-01T00:00:0" +:+ pretty n.

Definition index : IndexFlatL2 Z :=
  {| d := 3; xb := [[1; 2; 3]; [0; 0; 0]]%Z |}.

Definition records : list json :=
  [JDict [("url", JStr "http://a"); ("title", JStr "A"); ("position", JInt 0);
          ("checksum", JStr "c0"); ("filename", JStr "a.json");
          ("indexed_at", JStr "2025-01-01T00:00:00")];
   JDict [("url", JStr ""); ("title", JStr ""); ("position", JInt 0);
          ("checksum", JStr ""); ("filename", JStr "b.json");
          ("indexed_at", JStr "2025-01-01T00:00:01")]].

(** A codec that knows the few documents of the runs below. *)
Definition json_loads (bytes : string) : option json :=
  match bytes with
  | "A" => Some (JDict [("text", JStr "alpha"); ("url", JStr "http://a");
                        ("title", JStr "A"); ("position", JInt 0);
                        ("checksum", JStr "c0")])
  | "B" => Some (JDict [("text", JStr "beta")])
  | "L" => Some (JList [])
  | "metas" => Some (JList records)
  | "info-" => Some (JDict [])
  | String "i"%char (String "n"%char (String "f"%char (String "o"%char
      (String ":"%char h)))) => Some (JDict [("content_hash", JStr h)])
  | _ => None
  end.

Definition json_dumps (v : json) : string :=
  match v with
  | JDict (("content_hash", JStr h) :: _) => "info:" +:+ h
  | JDict _ => "info-"
  | JList _ => "metas"
  | _ => "?"
  end.

Definition faiss_dumps (ix : IndexFlatL2 Z) : string := "faiss".
Definition faiss_loads (bytes : string) : option (IndexFlatL2 Z) :=
  if bool_decide (bytes = "faiss") then Some index else None.

(** The second call of the run fails. *)
Definition embed_content (n : nat) (text : json) : option (list Z) :=
  if (n =? 1)%nat then None else Some [1; 2; 3]%Z.

(** Four chunk files, of which two load, and a file that is not a chunk. *)
Definition store : gmap string node :=
  {[ "chunks" := Dir {[ "a.json" := "A"; "b.json" := "B"; "c.json" := "{";
                        "d.json" := "L"; "notes.txt" := "A" ]} ]}.

Definition start : world := {| fs := store; embed_log := []; clock := 0 |}.

Definition build_faiss_index :=
  build_faiss_index Z 0%Z embed_content md5_hexdigest json_loads json_dumps
    faiss_loads faiss_dumps isoformat.

(** A provider of dimension 3 whose seventeenth call fails, and seventeen
    chunk files. *)
Definition embed_content_17 (n : nat) (text : json) : option (list Z) :=
  if (n <? 16)%nat then Some [1; 1; 1]%Z else None.

Definition store_17 : gmap string node :=
  {[ "chunks" := Dir (list_to_map
       (map (λ i : nat, (pretty i +:+ ".json", "A")) (seq 10 17))) ]}.

Definition start_17 : world := {| fs := store_17; embed_log := []; clock := 0 |}.

End IndexerDemo.

(** ** rag_service/app.py *)

Module Service.
Import PyStr Py.
Export Indexer (IndexFlatL2, of_option).

Definition TOP_K : Z := 5.

(** One streamed completion chunk: [delta.content] of each choice. *)
Record chunk := { choices : list (option string) }.

Section Service.

Variable F : Type.

(** [os.path.dirname(os.path.dirname(os.path.abspath(__file__)))] *)
Variable PARENT_DIR : string.

Definition FAISS_FILE : string := path_join PARENT_DIR "faiss_index.index".
Definition META_FILE : string := path_join PARENT_DIR "meta.json".

(** [str(e)] *)
Variable exn_str : exn → string.
(** [format(v)] of a value that is not a [str] *)
Variable json_repr : json → string.
Variable json_loads : string → option json.
Variable faiss_loads : string → option (IndexFlatL2 F).
(** [genai.embed_content] on a query *)
Variable embed_content : string → result (list F).
(** [zip(D[0], I[0])] of [index.search(query, top_k)] *)
Variable index_search : IndexFlatL2 F → list F → option Z → result (list (F * Z)).
(** [groq_client.chat.completions.create(..., stream=True)] on a prompt:
    the chunks it yields, then the exception that ends it, if any. *)
Variable groq_stream : string → list chunk * option exn.

(** What [retrieve_top_k] returns for one hit. *)
Record doc := {
  distance : F;
  text : json;
  url : json;
  title : json;
  position : json
}.

Record source := {
  source_title : json;
  source_url : json;
  snippet : string;
  source_distance : F;
  source_position : json
}.

(** The dictionaries the stream carries, by their ['type']. *)
Inductive event :=
  | Sources (sources : list source)
  | Token (content : string)
  | Done
  | Error (message : string).

Definition event_type (ev : event) : string :=
  match ev with
  | Sources _ => "sources"
  | Token _ => "token"
  | Done => "done"
  | Error _ => "error"
  end.

Definition embed_query (query : string) : result (list F) :=
  match embed_content query with
  | Ok v => Ok v
  | Raise e => Raise (HTTPException 500 (exn_str e))
  end.

Definition py_len (v : json) : result Z :=
  match v with
  | JList items => Ok (Z.of_nat (length items))
  | JDict items => Ok (Z.of_nat (length items))
  | JStr s => Ok (Z.of_nat (String.length s))
  | _ => Raise (Exception "TypeError" "object has no len()")
  end.

(** [v[i]] for an integer [i], counting from the end when negative. *)
Definition py_getitem (v : json) (i : Z) : result json :=
  match v with
  | JList items =>
      let n := Z.of_nat (length items) in
      let j := if (i <? 0)%Z then (n + i)%Z else i in
      if (j <? 0)%Z then Raise (Exception "IndexError" "list index out of range")
      else of_option "IndexError" (items !! Z.to_nat j)
  | JStr s =>
      let n := Z.of_nat (String.length s) in
      let j := if (i <? 0)%Z then (n + i)%Z else i in
      if (j <? 0)%Z || (n <=? j)%Z
      then Raise (Exception "IndexError" "string index out of range")
      else Ok (JStr (substring (Z.to_nat j) 1 s))
  | JDict _ => Raise (Exception "KeyError" "")
  | _ => Raise (Exception "TypeError" "object is not subscriptable")
  end.

(** [v[:n]] *)
Definition py_prefix (n : nat) (v : json) : result json :=
  match v with
  | JStr s => Ok (JStr (substring 0 n s))
  | JList items => Ok (JList (take n items))
  | _ => Raise (Exception "TypeError" "object is not subscriptable")
  end.

(** Lines 86-96: one pair of [zip(D[0], I[0])]. *)
Definition collect_hit (metas : json) (results : list doc) (hit : F * Z)
  : result (list doc) :=
  let '(dist, idx) := hit in
  skip ← (if (idx =? -1)%Z then Ok true
          else n ← py_len metas; Ok (n <=? idx)%Z);
  if skip : bool then Ok results
  else
    meta ← py_getitem metas idx;
    full ← dict_get meta "text" (JStr "");
    text ← py_prefix 1500 full;
    url ← dict_get meta "url" (JStr "");
    title ← dict_get meta "title" (JStr "Unknown");
    position ← dict_get meta "position" (JInt 0);
    Ok (results ++ [{| distance := dist; text := text; url := url;
                       title := title; position := position |}]).

Fixpoint collect_hits (metas : json) (results : list doc) (hits : list (F * Z))
  : result (list doc) :=
  match hits with
  | [] => Ok results
  | hit :: rest =>
      results' ← collect_hit metas results hit;
      collect_hits metas results' rest
  end.

(** Lines 70-97, the body of the [try]. *)
Definition retrieve_body (files : gmap string node) (query : string)
    (top_k : option Z) : result (list doc) :=
  if negb (exists_ files FAISS_FILE)
  then Raise (HTTPException 404 ("Index not found at: " +:+ FAISS_FILE))
  else if negb (exists_ files META_FILE)
  then Raise (HTTPException 404 ("Metadata not found at: " +:+ META_FILE))
  else
    index_bytes ← read_file files FAISS_FILE;
    index ← of_option "RuntimeError" (faiss_loads index_bytes);
    meta_bytes ← read_file files META_FILE;
    metas ← of_option "JSONDecodeError" (json_loads meta_bytes);
    query_emb ← embed_query query;
    hits ← index_search index query_emb top_k;
    collect_hits metas [] hits.

(** Lines 68-100: [except Exception as e] also catches the
    [HTTPException]s raised in the body. *)
Definition retrieve_top_k (files : gmap string node) (query : string)
    (top_k : option Z) : result (list doc) :=
  match retrieve_body files query top_k with
  | Ok results => Ok results
  | Raise e => Raise (HTTPException 500 (exn_str e))
  end.

(** Lines 139-145: [d["text"][:250] + "..."] needs a [str]. *)
Definition source_of (d : doc) : result source :=
  match text d with
  | JStr s =>
      Ok {| source_title := title d; source_url := url d;
            snippet := substring 0 250 s +:+ "...";
            source_distance := distance d; source_position := position d |}
  | _ => Raise (Exception "TypeError" "can only concatenate list to list")
  end.

(** An f-string field. *)
Definition format (v : json) : string :=
  match v with
  | JStr s => s
  | _ => json_repr v
  end.

(** Lines 151-159. *)
Definition build_prompt (docs : list doc) (query : string) : string :=
  let context :=
    join (NL +:+ NL +:+ "---" +:+ NL +:+ NL)
      (imap (λ i d, "Source " +:+ pretty (i + 1) +:+ " - " +:+ format (title d)
                    +:+ ":" +:+ NL +:+ format (text d)) docs) in
  "You are a helpful assistant. Use this context to answer:" +:+ NL +:+ NL
  +:+ context +:+ NL +:+ NL +:+ "Question: " +:+ query +:+ NL +:+ NL +:+ "Answer:".

(** Lines 181-186: the two [except] clauses. *)
Definition error_event (e : exn) : event :=
  match e with
  | HTTPException _ detail => Error detail
  | Exception _ _ => Error (exn_str e)
  end.

(** Lines 172-176: the events of one chunk. *)
Definition token_events (c : chunk) : list event :=
  match choices c with
  | Some content :: _ => if bool_decide (content = "") then [] else [Token content]
  | _ => []
  end.

(** What one request produced: the events yielded, in order, and the
    prompts sent to the generation provider. *)
Record run := { events : list event; groq_calls : list string }.

Definition event_generator (files : gmap string node) (query : string)
    (top_k : option Z) : run :=
  match retrieve_top_k files query top_k with
  | Raise e => {| events := [error_event e]; groq_calls := [] |}
  | Ok [] => {| events := [Error "No docs found"]; groq_calls := [] |}
  | Ok docs =>
      match mapM source_of docs with
      | Raise e => {| events := [error_event e]; groq_calls := [] |}
      | Ok sources =>
          let prompt := build_prompt docs query in
          let '(chunks, failure) := groq_stream prompt in
          {| events := Sources sources :: concat (map token_events chunks)
                       ++ [match failure with
                           | None => Done
                           | Some e => error_event e
                           end];
             groq_calls := [prompt] |}
      end
  end.

(** Lines 118-197: the request handler. *)
Definition chat (files : gmap string node) (request_query : string)
    (request_top_k : option Z) : result run :=
  let query := strip request_query in
  if bool_decide (query = "") then Raise (HTTPException 400 "Query empty")
  else Ok (event_generator files query request_top_k).

(** C1 as the specification states it: with no result the stream is one
    event that is not of type [error], and generation is not invoked. *)
Definition no_docs_is_a_normal_event (files : gmap string node)
    (query : string) (top_k : option Z) : Prop :=
  retrieve_top_k files query top_k = Ok [] →
  ∃ ev, events (event_generator files query top_k) = [ev] ∧
        event_type ev ≠ "error" ∧
        groq_calls (event_generator files query top_k) = [].

End Service.

Arguments distance {F} _.
Arguments text {F} _.
Arguments url {F} _.
Arguments title {F} _.
Arguments position {F} _.
Arguments Sources {F} _.
Arguments Token {F} _.
Arguments Done {F}.
Arguments Error {F} _.
Arguments event_type {F} _.
Arguments source_of {F} _.
Arguments token_events {F} _.
Arguments error_event {F} _ _.
Arguments Build_run {F} _ _.
Arguments events {F} _.
Arguments groq_calls {F} _.

(** The text fragments of a stream: the non-empty [delta.content] of the
    first choice of each chunk. *)
Definition fragments (chunks : list chunk) : list string :=
  chunks ≫= λ c,
    match choices c with
    | Some content :: _ => if bool_decide (content = "") then [] else [content]
    | _ => []
    end.

Definition is_type {F} (tag : string) (ev : event F) : bool :=
  String.eqb (event_type ev) tag.

End Service.

(** Stand-ins for the libraries and providers, for concrete runs. *)
Module ServiceDemo.
Import PyStr Py Service.

Definition exn_str (e : exn) : string :=
  match e with
  | HTTPException code detail => pretty code +:+ ": " +:+ detail
  | Exception _ msg => msg
  end.

Definition json_repr (v : json) : string := "?".

Definition json_loads (bytes : string) : option json :=
  Some (JList [JDict [("text", JStr "alpha"); ("title", JStr "A")];
               JDict [("text", JStr "beta"); ("title", JStr "B")]]).

Definition faiss_loads (bytes : string) : option (IndexFlatL2 Z) :=
  if bool_decide (bytes = "") then Some {| Indexer.d := 2; Indexer.xb := [] |}
  else Some {| Indexer.d := 2; Indexer.xb := [[0; 0]; [3; 4]]%Z |}.

Definition embed_content (query : string) : result (list Z) := Ok [0; 0]%Z.

(** An empty index answers with the index -1 only. *)
Definition index_search (index : IndexFlatL2 Z) (q : list Z) (top_k : option Z)
  : result (list (Z * Z)) :=
  match Indexer.xb index with
  | [] => Ok [(0, -1); (0, -1)]%Z
  | _ => Ok [(0, 0); (25, 1); (0, -1)]%Z
  end.

(** A stream that yields two fragments and then fails. *)
Definition groq_stream (prompt : string) : list chunk * option exn :=
  ([{| choices := [Some "Hel"] |}; {| choices := [Some ""] |};
    {| choices := [Some "lo"] |}],
   Some (Exception "APIError" "connection lost")).

Definition PARENT_DIR : string := "/srv/rag".

Definition with_empty_index : gmap string node :=
  {[ "/srv/rag/faiss_index.index" := File ""; "/srv/rag/meta.json" := File "[]" ]}.

Definition with_index : gmap string node :=
  {[ "/srv/rag/faiss_index.index" := File "ix"; "/srv/rag/meta.json" := File "[]" ]}.

End ServiceDemo.

From stdpp Require Import sorting.

(** ** processor/chunker.py: the runs of lines and the script around the
    chunker *)

Module ChunkerMain.
Import PyStr Chunker.

Section Segments.

Variable token_len : string → nat.

(** The loop of [chunk_heading_recursive] once more, recording every
    buffer it closes, emitted or not. *)
Definition step_seg (st : list (closed_by * list string) * list string)
    (ln : string) : list (closed_by * list string) * list string :=
  let '(segs, cur) := st in
  let '(segs, cur) :=
    if startswith "#" ln then
      match cur with
      | [] => (segs, cur)
      | _ :: _ => (segs ++ [(AtHeading, cur)], [])
      end
    else (segs, cur) in
  let cur := cur ++ [ln] in
  if (MAX_TOKENS <? token_len (join NL cur))%nat
  then (segs ++ [(BySizeCap, cur)], [])
  else (segs, cur).

Definition segments (lines : list string) : list (closed_by * list string) :=
  let '(segs, cur) := fold_left step_seg lines ([], []) in
  match cur with
  | [] => segs
  | _ :: _ => segs ++ [(AtEndOfInput, cur)]
  end.

(** Lines 38, 44 and 48: which closed buffers become chunks. *)
Definition emitted (e : closed_by * list string) : bool :=
  match e.1 with
  | BySizeCap => true
  | AtHeading | AtEndOfInput =>
      (MIN_TOKENS <? token_len (strip (join NL e.2)))%nat
  end.

End Segments.

(** What the loop keeps, with [seen] the lines read so far: the closed
    buffers and the open one are the lines read, in order; no closed
    buffer is empty; a heading is only ever the first line of a buffer. *)
Definition no_inner_heading (buf : list string) : Prop :=
  Forall (λ ln, startswith "#" ln = false) (tail buf).

Definition seg_inv (seen : list string)
    (st : list (closed_by * list string) * list string) : Prop :=
  concat (map snd st.1) ++ st.2 = seen ∧
  Forall (λ e, e.2 ≠ [] ∧ no_inner_heading e.2) st.1 ∧
  no_inner_heading st.2.

(** [s.split(sep)] for a separator of one character. *)
Fixpoint split_on (sep : ascii) (s : string) : list string :=
  match s with
  | EmptyString => [EmptyString]
  | String c s' =>
      if bool_decide (c = sep) then EmptyString :: split_on sep s'
      else
        match split_on sep s' with
        | [] => [String c EmptyString]
        | p :: ps => String c p :: ps
        end
  end.

Definition NLc : ascii := Ascii.ascii_of_nat 10.

(** Line 61: [[ln.strip() for ln in md.split("\n") if ln.strip()]]. *)
Definition clean_lines (md : string) : list string :=
  List.filter (λ ln, negb (String.eqb ln "")) (map strip (split_on NLc md)).

(** [c in s] for a character. *)
Fixpoint contains (c : ascii) (s : string) : bool :=
  match s with
  | EmptyString => false
  | String c' s' => bool_decide (c' = c) || contains c s'
  end.

(** A decimal digit, and a string of digits. *)
Definition is_digit (c : ascii) : bool :=
  bool_decide (48 ≤ Ascii.nat_of_ascii c ≤ 57)%nat.

Fixpoint all_digits (s : string) : bool :=
  match s with
  | EmptyString => true
  | String c s' => is_digit c && all_digits s'
  end.

(** One element of [pages]: [data["url"]], [data["html"]] and
    [data.get("title", "")]. *)
Record page := { page_url : Py.json; page_html : string; page_title : Py.json }.

(** The dictionary [out] of lines 67-73. *)
Record chunk_record := {
  rec_url : Py.json;
  rec_title : Py.json;
  rec_position : nat;
  rec_text : string;
  rec_checksum : string
}.

(** Line 74: [f"page_{p_i}_chunk_{c_i}.json"]. *)
Definition outname (p_i c_i : nat) : string :=
  "page_" +:+ pretty p_i +:+ "_chunk_" +:+ pretty c_i +:+ ".json".

Section Script.

Variable token_len : string → nat.
(** [html_to_clean_markdown]: BeautifulSoup and markdownify. *)
Variable html_to_clean_markdown : string → string.
(** [hashlib.md5(part.encode()).hexdigest()] *)
Variable md5_hexdigest : string → string.
(** The bytes [json.dump(out, ..., ensure_ascii=False, indent=2)] writes. *)
Variable dump_record : chunk_record → string.

(** Lines 56-75 for one page: the files written, in order. *)
Definition page_files (p_i : nat) (data : page) : list (string * chunk_record) :=
  let md := html_to_clean_markdown (page_html data) in
  let lines := clean_lines md in
  let parts := chunk_heading_recursive token_len lines in
  imap (λ c_i part,
          (outname p_i c_i,
           {| rec_url := page_url data; rec_title := page_title data;
              rec_position := c_i; rec_text := part;
              rec_checksum := md5_hexdigest part |})) parts.

(** Lines 55-75: the files written for all pages, in order. *)
Definition all_files (pages : list page) : list (string * chunk_record) :=
  concat (imap page_files pages).

(** The output directory after the script, from its entries before. *)
Definition write_all (pages : list page) (entries : gmap string string)
  : gmap string string :=
  fold_left (λ dir f, <[f.1 := dump_record f.2]> dir) (all_files pages) entries.

End Script.

End ChunkerMain.

(** ** indexer/build_index.py: what the vectors and records are *)

Module IndexerOrder.
Import PyStr Py Indexer.

Section Order.

Variable F : Type.
Variable zero : F.
Variable embed_content : nat → json → option (list F).
Variable json_loads : string → option json.

(** The vector kept for the text sent by call number [call]: the
    provider's answer, or zeros when the call failed. *)
Definition vector_for (call : nat) (text : json) (x : list F) : Prop :=
  match embed_content call text with
  | Some v => x = v
  | None => ∃ n, x = replicate n zero
  end.

(** A text and a metadata record that come from the same chunk file of
    directory [d]. *)
Definition same_file (files : gmap string node) (d : string)
    (text meta : json) : Prop :=
  ∃ f bytes data,
    endswith ".json" f = true ∧
    read_entry files d f = Ok bytes ∧
    json_loads bytes = Some data ∧
    dict_get data "text" (JStr "") = Ok text ∧
    dict_get meta "filename" JNull = Ok (JStr f) ∧
    dict_get meta "url" JNull = dict_get data "url" (JStr "") ∧
    dict_get meta "checksum" JNull = dict_get data "checksum" (JStr "") ∧
    ∀ dflt, dict_get meta "text" dflt = Ok dflt.

End Order.

End IndexerOrder.

(** ** indexer/build_index.py: the test search *)

Module IndexerSearch.
Import PyStr Py Indexer.

(** One element of the list [search_index] returns. *)
Record search_result (F : Type) := {
  rank : nat;
  found_distance : F;
  metadata : json
}.
Arguments rank {F} _.
Arguments found_distance {F} _.
Arguments metadata {F} _.

Section Search.

Variable F : Type.
Variable zero : F.
Variable embed_content : nat → json → option (list F).
Variable json_loads : string → option json.
Variable faiss_loads : string → option (IndexFlatL2 F).
(** [zip(distances[0], indices[0])] of [index.search(query, top_k)] *)
Variable index_search : IndexFlatL2 F → list F → Z → result (list (F * Z)).

(** Lines 207-214, from position [i] of the enumeration on. *)
Fixpoint collect_ranked (metas : json) (i : nat) (hits : list (F * Z))
    (results : list (search_result F)) : result (list (search_result F)) :=
  match hits with
  | [] => Ok results
  | (dist, idx) :: rest =>
      if (idx =? -1)%Z then collect_ranked metas (S i) rest results
      else
        meta ← Service.py_getitem metas idx;
        collect_ranked metas (S i) rest
          (results ++ [{| rank := i + 1; found_distance := dist;
                          metadata := meta |}])
  end.

(** Lines 187-216. *)
Definition search_index (query : string) (top_k : Z)
  : M (list (search_result F)) :=
  files ← get_fs;
  if negb (exists_ files FAISS_FILE) then mret []
  else
    index_bytes ← lift (read_file files FAISS_FILE);
    index ← lift (of_option "RuntimeError" (faiss_loads index_bytes));
    meta_bytes ← lift (read_file files META_FILE);
    metas ← lift (of_option "JSONDecodeError" (json_loads meta_bytes));
    embeddings ← (λ w, let '(embs, w') :=
                         get_gemini_embeddings F zero embed_content
                           [JStr query] w
                       in (Ok embs, w'));
    query_embedding ← lift (of_option "IndexError" (head embeddings));
    hits ← lift (index_search index query_embedding top_k);
    lift (collect_ranked metas 0 hits []).

End Search.

(** A stand-in for [index.search]: the second of three hits is the
    sentinel. *)
Definition demo_search (index : IndexFlatL2 Z) (q : list Z) (top_k : Z)
  : result (list (Z * Z)) :=
  Ok [(0, 1); (5, -1); (9, 0)]%Z.

Definition demo_search_index :=
  search_index Z 0%Z IndexerDemo.embed_content IndexerDemo.json_loads
    IndexerDemo.faiss_loads demo_search.

(** A stand-in whose second hit lies beyond two metadata records. *)
Definition demo_search_far (index : IndexFlatL2 Z) (q : list Z) (top_k : Z)
  : result (list (Z * Z)) :=
  Ok [(0, 0); (7, 5)]%Z.

End IndexerSearch.


(** ** The service: what a stream and a retrieval are made of *)

Module ServiceStream.
Import PyStr Py Service.

Section Stream.

Variable F : Type.

(** Line 87, negated: the hits the loop does not skip. *)
Definition kept (metas : json) (hit : F * Z) : bool :=
  negb (hit.2 =? -1)%Z &&
  match py_len metas with
  | Ok n => (hit.2 <? n)%Z
  | Raise _ => false
  end.

(** Lines 89-96: the document made of one hit. *)
Definition doc_of_hit (metas : json) (hit : F * Z) (d : doc F) : Prop :=
  distance d = hit.1 ∧
  ∃ meta full,
    py_getitem metas hit.2 = Ok meta ∧
    dict_get meta "text" (JStr "") = Ok full ∧
    py_prefix 1500 full = Ok (text d) ∧
    dict_get meta "url" (JStr "") = Ok (url d) ∧
    dict_get meta "title" (JStr "Unknown") = Ok (title d) ∧
    dict_get meta "position" (JInt 0) = Ok (position d).

(** Lines 139-145: the source entry of one document. *)
Definition source_of_doc (s : source F) (d : doc F) : Prop :=
  source_title F s = title d ∧
  source_url F s = url d ∧
  source_distance F s = distance d ∧
  source_position F s = position d ∧
  ∃ t, text d = JStr t ∧ snippet F s = substring 0 250 t +:+ "...".

(** The events that end a stream. *)
Definition terminal (ev : event F) : bool :=
  match ev with
  | Done | Error _ => true
  | _ => false
  end.

(** What a client assembles from a stream: the contents of its token
    events, in order. *)
Fixpoint answer (evs : list (event F)) : string :=
  match evs with
  | [] => ""
  | Token content :: rest => content +:+ answer rest
  | _ :: rest => answer rest
  end.

End Stream.

Arguments kept {F} _ _.
Arguments doc_of_hit {F} _ _ _.
Arguments source_of_doc {F} _ _.
Arguments terminal {F} _.
Arguments answer {F} _.

(** [chunk.choices[0].delta.content] where line 173 lets it through. *)
Definition first_delta (c : chunk) : string :=
  match choices c with
  | Some content :: _ => content
  | _ => ""
  end.

(** A query of white space only. *)
Definition blank (s : string) : Prop :=
  Forall (λ c, isspace c = true) (list_ascii_of_string s).

End ServiceStream.

(** The service beside the files of a build: the metadata file of the
    builder's stand-in run, and some index file. *)
Module PipelineDemo.
Import Py.

Definition served : gmap string node :=
  {[ "/srv/rag/faiss_index.index" := File "ix";
     "/srv/rag/meta.json" := File "metas" ]}.

Definition retrieve_top_k :=
  Service.retrieve_top_k Z ServiceDemo.PARENT_DIR ServiceDemo.exn_str
    IndexerDemo.json_loads ServiceDemo.faiss_loads ServiceDemo.embed_content
    ServiceDemo.index_search.

Definition event_generator :=
  Service.event_generator Z ServiceDemo.PARENT_DIR ServiceDemo.exn_str
    ServiceDemo.json_repr IndexerDemo.json_loads ServiceDemo.faiss_loads
    ServiceDemo.embed_content ServiceDemo.index_search ServiceDemo.groq_stream.

Definition docs : list (Service.doc Z) :=
  [ {| Service.distance := 0%Z; Service.text := JStr "";
       Service.url := JStr "http://a"; Service.title := JStr "A";
       Service.position := JInt 0 |};
    {| Service.distance := 25%Z; Service.text := JStr "";
       Service.url := JStr ""; Service.title := JStr "";
       Service.position := JInt 0 |} ].

End PipelineDemo.

(** ** The crawler ([scraper/scraper.py]) *)

Module Scraper.
Import PyStr Py.

Definition BASE_URL : string := "https://docs.python.org/3/".
Definition MAX_PAGES : nat := 200.

(** [s.rstrip('/')] *)
Fixpoint rstrip_slash (s : string) : string :=
  match s with
  | EmptyString => EmptyString
  | String c s' =>
      match rstrip_slash s' with
      | EmptyString =>
          if bool_decide (c = "/"%char) then EmptyString
          else String c EmptyString
      | r => String c r
      end
  end.

(** Lines 141-149. *)
Record page_data := {
  data_url : string;
  data_canonical_url : string;
  data_title : string;
  data_content : string;
  data_html : string;
  data_timestamp : string;
  data_checksum : string
}.

(** Lines 117-132: what one attempt at a page ends in. It gave the
    page; it raised what the surrounding [try] catches (any [Exception]
    for [requests.get] and [raise_for_status], [TimeoutException] or
    [WebDriverException] for [driver.get]); or it raised something else,
    which leaves [scrape]. *)
Inductive fetched :=
  | Html (html : string)
  | Unreachable
  | Crash (e : exn).

(** The attributes of [HybridScraper] that [scrape] and [run] use, and
    two logs: the URLs passed to [requests.get] so far and the URLs
    passed to [driver.get] so far, each in order. *)
Record HybridScraper := {
  to_visit : list string;
  visited : gset string;
  failed : gset string;
  pages_data : list page_data;
  requested : list string;
  driven : list string
}.

(** Lines 101-104. *)
Definition init : HybridScraper :=
  {| to_visit := [BASE_URL]; visited := ∅; failed := ∅; pages_data := [];
     requested := []; driven := [] |}.

(** What [run] leaves: the pages its [finally] clause writes to the
    output file, the exception that ended the loop, if one did, and the
    crawler. *)
Record outcome := {
  saved : list page_data;
  stopped_by : option exn;
  final : HybridScraper
}.

Definition skipped_prefixes : list string :=
  ["#"; "javascript:"; "mailto:"; "tel:"].

Section Scraper.

(** [urllib.parse]: [urldefrag(url)[0]], [urljoin] and
    [urlparse(url).netloc]. *)
Variable urldefrag : string → string.
Variable urljoin : string → string → string.
Variable netloc : string → string.
(** The order in which a [set] built by these insertions is iterated. *)
Variable set_order : list string → list string.
(** [can_fetch(self.robots_parser, url)] *)
Variable can_fetch : string → bool.
(** [requests.get(url)] with [raise_for_status], and [driver.get(url)]
    with [page_source], as network call number [n] of the crawl. *)
Variable requests_get : nat → string → fetched.
Variable driver_get : nat → string → fetched.
(** The parsed page: the text of its [title] tag or the empty string, the
    [href] of its canonical link if it has one, its cleaned text, and the
    [href] of every [a] tag that is left once [clean_content] has removed
    the navigation tags from the soup. The parser is taken as total. *)
Variable soup_title : string → string.
Variable soup_canonical : string → option string.
Variable clean_content : string → string.
Variable soup_hrefs : string → list string.
Variable md5_hexdigest : string → string.
(** [time.strftime] after [n] network calls. *)
Variable strftime : nat → string.

(** Lines 70-74. *)
Definition normalize_url (url base_url : string) : string :=
  let url := urldefrag url in
  let url := if startswith "http" url then url else urljoin base_url url in
  rstrip_slash url.

(** Lines 76-78. *)
Definition extract_canonical (html current_url : string) : string :=
  default current_url (soup_canonical html).

(** Lines 90-95: one [a] tag; [links] holds the set in insertion order. *)
Definition add_link (current_url base_domain : string) (links : list string)
    (href : string) : list string :=
  if existsb (λ prefix, startswith prefix href) skipped_prefixes then links
  else
    let abs_url := normalize_url href current_url in
    if bool_decide (netloc abs_url = base_domain)
    then if bool_decide (abs_url ∈ links) then links else links ++ [abs_url]
    else links.

(** Lines 86-96, as the caller iterates the result. *)
Definition extract_links (html current_url base_url : string) : list string :=
  set_order
    (fold_left (add_link current_url (netloc base_url)) (soup_hrefs html) []).

(** Lines 153-155: one link in the loop over the links. *)
Definition enqueue (seen : gset string) (queue : list string) (link : string)
  : list string :=
  if bool_decide (link ∉ seen) && bool_decide (link ∉ queue)
  then queue ++ [link] else queue.

(** Lines 134-155: the page is kept and its links are queued. *)
Definition keep_page (url html : string) (n : nat) (self : HybridScraper)
  : HybridScraper :=
  let content := clean_content html in
  let page :=
    {| data_url := url;
       data_canonical_url := extract_canonical html url;
       data_title := soup_title html;
       data_content := content;
       data_html := html;
       data_timestamp := strftime n;
       data_checksum := md5_hexdigest content |} in
  let visited' := {[ url ]} ∪ visited self in
  {| to_visit := fold_left (enqueue visited')
                   (extract_links html url BASE_URL) (to_visit self);
     visited := visited';
     failed := failed self;
     pages_data := pages_data self ++ [page];
     requested := requested self;
     driven := driven self |}.

(** [self.failed.add(url)] *)
Definition mark_failed (url : string) (self : HybridScraper) : HybridScraper :=
  {| to_visit := to_visit self; visited := visited self;
     failed := {[ url ]} ∪ failed self;
     pages_data := pages_data self; requested := requested self;
     driven := driven self |}.

(** The two logs after the calls made for [url]. *)
Definition logged (url : string) (fallback : bool) (self : HybridScraper)
  : HybridScraper :=
  {| to_visit := to_visit self; visited := visited self;
     failed := failed self; pages_data := pages_data self;
     requested := requested self ++ [url];
     driven := if fallback then driven self ++ [url] else driven self |}.

(** Lines 108-156; the second component is an exception that leaves
    [scrape]. The page is asked of [requests] first and, when that
    raises, of Selenium. *)
Definition scrape (url : string) (self : HybridScraper)
  : HybridScraper * option exn :=
  if bool_decide (url ∈ visited self) || bool_decide (url ∈ failed self)
  then (self, None)
  else if negb (can_fetch url)
  then (mark_failed url self, None)
  else
    let n := length (requested self) + length (driven self) in
    match requests_get n url with
    | Crash e => (logged url false self, Some e)
    | Html html => (keep_page url html (S n) (logged url false self), None)
    | Unreachable =>
        match driver_get (S n) url with
        | Crash e => (logged url true self, Some e)
        | Unreachable => (mark_failed url (logged url true self), None)
        | Html html =>
            (keep_page url html (S (S n)) (logged url true self), None)
        end
    end.

(** Lines 161-164: the loop, for at most [fuel] iterations. *)
Fixpoint run_loop (fuel : nat) (self : HybridScraper)
  : option (HybridScraper * option exn) :=
  match fuel with
  | O => None
  | S fuel =>
      match to_visit self with
      | [] => Some (self, None)
      | url :: rest =>
          if (MAX_PAGES <=? size (visited self))%nat then Some (self, None)
          else
            match scrape url
                    {| to_visit := rest; visited := visited self;
                       failed := failed self; pages_data := pages_data self;
                       requested := requested self;
                       driven := driven self |} with
            | (self', Some e) => Some (self', Some e)
            | (self', None) => run_loop fuel self'
            end
      end
  end.

(** Lines 158-174. *)
Definition run (fuel : nat) : option outcome :=
  match run_loop fuel init with
  | None => None
  | Some (self, e) =>
      Some {| saved := pages_data self; stopped_by := e; final := self |}
  end.

(** The books of the crawler agree. *)
Definition bookkeeping (self : HybridScraper) : Prop :=
  NoDup (to_visit self) ∧
  (∀ u, u ∈ to_visit self → u ∉ visited self) ∧
  visited self ## failed self ∧
  NoDup (data_url <$> pages_data self) ∧
  list_to_set (data_url <$> pages_data self) = visited self ∧
  (size (visited self) ≤ MAX_PAGES)%nat ∧
  NoDup (requested self) ∧
  (∀ u, u ∈ requested self → can_fetch u = true) ∧
  (∀ u, u ∈ visited self → u ∈ requested self) ∧
  NoDup (driven self) ∧
  (∀ u, u ∈ driven self →
        u ∈ requested self ∧ ∃ n, requests_get n u = Unreachable).

(** Every request made has been booked as a page or as a failure. *)
Definition settled (self : HybridScraper) : Prop :=
  ∀ u, u ∈ requested self → u ∈ visited self ∨ u ∈ failed self.

(** Every URL the crawler holds is the seed or a link of a saved page. *)
Definition discovered (self : HybridScraper) : Prop :=
  ∀ u, u ∈ to_visit self ∨ u ∈ requested self ∨ u ∈ failed self →
    u = BASE_URL ∨
    ∃ page, page ∈ pages_data self ∧
            u ∈ extract_links (data_html page) (data_url page) BASE_URL.

End Scraper.

(** The condition of the loop is false. *)
Definition finished (self : HybridScraper) : Prop :=
  to_visit self = [] ∨ size (visited self) = MAX_PAGES.

(** The exception [run] lets through: a [KeyboardInterrupt] is caught. *)
Definition raised (o : outcome) : option exn :=
  match stopped_by o with
  | Some (Exception "KeyboardInterrupt" _) => None
  | e => e
  end.

End Scraper.

(** Stand-ins for a site of three pages: the home page links to itself,
    to a second page, to a page robots.txt forbids and to another site;
    [requests] gets the seed only, Selenium everything but the second
    page. *)
Module ScraperDemo.
Import PyStr Py Scraper.

Definition urldefrag (url : string) : string := url.
Definition urljoin (base url : string) : string :=
  "https://docs.python.org/3/" +:+ url.
Definition netloc (url : string) : string :=
  if startswith "https://docs.python.org" url then "docs.python.org"
  else "elsewhere".
Definition set_order (links : list string) : list string := rev links.
Definition can_fetch (url : string) : bool :=
  negb (String.eqb url "https://docs.python.org/3/private").
Definition requests_get (n : nat) (url : string) : fetched :=
  if String.eqb url "https://docs.python.org/3/" then Html url
  else Unreachable.
Definition driver_get (n : nat) (url : string) : fetched :=
  if String.eqb url "https://docs.python.org/3/library" then Unreachable
  else Html url.
Definition soup_title (html : string) : string := "Python".
Definition soup_canonical (html : string) : option string := None.
Definition clean_content (html : string) : string := "text".
Definition soup_hrefs (html : string) : list string :=
  ["#top"; "https://docs.python.org/3/"; "library/"; "private";
   "https://example.org/"; "library"].
Definition md5_hexdigest (bytes : string) : string := "md5:" +:+ bytes.
Definition strftime (n : nat) : string := "2025-01-01 00:00:0" +:+ pretty n.

Definition extract_links :=
  extract_links urldefrag urljoin netloc set_order soup_hrefs.
Definition run :=
  run urldefrag urljoin netloc set_order can_fetch requests_get driver_get
    soup_title soup_canonical clean_content soup_hrefs md5_hexdigest strftime.

End ScraperDemo.

(** ** The fingerprint check, told by the contents of the files *)

Module Fingerprint.
Import PyStr Py Indexer.

Section Fingerprint.

Variable md5_hexdigest : string → string.
Variable json_loads : string → option json.

(** The fingerprint record can be read: [index_info.json] is a regular
    file that decodes to a JSON object, of these items. *)
Definition record_is (files : gmap string node)
    (items : list (string * json)) : Prop :=
  ∃ bytes, files !! INDEX_INFO_FILE = Some (File bytes) ∧
           json_loads bytes = Some (JDict items).

(** The stored fingerprint: the value of the record under
    [content_hash], [null] when the record has no such key. *)
Definition stored_fingerprint (items : list (string * json)) : json :=
  default JNull (assoc "content_hash" items).

(** The fingerprint of a chunk directory: the MD5 of the bytes of its
    entries named [*.json], put together in ascending order of the
    names. *)
Definition store_fingerprint (entries : gmap string string) : string :=
  md5_hexdigest
    (String.concat ""
       (omap (λ name, entries !! name)
          (sorted (filter (λ name, endswith ".json" name = true)
                     (map fst (map_to_list entries)))))).

(** The current fingerprint of the chunk store: none when there is no
    chunk directory, and not defined when the path is a regular file. *)
Definition current_fingerprint (files : gmap string node) (input_dir : string)
    (fingerprint : option string) : Prop :=
  match files !! input_dir with
  | None => fingerprint = None
  | Some (Dir entries) => fingerprint = Some (store_fingerprint entries)
  | Some (File _) => False
  end.

(** The stored value is the fingerprint: the same string, or [null] for
    none. *)
Definition same_fingerprint (stored : json) (fingerprint : option string)
  : Prop :=
  match fingerprint with
  | Some h => stored = JStr h
  | None => stored = JNull
  end.

End Fingerprint.

(** Three persisted files whose fingerprint record has no
    [content_hash], and no chunk directory. *)
Definition without_store : gmap string node :=
  {[ FAISS_FILE := File "faiss"; META_FILE := File "metas";
     INDEX_INFO_FILE := File "info-" ]}.

End Fingerprint.

(** A provider of the declared dimension, 768, whose first and
    seventeenth calls fail, and what [load_chunks] reads from the
    seventeen chunk files of [IndexerDemo.store_17]. *)
Module IndexerDemo768.
Import PyStr Py Indexer.

Definition embed_content (n : nat) (text : json) : option (list Z) :=
  if (n =? 0)%nat || (n =? 16)%nat then None
  else Some (replicate 768 (Z.of_nat n)).

Definition loaded : list json * list json :=
  Eval vm_compute in
    match (load_chunks IndexerDemo.json_loads IndexerDemo.isoformat INPUT_DIR
             IndexerDemo.start_17).1 with
    | Ok loaded => loaded
    | Raise _ => ([], [])
    end.

Definition build_faiss_index :=
  build_faiss_index Z 0%Z embed_content IndexerDemo.md5_hexdigest
    IndexerDemo.json_loads IndexerDemo.json_dumps IndexerDemo.faiss_loads
    IndexerDemo.faiss_dumps IndexerDemo.isoformat.

End IndexerDemo768.
(** * Properties *)

(** ** Stripping and joining *)

Module PyStrFacts.
Import PyStr.

Lemma app_empty (b : string) : "" +:+ b = b.
Proof. reflexivity. Qed.

Lemma app_String (c : ascii) (a b : string) :
  String c a +:+ b = String c (a +:+ b).
Proof. reflexivity. Qed.

Lemma app_nonempty_r (a b : string) : b ≠ "" → a +:+ b ≠ "".
Proof. destruct a; [by rewrite app_empty | by rewrite app_String]. Qed.

Lemma app_nonempty_l (a b : string) : a ≠ "" → a +:+ b ≠ "".
Proof. destruct a; [done | by rewrite app_String]. Qed.

Lemma lstrip_length (s : string) : String.length (lstrip s) ≤ String.length s.
Proof.
  induction s as [|c s IH]; simpl; [lia|].
  destruct (isspace c); simpl; lia.
Qed.

(** A string that [lstrip] leaves alone does not start with a space. *)
Lemma lstrip_fixed_head (c : ascii) (s : string) :
  lstrip (String c s) = String c s → isspace c = false.
Proof.
  simpl. destruct (isspace c); [|done]. intros H.
  pose proof (lstrip_length s) as Hle.
  rewrite H in Hle. simpl in Hle. lia.
Qed.

Lemma lstrip_app (a b : string) :
  lstrip a = a → a ≠ "" → lstrip (a +:+ b) = a +:+ b.
Proof.
  destruct a as [|c a]; [done|]. intros H _.
  apply lstrip_fixed_head in H. rewrite app_String. simpl. by rewrite H.
Qed.

Lemma rstrip_app (a b : string) :
  rstrip b = b → b ≠ "" → rstrip (a +:+ b) = a +:+ b.
Proof.
  intros Hb Hne. induction a as [|c a IH]; [by rewrite app_empty|].
  rewrite app_String. simpl. rewrite IH.
  destruct (a +:+ b) eqn:E; [|done].
  by apply (app_nonempty_r a) in Hne.
Qed.

Lemma strip_stripped (s : string) : stripped s → strip s = s.
Proof. intros (Hl & Hr & _). unfold strip. by rewrite Hl. Qed.

Lemma stripped_app (a b : string) : stripped a → stripped b → stripped (a +:+ b).
Proof.
  intros (Hal & _ & Ha) (_ & Hbr & Hb). split_and!.
  - by apply lstrip_app.
  - by apply rstrip_app.
  - by apply app_nonempty_l.
Qed.

(** A separator in the middle does not matter. *)
Lemma stripped_sep (a sep b : string) :
  stripped a → stripped b → stripped (a +:+ sep +:+ b).
Proof.
  intros (Hal & _ & Ha) (_ & Hbr & Hb). split_and!.
  - by apply lstrip_app.
  - apply rstrip_app; [|by apply app_nonempty_r].
    by apply rstrip_app.
  - by apply app_nonempty_l.
Qed.

Lemma stripped_join (sep : string) (parts : list string) :
  parts ≠ [] → Forall stripped parts → stripped (join sep parts).
Proof.
  induction parts as [|p [|q rest] IH]; intros Hne Hall; [done| |].
  - simpl. by apply Forall_inv in Hall.
  - change (join sep (p :: q :: rest)) with (p +:+ sep +:+ join sep (q :: rest)).
    apply stripped_sep; [by apply Forall_inv in Hall|].
    apply IH; [done|]. by apply Forall_inv_tail in Hall.
Qed.

(** What [strip] returns is stripped, unless it is empty. *)
Lemma rstrip_String (c : ascii) (s : string) :
  rstrip (String c s)
  = match rstrip s with
    | EmptyString => if isspace c then EmptyString else String c EmptyString
    | r => String c r
    end.
Proof. reflexivity. Qed.

Lemma rstrip_idemp (s : string) : rstrip (rstrip s) = rstrip s.
Proof.
  induction s as [|c s IH]; [done|]. rewrite rstrip_String.
  destruct (rstrip s) as [|d r] eqn:E.
  - destruct (isspace c) eqn:Hc; [done|]. rewrite rstrip_String. cbn [rstrip].
    by rewrite Hc.
  - rewrite rstrip_String. by rewrite IH.
Qed.

Lemma rstrip_head (c : ascii) (s : string) :
  isspace c = false → ∃ r, rstrip (String c s) = String c r.
Proof.
  intros Hc. cbn [rstrip]. destruct (rstrip s); rewrite ?Hc; eauto.
Qed.

Lemma lstrip_head (s : string) :
  lstrip s = "" ∨ ∃ c r, lstrip s = String c r ∧ isspace c = false.
Proof.
  induction s as [|c s IH]; [by left|]. cbn [lstrip].
  destruct (isspace c) eqn:Hc; [done|]. right. eauto.
Qed.

Lemma strip_is_stripped (s : string) : strip s ≠ "" → stripped (strip s).
Proof.
  unfold strip. intros Hne. split_and!; [|apply rstrip_idemp|done].
  destruct (lstrip_head s) as [E | (c & r & E & Hc)]; rewrite E in *; [done|].
  destruct (rstrip_head c r Hc) as [r' ->]. cbn [lstrip]. by rewrite Hc.
Qed.

End PyStrFacts.

(** ** The chunker *)

Module ChunkerFacts.
Import PyStr PyStrFacts Chunker.

Section Facts.

Variable token_len : string → nat.

Lemma close_buffer_tr_text why tr cur :
  map chunk_text (close_buffer_tr token_len why tr cur)
  = close_buffer token_len (map chunk_text tr) cur.
Proof.
  unfold close_buffer_tr, close_buffer.
  destruct (_ <? _)%nat; [|done]. by rewrite map_app.
Qed.

Lemma step_tr_text tr cur ln :
  step token_len (map chunk_text tr, cur) ln
  = (map chunk_text (step_tr token_len (tr, cur) ln).1,
     (step_tr token_len (tr, cur) ln).2).
Proof.
  unfold step, step_tr.
  destruct (startswith "#" ln), cur as [|l0 cur]; cbv beta iota zeta;
    destruct (_ <? token_len (join NL _))%nat; cbn [fst snd];
    by rewrite ?map_app, ?close_buffer_tr_text.
Qed.

Lemma fold_step_tr_text lines tr cur :
  fold_left (step token_len) lines (map chunk_text tr, cur)
  = (map chunk_text (fold_left (step_tr token_len) lines (tr, cur)).1,
     (fold_left (step_tr token_len) lines (tr, cur)).2).
Proof.
  revert tr cur. induction lines as [|ln lines IH]; intros tr cur; [done|].
  cbn [fold_left]. rewrite step_tr_text.
  destruct (step_tr token_len (tr, cur) ln) as [tr' cur']. apply IH.
Qed.

(** The recorded run is the run of the source. *)
Lemma chunk_trace_text lines :
  chunk_heading_recursive token_len lines
  = map chunk_text (chunk_trace token_len lines).
Proof.
  unfold chunk_heading_recursive, chunk_trace.
  change (@nil string) with (map chunk_text []) at 1.
  rewrite fold_step_tr_text.
  destruct (fold_left (step_tr token_len) lines ([], [])) as [tr cur].
  cbn [fst snd]. destruct cur; [done|]. by rewrite close_buffer_tr_text.
Qed.

(** *** The loop invariant *)

Lemma close_buffer_tr_ok why tr cur :
  why ≠ BySizeCap →
  Forall (entry_ok token_len) tr →
  cur ≠ [] → (token_len (join NL cur) ≤ MAX_TOKENS)%nat →
  Forall (entry_ok token_len) (close_buffer_tr token_len why tr cur).
Proof.
  intros Hwhy Htr Hne Hcap. unfold close_buffer_tr.
  destruct (_ <? _)%nat eqn:E; [|done].
  apply Nat.ltb_lt in E. apply Forall_app; split; [done|].
  apply Forall_singleton. split; [done|]. by destruct why.
Qed.

Lemma append_line_ok tr cur ln :
  Forall (entry_ok token_len) tr →
  cur = [] ∨ (token_len (join NL cur) ≤ MAX_TOKENS)%nat →
  state_ok token_len
    (if (MAX_TOKENS <? token_len (join NL (cur ++ [ln])))%nat
     then (tr ++ [(BySizeCap, cur ++ [ln])], [])
     else (tr, cur ++ [ln])).
Proof.
  intros Htr Hcur. destruct (_ <? _)%nat eqn:E.
  - apply Nat.ltb_lt in E. split; [|by left]. cbn [fst].
    apply Forall_app; split; [done|]. apply Forall_singleton.
    split; [by destruct cur|]. cbn [fst snd]. split; [done|]. by exists cur, ln.
  - apply Nat.ltb_ge in E. split; [done|]. by right.
Qed.

Lemma step_tr_ok st ln :
  state_ok token_len st → state_ok token_len (step_tr token_len st ln).
Proof.
  destruct st as [tr cur]. intros [Htr Hcur]. cbn [fst snd] in *.
  unfold step_tr. destruct (startswith "#" ln); [|by apply append_line_ok].
  destruct cur as [|l0 cur]; [by apply append_line_ok|].
  apply append_line_ok; [|by left].
  apply close_buffer_tr_ok; [done..|]. by destruct Hcur.
Qed.

Lemma fold_step_tr_ok lines st :
  state_ok token_len st →
  state_ok token_len (fold_left (step_tr token_len) lines st).
Proof.
  revert st. induction lines as [|ln lines IH]; intros st Hst; [done|].
  cbn [fold_left]. by apply IH, step_tr_ok.
Qed.

Lemma chunk_trace_ok lines :
  Forall (entry_ok token_len) (chunk_trace token_len lines).
Proof.
  unfold chunk_trace.
  pose proof (fold_step_tr_ok lines ([], [])) as H.
  destruct (fold_left (step_tr token_len) lines ([], [])) as [tr cur].
  destruct H as [Htr Hcur]; [by split; [constructor | left]|].
  cbn [fst snd] in *. destruct cur as [|l0 cur]; [done|].
  apply close_buffer_tr_ok; [done..|]. by destruct Hcur.
Qed.

(** *** Every buffer is made of input lines *)

Section Lines.

Variable P : string → Prop.

Lemma close_buffer_tr_lines why tr cur :
  Forall (λ e, Forall P e.2) tr → Forall P cur →
  Forall (λ e : closed_by * list string, Forall P e.2)
         (close_buffer_tr token_len why tr cur).
Proof.
  intros Htr Hcur. unfold close_buffer_tr. destruct (_ <? _)%nat; [|done].
  apply Forall_app; split; [done|]. by apply Forall_singleton.
Qed.

Lemma step_tr_lines st ln :
  P ln → lines_ok P st → lines_ok P (step_tr token_len st ln).
Proof.
  destruct st as [tr cur]. intros Hln [Htr Hcur]. cbn [fst snd] in *.
  assert (∀ tr' cur', Forall (λ e, Forall P e.2) tr' → Forall P cur' →
    lines_ok P (if (MAX_TOKENS <? token_len (join NL (cur' ++ [ln])))%nat
              then (tr' ++ [(BySizeCap, cur' ++ [ln])], [])
              else (tr', cur' ++ [ln]))) as Happend.
  { intros tr' cur' Htr' Hcur'.
    assert (Forall P (cur' ++ [ln])) by (apply Forall_app; auto).
    destruct (_ <? _)%nat; split; cbn [fst snd]; auto.
    apply Forall_app; split; [done|]. by apply Forall_singleton. }
  unfold step_tr. destruct (startswith "#" ln); [|by apply Happend].
  destruct cur as [|l0 cur]; [by apply Happend|].
  apply Happend; [|done]. by apply close_buffer_tr_lines.
Qed.

Lemma chunk_trace_lines lines :
  Forall P lines →
  Forall (λ e, Forall P e.2) (chunk_trace token_len lines).
Proof.
  intros Hlines. unfold chunk_trace.
  assert (lines_ok P (fold_left (step_tr token_len) lines ([], []))) as H.
  { assert (lines_ok P ([], [])) as H0 by (split; constructor).
    revert H0. generalize (@nil (closed_by * list string), @nil string).
    induction Hlines as [|ln lines Hln _ IH]; intros st Hst; [done|].
    cbn [fold_left]. by apply IH, step_tr_lines. }
  destruct (fold_left (step_tr token_len) lines ([], [])) as [tr cur].
  destruct H as [Htr Hcur]. cbn [fst snd] in *.
  destruct cur as [|l0 cur]; [done|]. by apply close_buffer_tr_lines.
Qed.

End Lines.

(** *** A run that never closes a buffer *)

Lemma step_keeps_buffer pre ln :
  (pre = [] ∨ startswith "#" ln = false) →
  (token_len (join NL (pre ++ [ln])) ≤ MAX_TOKENS)%nat →
  step token_len ([], pre) ln = ([], pre ++ [ln]).
Proof.
  intros Hhead Hcap. apply Nat.ltb_ge in Hcap. unfold step.
  destruct Hhead as [-> | ->]; [destruct (startswith "#" ln)|];
    by rewrite Hcap.
Qed.

Lemma fold_step_keeps_buffer rest pre :
  Forall (λ ln, startswith "#" ln = false) rest →
  (∀ k, (length pre < k ≤ length (pre ++ rest))%nat →
        (token_len (join NL (take k (pre ++ rest))) ≤ MAX_TOKENS)%nat) →
  fold_left (step token_len) rest ([], pre) = ([], pre ++ rest).
Proof.
  revert pre. induction rest as [|ln rest IH]; intros pre Hhead Hcap.
  { by rewrite app_nil_r. }
  cbn [fold_left]. rewrite step_keeps_buffer.
  - rewrite IH; [by rewrite <- app_assoc | by apply Forall_inv_tail in Hhead |].
    intros k Hk. rewrite <- app_assoc. apply Hcap.
    rewrite !length_app in *. simpl in *. lia.
  - right. by apply Forall_inv in Hhead.
  - specialize (Hcap (S (length pre))).
    rewrite (cons_middle ln pre rest), app_assoc in Hcap.
    rewrite take_app_length' in Hcap by (rewrite length_app; simpl; lia).
    apply Hcap. rewrite !length_app. simpl. lia.
Qed.

(** No line after the first is a heading and no prefix of the document
    exceeds the cap: the whole document stays in the buffer. *)
Lemma single_buffer_run lines :
  lines ≠ [] →
  (∀ i ln, lines !! S i = Some ln → startswith "#" ln = false) →
  (∀ k, (0 < k ≤ length lines)%nat →
        (token_len (join NL (take k lines)) ≤ MAX_TOKENS)%nat) →
  single_trailing_buffer token_len lines.
Proof.
  intros Hne Hhead Hcap. split; [done|].
  destruct lines as [|l0 rest]; [done|]. cbn [fold_left].
  rewrite (step_keeps_buffer [] l0); [|by left|].
  - apply (fold_step_keeps_buffer rest [l0]).
    + apply Forall_lookup. intros i ln Hi. by apply (Hhead i).
    + intros k Hk. apply Hcap. simpl in *. lia.
  - apply (Hcap 1%nat). simpl. lia.
Qed.

(** *** Where the stated bounds fail, for any tokenizer *)

Lemma step_on_empty_buffer chunks ln :
  step token_len (chunks, []) ln
  = if (MAX_TOKENS <? token_len ln)%nat
    then (chunks ++ [strip ln], []) else (chunks, [ln]).
Proof. unfold step. by destruct (startswith "#" ln). Qed.

(** A first line that alone exceeds the cap is emitted whole, and is not
    the last chunk when a long enough line follows. *)
Lemma long_first_line_breaks_cap l1 l2 :
  stripped l1 → (MAX_TOKENS < token_len l1)%nat →
  (MIN_TOKENS < token_len (strip l2))%nat →
  chunk_heading_recursive token_len [l1; l2] = [l1; strip l2] ∧
  ¬ nonfinal_chunks_within_cap token_len [l1; l2].
Proof.
  intros Hl1 Hlong Hl2.
  assert (chunk_heading_recursive token_len [l1; l2] = [l1; strip l2]) as E.
  { unfold chunk_heading_recursive. cbn [fold_left].
    rewrite !step_on_empty_buffer.
    apply Nat.ltb_lt in Hlong as ->. rewrite step_on_empty_buffer.
    rewrite (strip_stripped l1) by done.
    destruct (_ <? token_len l2)%nat; [done|].
    unfold close_buffer. cbn [join]. by apply Nat.ltb_lt in Hl2 as ->. }
  split; [done|]. intros H. specialize (H 0%nat l1). rewrite E in H.
  cbn in H. specialize (H eq_refl). lia.
Qed.

(** A short trailing buffer that is the whole document is dropped. *)
Lemma short_single_buffer_is_dropped lines :
  single_trailing_buffer token_len lines →
  (token_len (strip (join NL lines)) < MIN_TOKENS)%nat →
  chunk_heading_recursive token_len lines = [] ∧
  ¬ only_chunk_is_kept token_len lines.
Proof.
  intros Hrun Hshort.
  assert (chunk_heading_recursive token_len lines = []) as E.
  { destruct Hrun as [Hne Hrun]. unfold chunk_heading_recursive.
    rewrite Hrun. destruct lines as [|l0 lines]; [done|].
    unfold close_buffer.
    by replace (_ <? _)%nat with false by (symmetry; apply Nat.ltb_ge; lia). }
  split; [done|]. intros H. specialize (H Hrun Hshort). rewrite E in H.
  by apply elem_of_nil in H.
Qed.

End Facts.

(** C3. For stripped, non-blank input lines (what the caller passes) and
    every chunk the chunker emits, final or not: the chunk is the join of
    its buffer; a chunk closed at a heading or at the end of the input has
    more than [MIN_TOKENS] and at most [MAX_TOKENS] tokens; a chunk closed
    by the size cap has more than [MAX_TOKENS] tokens, and its buffer
    without the last line was empty or within [MAX_TOKENS]. *)
Theorem chunk_length_by_closing_reason
    (token_len : string → nat) (lines : list string) :
  Forall stripped lines →
  chunk_heading_recursive token_len lines
    = map chunk_text (chunk_trace token_len lines) ∧
  ∀ why buf, (why, buf) ∈ chunk_trace token_len lines →
    chunk_text (why, buf) = join NL buf ∧
    match why with
    | BySizeCap =>
        (MAX_TOKENS < token_len (chunk_text (why, buf)))%nat ∧
        ∃ pre ln, buf = pre ++ [ln] ∧
                  (pre = [] ∨ (token_len (join NL pre) ≤ MAX_TOKENS)%nat)
    | AtHeading | AtEndOfInput =>
        (MIN_TOKENS < token_len (chunk_text (why, buf)) ≤ MAX_TOKENS)%nat
    end.
Proof.
  intros Hlines. split; [apply chunk_trace_text|].
  intros why buf Hin.
  pose proof (chunk_trace_ok token_len lines) as Hok.
  pose proof (chunk_trace_lines token_len stripped lines Hlines) as Hbuf.
  rewrite Forall_forall in Hok, Hbuf.
  destruct (Hok _ Hin) as [Hne Hwhy]. specialize (Hbuf _ Hin).
  cbn [fst snd] in *.
  assert (chunk_text (why, buf) = join NL buf) as Htxt.
  { unfold chunk_text. cbn [snd]. by apply strip_stripped, stripped_join. }
  split; [done|]. rewrite Htxt. unfold chunk_text in Htxt. cbn [snd] in Htxt.
  rewrite Htxt in Hwhy. destruct why; [lia | done | lia].
Qed.

Lemma chunk_length_by_closing_reason_witness :
  let lines := [words "a" 451; "# " +:+ words "b" 61] in
  Forall stripped lines ∧
  map fst (chunk_trace word_tokens lines) = [BySizeCap; AtEndOfInput] ∧
  (chunk_heading_recursive word_tokens lines
     = map chunk_text (chunk_trace word_tokens lines) ∧
   ∀ why buf, (why, buf) ∈ chunk_trace word_tokens lines →
     chunk_text (why, buf) = join NL buf ∧
     match why with
     | BySizeCap =>
         (MAX_TOKENS < word_tokens (chunk_text (why, buf)))%nat ∧
         ∃ pre ln, buf = pre ++ [ln] ∧
                   (pre = [] ∨ (word_tokens (join NL pre) ≤ MAX_TOKENS)%nat)
     | AtHeading | AtEndOfInput =>
         (MIN_TOKENS < word_tokens (chunk_text (why, buf)) ≤ MAX_TOKENS)%nat
     end).
Proof.
  intros lines.
  assert (Forall stripped lines) as H
    by (refine (bool_decide_unpack _ _); vm_compute; exact I).
  split; [exact H|]. split; [vm_compute; reflexivity|].
  exact (chunk_length_by_closing_reason word_tokens lines H).
Defined.

(** C3, as stated, fails: a line of 451 one-token words is closed by the
    size cap as a chunk of 451 tokens, and a second chunk follows it. *)
Lemma forced_chunk_exceeds_cap :
  ¬ nonfinal_chunks_within_cap word_tokens
      [words "a" 451; "# " +:+ words "b" 61].
Proof.
  intros H. specialize (H 0%nat (words "a" 451)).
  assert (word_tokens (words "a" 451) = 451%nat) as E
    by (vm_compute; reflexivity).
  rewrite E in H. unfold MAX_TOKENS in H.
  assert (451 ≤ 450)%nat; [|lia].
  apply H.
  - vm_compute; reflexivity.
  - apply Nat.ltb_lt. vm_compute; reflexivity.
Qed.

(** C4. A document in which no line after the first is a heading and no
    prefix exceeds [MAX_TOKENS] stays in one trailing buffer; it yields
    that buffer as its only chunk exactly when the stripped text has more
    than [MIN_TOKENS] tokens, and no chunk at all otherwise: being the only
    chunk of the document changes nothing. *)
Theorem trailing_buffer_needs_min_tokens
    (token_len : string → nat) (lines : list string) :
  lines ≠ [] →
  (∀ i ln, lines !! S i = Some ln → startswith "#" ln = false) →
  (∀ k, (0 < k ≤ length lines)%nat →
        (token_len (join NL (take k lines)) ≤ MAX_TOKENS)%nat) →
  single_trailing_buffer token_len lines ∧
  chunk_heading_recursive token_len lines
    = if (MIN_TOKENS <? token_len (strip (join NL lines)))%nat
      then [strip (join NL lines)] else [].
Proof.
  intros Hne Hhead Hcap.
  pose proof (single_buffer_run token_len lines Hne Hhead Hcap) as Hrun.
  split; [done|]. destruct Hrun as [_ Hrun].
  unfold chunk_heading_recursive. rewrite Hrun. by destruct lines.
Qed.

Lemma trailing_buffer_needs_min_tokens_witness :
  let lines := ["# Intro"; "short line"] in
  lines ≠ [] ∧
  (∀ i ln, lines !! S i = Some ln → startswith "#" ln = false) ∧
  (∀ k, (0 < k ≤ length lines)%nat →
        (word_tokens (join NL (take k lines)) ≤ MAX_TOKENS)%nat) ∧
  chunk_heading_recursive word_tokens lines = [] ∧
  (single_trailing_buffer word_tokens lines ∧
   chunk_heading_recursive word_tokens lines
     = if (MIN_TOKENS <? word_tokens (strip (join NL lines)))%nat
       then [strip (join NL lines)] else []).
Proof.
  intros lines.
  assert (lines ≠ []) as Hne by done.
  assert (∀ i ln, lines !! S i = Some ln → startswith "#" ln = false) as Hhead
    by (intros [|[|i]] ln Hi; simplify_eq/=; by vm_compute).
  assert (∀ k, (0 < k ≤ length lines)%nat →
            (word_tokens (join NL (take k lines)) ≤ MAX_TOKENS)%nat) as Hcap
    by (intros [|[|[|k]]] Hk; simpl in Hk; try lia;
        apply Nat.leb_le; vm_compute; reflexivity).
  split; [exact Hne|]. split; [exact Hhead|]. split; [exact Hcap|].
  split; [vm_compute; reflexivity|].
  exact (trailing_buffer_needs_min_tokens word_tokens lines Hne Hhead Hcap).
Defined.

(** C4, as stated, fails: the two lines below stay in one buffer of 4
    tokens, which would be the only chunk, and nothing is emitted. *)
Lemma short_only_chunk_is_dropped :
  ¬ only_chunk_is_kept word_tokens ["# Intro"; "short line"].
Proof.
  intros H.
  assert (chunk_heading_recursive word_tokens ["# Intro"; "short line"] = [])
    as E by (vm_compute; reflexivity).
  unfold only_chunk_is_kept in H. rewrite E in H. eapply elem_of_nil, H.
  - split; [done|]. vm_compute; reflexivity.
  - apply Nat.ltb_lt. vm_compute; reflexivity.
Qed.

End ChunkerFacts.

(** ** Where the index is written and where it is read *)

Module PathFacts.
Import PyStr PyStrFacts Py.

Lemma has_slash_app (a b : string) :
  has_slash (a +:+ b) = has_slash a || has_slash b.
Proof.
  induction a as [|c a IH]; [done|].
  rewrite app_String. simpl. rewrite IH. by rewrite orb_assoc.
Qed.

Lemma basename_no_slash (s : string) : has_slash s = false → basename s = s.
Proof.
  destruct s as [|c s]; [done|]. simpl.
  intros [Hc Hs]%orb_false_elim. by rewrite Hs, Hc.
Qed.

Lemma basename_app (a b : string) :
  basename (a +:+ b)
  = if has_slash b then basename b else basename a +:+ b.
Proof.
  induction a as [|c a IH].
  { rewrite !app_empty. destruct (has_slash b) eqn:Hb; [done|].
    by apply basename_no_slash. }
  rewrite app_String. cbn [basename]. rewrite has_slash_app, IH.
  destruct (has_slash b); [by rewrite orb_true_r|].
  rewrite orb_false_r. destruct (has_slash a); [done|].
  by destruct (bool_decide _).
Qed.

Lemma endswith_slash (a : string) :
  endswith "/" a = true → has_slash a = true ∧ basename a = "".
Proof.
  induction a as [|c a IH]; [done|]. cbn [endswith has_slash basename].
  intros [Heq | Hend]%orb_true_iff.
  - apply String.eqb_eq in Heq. by simplify_eq.
  - destruct (IH Hend) as [-> ->]. by rewrite orb_true_r.
Qed.

(** The last component of a joined path is that of its second part. *)
Lemma basename_path_join (a b : string) :
  basename (path_join a b) = basename b.
Proof.
  unfold path_join. destruct (startswith "/" b); [done|].
  assert (basename ("/" +:+ b) = basename b) as Hslash.
  { rewrite app_String, app_empty. cbn [basename].
    destruct (has_slash b) eqn:Hb; [done|]. simpl.
    by rewrite basename_no_slash. }
  destruct (bool_decide (a = "") || endswith "/" a) eqn:Ha.
  - rewrite basename_app. destruct (has_slash b) eqn:Hb; [done|].
    rewrite (basename_no_slash b) by done.
    apply orb_true_iff in Ha as [Ha | Ha].
    + by apply bool_decide_eq_true in Ha as ->.
    + by destruct (endswith_slash a Ha) as [_ ->].
  - rewrite basename_app, has_slash_app. cbn [has_slash].
    rewrite bool_decide_eq_true_2 by done. by rewrite Hslash.
Qed.

Lemma length_app_string (a b : string) :
  String.length (a +:+ b) = (String.length a + String.length b)%nat.
Proof.
  induction a as [|c a IH]; [done|]. rewrite app_String. simpl. by rewrite IH.
Qed.

Lemma app_inj_suffix (a b s1 s2 : string) :
  String.length s1 = String.length s2 → a +:+ s1 = b +:+ s2 → a = b ∧ s1 = s2.
Proof.
  intros Hlen. revert b. induction a as [|c a IH]; intros [|c' b] H;
    rewrite ?app_empty, ?app_String in H.
  - done.
  - apply (f_equal String.length) in H. simpl in H.
    rewrite length_app_string in H. lia.
  - apply (f_equal String.length) in H. simpl in H.
    rewrite length_app_string in H. lia.
  - injection H as -> H. by destruct (IH b H) as [-> ->].
Qed.

(** Whatever the separator and the directories, a path that ends in the
    builder's file name is not one that ends in the service's. *)
Lemma index_file_names_differ (dir dir' : string) (sep : ascii) :
  sep ≠ "f"%char →
  dir +:+ String sep Indexer.FAISS_FILE ≠ dir' +:+ "faiss_index.index".
Proof.
  intros Hsep E. apply app_inj_suffix in E as [_ E]; [|done].
  by injection E.
Qed.

(** C2. The path the builder writes the index to, resolved against any
    working directory, differs from the path the service reads the index
    from, for any parent directory and working directory of the service;
    so writing the builder's file leaves what the service reads as it
    was. *)
Theorem builder_writes_another_file_than_service_reads
    (builder_cwd service_cwd PARENT_DIR : string) :
  let written := path_join builder_cwd Indexer.FAISS_FILE in
  let loaded := path_join service_cwd (Service.FAISS_FILE PARENT_DIR) in
  Indexer.FAISS_FILE ≠ Service.FAISS_FILE PARENT_DIR ∧
  written ≠ loaded ∧
  ∀ (files files' : gmap string node) (index_bytes : string),
    write_file files written index_bytes = Ok files' →
    files' !! loaded = files !! loaded ∧
    read_file files' loaded = read_file files loaded ∧
    exists_ files' loaded = exists_ files loaded.
Proof.
  intros written loaded.
  assert (basename written = "aiss_index.index") as Hw
    by (unfold written; by rewrite basename_path_join).
  assert (basename (Service.FAISS_FILE PARENT_DIR) = "faiss_index.index") as Hs
    by (unfold Service.FAISS_FILE; by rewrite basename_path_join).
  assert (basename loaded = "faiss_index.index") as Hl
    by (unfold loaded; by rewrite basename_path_join).
  assert (written ≠ loaded) as Hne by (intros E; by rewrite E, Hl in Hw).
  split_and!; [by intros E; rewrite <- E in Hs | done |].
  intros files files' index_bytes Hwrite. unfold write_file in Hwrite.
  assert (files' !! loaded = files !! loaded) as Hsame.
  { destruct (files !! written) as [[]|]; simplify_eq;
      by rewrite lookup_insert_ne. }
  unfold read_file, exists_. by rewrite Hsame.
Qed.

End PathFacts.

(** ** The query service *)

Module ServiceFacts.
Import PyStr Py Service.

Section Facts.

Variable F : Type.
Variable PARENT_DIR : string.
Variable exn_str : exn → string.
Variable json_repr : json → string.
Variable json_loads : string → option json.
Variable faiss_loads : string → option (IndexFlatL2 F).
Variable embed_content : string → result (list F).
Variable index_search : IndexFlatL2 F → list F → option Z → result (list (F * Z)).
Variable groq_stream : string → list chunk * option exn.

Local Abbreviation retrieve_top_k :=
  (retrieve_top_k F PARENT_DIR exn_str json_loads faiss_loads embed_content
                  index_search).
Local Abbreviation event_generator :=
  (event_generator F PARENT_DIR exn_str json_repr json_loads faiss_loads
                   embed_content index_search groq_stream).
Local Abbreviation chat :=
  (chat F PARENT_DIR exn_str json_repr json_loads faiss_loads embed_content
        index_search groq_stream).

Lemma token_events_fragments (chunks : list chunk) :
  concat (map (token_events (F:=F)) chunks) = map Token (fragments chunks).
Proof.
  unfold fragments. induction chunks as [|c chunks IH]; [done|].
  cbn [map concat mbind list_bind]. rewrite IH, map_app. f_equal.
  unfold token_events. destruct (choices c) as [|[content|] ?]; [done| |done].
  by destruct (bool_decide _).
Qed.

Lemma error_event_type (e : exn) :
  event_type (error_event (F:=F) exn_str e) = "error".
Proof. by destruct e. Qed.

(** Every failure of the retriever reaches its caller as status 500. *)
Lemma retrieve_top_k_raises_500 files query top_k e :
  retrieve_top_k files query top_k = Raise e →
  ∃ detail, e = HTTPException 500 detail.
Proof.
  unfold Service.retrieve_top_k. destruct (retrieve_body _ _ _ _ _ _ _ _ _ _);
    intros; simplify_eq; eauto.
Qed.

(** The events of a request whose retrieval and source listing went
    through. *)
Lemma event_generator_stream files query top_k docs sources chunks failure :
  retrieve_top_k files query top_k = Ok docs → docs ≠ [] →
  mapM source_of docs = Ok sources →
  groq_stream (build_prompt F json_repr docs query) = (chunks, failure) →
  event_generator files query top_k
  = {| events := Sources sources :: map Token (fragments chunks)
                 ++ [match failure with
                     | None => Done
                     | Some e => error_event exn_str e
                     end];
       groq_calls := [build_prompt F json_repr docs query] |}.
Proof.
  intros Hdocs Hne Hsrc Hgroq. unfold Service.event_generator.
  rewrite Hdocs. destruct docs as [|d docs]; [done|].
  rewrite Hsrc, Hgroq. by rewrite token_events_fragments.
Qed.

Lemma filter_tokens (tag : string) (contents : list string) :
  List.filter (is_type tag) (map (Token (F:=F)) contents)
  = if String.eqb "token" tag then map Token contents else [].
Proof.
  induction contents as [|c contents IH]; [by destruct (String.eqb _ _)|].
  cbn [map List.filter]. rewrite IH. unfold is_type. cbn [event_type].
  by destruct (String.eqb "token" tag).
Qed.

End Facts.

(** C1. A request whose non-empty query retrieves nothing gets a stream of
    exactly one event, of type [error] with the message "No docs found";
    generation is not invoked and no [done] event is sent. *)
Theorem no_docs_yields_one_error_event
    (F : Type) (PARENT_DIR : string) (exn_str : exn → string)
    (json_repr : json → string) (json_loads : string → option json)
    (faiss_loads : string → option (IndexFlatL2 F))
    (embed_content : string → result (list F))
    (index_search : IndexFlatL2 F → list F → option Z → result (list (F * Z)))
    (groq_stream : string → list chunk * option exn)
    (files : gmap string node) (request_query : string) (top_k : option Z) :
  strip request_query ≠ "" →
  retrieve_top_k F PARENT_DIR exn_str json_loads faiss_loads embed_content
    index_search files (strip request_query) top_k = Ok [] →
  ∃ r, chat F PARENT_DIR exn_str json_repr json_loads faiss_loads embed_content
         index_search groq_stream files request_query top_k = Ok r ∧
       events r = [Error "No docs found"] ∧
       map event_type (events r) = ["error"] ∧
       groq_calls r = [].
Proof.
  intros Hq Hdocs. unfold chat. rewrite bool_decide_eq_false_2 by done.
  eexists; split; [done|]. unfold event_generator. by rewrite Hdocs.
Qed.

Lemma no_docs_yields_one_error_event_witness :
  strip " install guide " ≠ "" ∧
  retrieve_top_k Z ServiceDemo.PARENT_DIR ServiceDemo.exn_str ServiceDemo.json_loads
    ServiceDemo.faiss_loads ServiceDemo.embed_content ServiceDemo.index_search
    ServiceDemo.with_empty_index (strip " install guide ") (Some 5%Z) = Ok [] ∧
  ∃ r, chat Z ServiceDemo.PARENT_DIR ServiceDemo.exn_str ServiceDemo.json_repr ServiceDemo.json_loads
         ServiceDemo.faiss_loads ServiceDemo.embed_content ServiceDemo.index_search
         ServiceDemo.groq_stream ServiceDemo.with_empty_index " install guide " (Some 5%Z)
       = Ok r ∧
       events r = [Error "No docs found"] ∧
       map event_type (events r) = ["error"] ∧
       groq_calls r = [].
Proof.
  assert (strip " install guide " ≠ "") as Hq by (vm_compute; discriminate).
  assert (retrieve_top_k Z ServiceDemo.PARENT_DIR ServiceDemo.exn_str ServiceDemo.json_loads
            ServiceDemo.faiss_loads ServiceDemo.embed_content ServiceDemo.index_search
            ServiceDemo.with_empty_index (strip " install guide ") (Some 5%Z) = Ok [])
    as Hdocs by (vm_compute; reflexivity).
  split; [exact Hq|]. split; [exact Hdocs|].
  exact (no_docs_yields_one_error_event Z ServiceDemo.PARENT_DIR ServiceDemo.exn_str
           ServiceDemo.json_repr ServiceDemo.json_loads ServiceDemo.faiss_loads ServiceDemo.embed_content
           ServiceDemo.index_search ServiceDemo.groq_stream ServiceDemo.with_empty_index
           " install guide " (Some 5%Z) Hq Hdocs).
Defined.

(** C1, as stated, fails: the one event of a request without results has
    type [error]. *)
Lemma no_docs_event_is_an_error :
  ¬ no_docs_is_a_normal_event Z ServiceDemo.PARENT_DIR ServiceDemo.exn_str ServiceDemo.json_repr
      ServiceDemo.json_loads ServiceDemo.faiss_loads ServiceDemo.embed_content ServiceDemo.index_search
      ServiceDemo.groq_stream ServiceDemo.with_empty_index "install guide" (Some 5%Z).
Proof.
  intros H. destruct H as (ev & Hev & Htype & _); [vm_compute; reflexivity|].
  vm_compute in Hev. by simplify_eq.
Qed.

(** C5. With the index file or the metadata file missing, the retriever's
    own 404 is caught by its [except Exception] and re-raised with status
    500, the status of every other retrieval failure. *)
Theorem missing_index_raises_status_500
    (F : Type) (PARENT_DIR : string) (exn_str : exn → string)
    (json_loads : string → option json)
    (faiss_loads : string → option (IndexFlatL2 F))
    (embed_content : string → result (list F))
    (index_search : IndexFlatL2 F → list F → option Z → result (list (F * Z)))
    (files : gmap string node) (query : string) (top_k : option Z) :
  exists_ files (FAISS_FILE PARENT_DIR) = false
  ∨ exists_ files (META_FILE PARENT_DIR) = false →
  (∃ path_message,
     retrieve_top_k F PARENT_DIR exn_str json_loads faiss_loads embed_content
       index_search files query top_k
     = Raise (HTTPException 500 (exn_str (HTTPException 404 path_message)))) ∧
  (∀ files' query' top_k' e,
     retrieve_top_k F PARENT_DIR exn_str json_loads faiss_loads embed_content
       index_search files' query' top_k' = Raise e →
     ∃ detail, e = HTTPException 500 detail).
Proof.
  intros Hmissing. split; [|intros ????; apply retrieve_top_k_raises_500].
  unfold retrieve_top_k, retrieve_body.
  destruct (exists_ files (FAISS_FILE PARENT_DIR)) eqn:Hix; [|by eexists].
  destruct Hmissing as [? | ->]; [done|]. by eexists.
Qed.

Lemma missing_index_raises_status_500_witness :
  (exists_ (∅ : gmap string node) (FAISS_FILE ServiceDemo.PARENT_DIR) = false
   ∨ exists_ (∅ : gmap string node) (META_FILE ServiceDemo.PARENT_DIR) = false) ∧
  retrieve_top_k Z ServiceDemo.PARENT_DIR ServiceDemo.exn_str ServiceDemo.json_loads
    ServiceDemo.faiss_loads ServiceDemo.embed_content ServiceDemo.index_search ∅ "install guide"
    (Some 5%Z)
  = Raise (HTTPException 500
             "404: Index not found at: /srv/rag/faiss_index.index") ∧
  ((∃ path_message,
      retrieve_top_k Z ServiceDemo.PARENT_DIR ServiceDemo.exn_str ServiceDemo.json_loads
        ServiceDemo.faiss_loads ServiceDemo.embed_content ServiceDemo.index_search ∅
        "install guide" (Some 5%Z)
      = Raise (HTTPException 500
                 (ServiceDemo.exn_str (HTTPException 404 path_message)))) ∧
   (∀ files' query' top_k' e,
      retrieve_top_k Z ServiceDemo.PARENT_DIR ServiceDemo.exn_str ServiceDemo.json_loads
        ServiceDemo.faiss_loads ServiceDemo.embed_content ServiceDemo.index_search files' query'
        top_k' = Raise e →
      ∃ detail, e = HTTPException 500 detail)).
Proof.
  assert (exists_ (∅ : gmap string node) (FAISS_FILE ServiceDemo.PARENT_DIR) = false
          ∨ exists_ (∅ : gmap string node) (META_FILE ServiceDemo.PARENT_DIR) = false)
    as H by (left; vm_compute; reflexivity).
  split; [exact H|]. split; [vm_compute; reflexivity|].
  exact (missing_index_raises_status_500 Z ServiceDemo.PARENT_DIR ServiceDemo.exn_str
           ServiceDemo.json_loads ServiceDemo.faiss_loads ServiceDemo.embed_content
           ServiceDemo.index_search ∅ "install guide" (Some 5%Z) H).
Defined.

(** C9. When retrieval found documents and the generation provider fails
    after [N] text fragments, the stream is the [sources] event, then [N]
    [token] events carrying the fragments in order, then one [error]
    event, which is the last event; there is no [done] event. *)
Theorem failed_generation_stream
    (F : Type) (PARENT_DIR : string) (exn_str : exn → string)
    (json_repr : json → string) (json_loads : string → option json)
    (faiss_loads : string → option (IndexFlatL2 F))
    (embed_content : string → result (list F))
    (index_search : IndexFlatL2 F → list F → option Z → result (list (F * Z)))
    (groq_stream : string → list chunk * option exn)
    (files : gmap string node) (query : string) (top_k : option Z)
    (docs : list (doc F)) (sources : list (source F))
    (chunks : list chunk) (e : exn) :
  retrieve_top_k F PARENT_DIR exn_str json_loads faiss_loads embed_content
    index_search files query top_k = Ok docs →
  docs ≠ [] →
  mapM source_of docs = Ok sources →
  groq_stream (build_prompt F json_repr docs query) = (chunks, Some e) →
  let stream :=
    events (event_generator F PARENT_DIR exn_str json_repr json_loads
              faiss_loads embed_content index_search groq_stream files query
              top_k) in
  stream = Sources sources :: map Token (fragments chunks)
           ++ [error_event exn_str e] ∧
  List.filter (is_type "token") stream = map Token (fragments chunks) ∧
  length (List.filter (is_type "token") stream) = length (fragments chunks) ∧
  List.filter (is_type "error") stream = [error_event exn_str e] ∧
  List.filter (is_type "done") stream = [] ∧
  last stream = Some (error_event exn_str e).
Proof.
  intros Hdocs Hne Hsrc Hgroq stream. subst stream.
  rewrite (event_generator_stream _ _ _ _ _ _ _ _ _ _ _ _ _ _ _ _
             Hdocs Hne Hsrc Hgroq).
  cbn [events]. split; [done|].
  pose proof (error_event_type F exn_str e) as Herr.
  assert (∀ tag, List.filter (is_type tag)
            (Sources sources :: map Token (fragments chunks)
             ++ [error_event exn_str e])
          = (if String.eqb "sources" tag then [Sources sources] else [])
            ++ (if String.eqb "token" tag then map Token (fragments chunks)
                else [])
            ++ (if String.eqb "error" tag then [error_event exn_str e]
                else [])) as Hfilter.
  { intros tag. cbn [List.filter]. rewrite List.filter_app, filter_tokens.
    unfold is_type at 1. cbn [event_type List.filter].
    unfold is_type. rewrite Herr.
    by destruct (String.eqb "sources" tag), (String.eqb "error" tag). }
  rewrite !Hfilter, app_comm_cons, last_snoc. cbn.
  by rewrite !app_nil_r, length_map.
Qed.

Lemma failed_generation_stream_witness :
  let docs := [ {| distance := 0%Z; text := JStr "alpha"; url := JStr "";
                   title := JStr "A"; position := JInt 0 |};
                {| distance := 25%Z; text := JStr "beta"; url := JStr "";
                   title := JStr "B"; position := JInt 0 |} ] in
  let sources := [ {| source_title := JStr "A"; source_url := JStr "";
                      snippet := "alpha..."; source_distance := 0%Z;
                      source_position := JInt 0 |};
                   {| source_title := JStr "B"; source_url := JStr "";
                      snippet := "beta..."; source_distance := 25%Z;
                      source_position := JInt 0 |} ] in
  let chunks := [{| choices := [Some "Hel"] |}; {| choices := [Some ""] |};
                 {| choices := [Some "lo"] |}] in
  let e := Exception "APIError" "connection lost" in
  let stream :=
    events (event_generator Z ServiceDemo.PARENT_DIR ServiceDemo.exn_str
              ServiceDemo.json_repr ServiceDemo.json_loads
              ServiceDemo.faiss_loads ServiceDemo.embed_content
              ServiceDemo.index_search ServiceDemo.groq_stream
              ServiceDemo.with_index "install guide" (Some 5%Z)) in
  (retrieve_top_k Z ServiceDemo.PARENT_DIR ServiceDemo.exn_str
     ServiceDemo.json_loads ServiceDemo.faiss_loads ServiceDemo.embed_content
     ServiceDemo.index_search ServiceDemo.with_index "install guide"
     (Some 5%Z) = Ok docs) ∧
  docs ≠ [] ∧
  mapM source_of docs = Ok sources ∧
  ServiceDemo.groq_stream
    (build_prompt Z ServiceDemo.json_repr docs "install guide")
  = (chunks, Some e) ∧
  fragments chunks = ["Hel"; "lo"] ∧
  stream = [Sources sources; Token "Hel"; Token "lo"; Error "connection lost"] ∧
  (stream = Sources sources :: map Token (fragments chunks)
            ++ [error_event ServiceDemo.exn_str e] ∧
   List.filter (is_type "token") stream = map Token (fragments chunks) ∧
   length (List.filter (is_type "token") stream) = length (fragments chunks) ∧
   List.filter (is_type "error") stream = [error_event ServiceDemo.exn_str e] ∧
   List.filter (is_type "done") stream = [] ∧
   last stream = Some (error_event ServiceDemo.exn_str e)).
Proof.
  intros docs sources chunks e stream.
  assert (docs ≠ []) as Hne by done.
  assert (retrieve_top_k Z ServiceDemo.PARENT_DIR ServiceDemo.exn_str
            ServiceDemo.json_loads ServiceDemo.faiss_loads
            ServiceDemo.embed_content ServiceDemo.index_search
            ServiceDemo.with_index "install guide" (Some 5%Z) = Ok docs)
    as Hdocs by (vm_compute; reflexivity).
  assert (mapM source_of docs = Ok sources) as Hsrc
    by (vm_compute; reflexivity).
  assert (ServiceDemo.groq_stream
            (build_prompt Z ServiceDemo.json_repr docs "install guide")
          = (chunks, Some e)) as Hgroq by reflexivity.
  split; [exact Hdocs|]. split; [exact Hne|]. split; [exact Hsrc|].
  split; [exact Hgroq|]. split; [reflexivity|].
  split; [vm_compute; reflexivity|].
  exact (failed_generation_stream Z ServiceDemo.PARENT_DIR ServiceDemo.exn_str
           ServiceDemo.json_repr ServiceDemo.json_loads
           ServiceDemo.faiss_loads ServiceDemo.embed_content
           ServiceDemo.index_search ServiceDemo.groq_stream
           ServiceDemo.with_index "install guide" (Some 5%Z) docs sources
           chunks e Hdocs Hne Hsrc Hgroq).
Defined.

End ServiceFacts.

(** ** The index builder *)

Module IndexerFacts.
Import PyStr Py Indexer.

Section Facts.

Variable F : Type.
Variable zero : F.
Variable embed_content : nat → json → option (list F).
Variable md5_hexdigest : string → string.
Variable json_loads : string → option json.
Variable json_dumps : json → string.
Variable faiss_loads : string → option (IndexFlatL2 F).
Variable faiss_dumps : IndexFlatL2 F → string.
Variable isoformat : nat → string.

Local Abbreviation should_reindex := (should_reindex md5_hexdigest json_loads).
Local Abbreviation calculate_directory_hash :=
  (calculate_directory_hash md5_hexdigest).
Local Abbreviation read_last_hash := (read_last_hash json_loads).
Local Abbreviation load_chunks := (load_chunks json_loads isoformat).
Local Abbreviation load_one := (load_one json_loads isoformat).
Local Abbreviation embed_one := (embed_one F zero embed_content).
Local Abbreviation embeddings_loop := (embeddings_loop F zero embed_content).
Local Abbreviation get_gemini_embeddings :=
  (get_gemini_embeddings F zero embed_content).
Local Abbreviation batch_loop := (batch_loop F zero embed_content).
Local Abbreviation load_existing := (load_existing F json_loads faiss_loads).
Local Abbreviation rebuild :=
  (rebuild F zero embed_content md5_hexdigest json_loads json_dumps
           faiss_dumps isoformat).
Local Abbreviation build_faiss_index :=
  (build_faiss_index F zero embed_content md5_hexdigest json_loads json_dumps
                     faiss_loads faiss_dumps isoformat).
Local Abbreviation reads_back :=
  (reads_back F json_loads json_dumps faiss_loads faiss_dumps isoformat).

(** *** The change detector *)

Lemma hash_differs_false (last_hash : json) (current_hash : option string) :
  hash_differs last_hash current_hash = false ↔ last_hash = hash_json current_hash.
Proof.
  destruct last_hash, current_hash; simpl; split; intros H; simplify_eq; try done.
  - apply negb_false_iff, String.eqb_eq in H. by subst.
  - apply negb_false_iff, String.eqb_eq. done.
Qed.

Lemma hash_differs_true (last_hash : json) (current_hash : option string) :
  hash_differs last_hash current_hash = true ↔ last_hash ≠ hash_json current_hash.
Proof.
  rewrite <- hash_differs_false. by destruct (hash_differs _ _).
Qed.

Lemma load_one_lengths files input_dir acc f :
  length acc.1.1 = length acc.1.2 →
  length (load_one files input_dir acc f).1.1
  = length (load_one files input_dir acc f).1.2.
Proof.
  destruct acc as [[texts metas] t]. unfold Indexer.load_one.
  intros H. repeat case_match; cbn [fst snd] in *; [|done].
  rewrite !length_app. simpl. lia.
Qed.

Lemma load_chunks_ok input_dir w texts metas w' :
  load_chunks input_dir w = (Ok (texts, metas), w') →
  length texts = length metas ∧ fs w' = fs w ∧ embed_log w' = embed_log w.
Proof.
  unfold Indexer.load_chunks. destruct (negb _); [by intros; simplify_eq|].
  destruct (listdir _ _) as [names|]; [|done].
  assert (∀ l acc, length acc.1.1 = length acc.1.2 →
            length (fold_left (load_one (fs w) input_dir) l acc).1.1
            = length (fold_left (load_one (fs w) input_dir) l acc).1.2) as Hfold.
  { induction l as [|f l IH]; intros acc Hacc; [done|].
    cbn [fold_left]. by apply IH, load_one_lengths. }
  specialize (Hfold (sorted (json_files names)) ([], [], clock w) eq_refl).
  destruct (fold_left _ _ _) as [[texts' metas'] t].
  intros; simplify_eq. done.
Qed.

Lemma rebuild_ok_inv w index metas w1 :
  rebuild w = (Ok (Some index, metas), w1) →
  ∃ texts records w_a all w_b files1 files2 h files3,
    load_chunks INPUT_DIR w = (Ok (texts, records), w_a) ∧ texts ≠ [] ∧
    batch_loop (length texts) texts [] w_a = (all, w_b) ∧
    np_stack F all = Ok (xb index) ∧
    metas = JList records ∧
    write_file (fs w_b) FAISS_FILE (faiss_dumps index) = Ok files1 ∧
    write_file files1 META_FILE (json_dumps (JList records)) = Ok files2 ∧
    calculate_directory_hash files2 INPUT_DIR = Ok h ∧
    write_file files2 INDEX_INFO_FILE
      (json_dumps (index_info isoformat h (length texts) (clock w_b))) = Ok files3 ∧
    w1 = {| fs := files3; embed_log := embed_log w_b; clock := S (clock w_b) |}.
Proof.
  unfold Indexer.rebuild, mbind, M_bind.
  destruct (load_chunks INPUT_DIR w) as [[[texts records]|e] w_a] eqn:Hload; [|done].
  destruct texts as [|t0 texts]; [by cbn; intros; simplify_eq|].
  cbn [length Nat.eqb].
  destruct (batch_loop _ _ _ _) as [all w_b] eqn:Hbatch.
  unfold lift, get_fs, put_fs, save_index_info, now, mbind, M_bind, mret, M_ret.
  destruct (np_stack F all) as [arr|] eqn:Hstack; [|done].
  cbn [fs embed_log clock].
  destruct (write_file (fs w_b) _ _) as [files1|] eqn:Hw1; [|done].
  destruct (write_file files1 _ _) as [files2|] eqn:Hw2; [|done].
  destruct (calculate_directory_hash files2 _) as [h|] eqn:Hh; [|done].
  unfold lift, get_fs, put_fs. cbn [fs embed_log clock].
  destruct (write_file files2 _ _) as [files3|] eqn:Hw3; [|done].
  intros; simplify_eq.
  by eexists (t0 :: texts), records, w_a, all, w_b, files1, files2, h, files3.
Qed.

Lemma embeddings_loop_spec texts embeddings w :
  length (embeddings_loop texts embeddings w).1 = (length embeddings + length texts)%nat ∧
  fs (embeddings_loop texts embeddings w).2 = fs w ∧
  clock (embeddings_loop texts embeddings w).2 = clock w ∧
  embed_log (embeddings_loop texts embeddings w).2 = embed_log w ++ texts.
Proof.
  revert embeddings w. induction texts as [|t texts IH]; intros embeddings w.
  { cbn. by rewrite app_nil_r, Nat.add_0_r. }
  cbn [Indexer.embeddings_loop].
  destruct (embed_one embeddings t w) as [e w'] eqn:He.
  destruct (IH (embeddings ++ [e]) w') as (Hlen & Hfs & Hclock & Hlog).
  rewrite Hlen, Hfs, Hclock, Hlog, length_app. cbn [length].
  assert (fs w' = fs w ∧ clock w' = clock w ∧ embed_log w' = embed_log w ++ [t]) as (-> & -> & ->).
  { unfold Indexer.embed_one in He. repeat case_match; by simplify_eq. }
  rewrite <- app_assoc. split_and!; try done. lia.
Qed.

Lemma batch_loop_spec fuel texts all w :
  (length texts ≤ fuel)%nat →
  length (batch_loop fuel texts all w).1 = (length all + length texts)%nat ∧
  fs (batch_loop fuel texts all w).2 = fs w ∧
  clock (batch_loop fuel texts all w).2 = clock w ∧
  embed_log (batch_loop fuel texts all w).2 = embed_log w ++ texts.
Proof.
  revert texts all w. induction fuel as [|fuel IH]; intros texts all w Hfuel.
  { destruct texts; [|simpl in Hfuel; lia]. cbn. by rewrite app_nil_r, Nat.add_0_r. }
  destruct texts as [|t texts]; [cbn; by rewrite app_nil_r, Nat.add_0_r|].
  cbn [Indexer.batch_loop]. unfold Indexer.get_gemini_embeddings.
  pose proof (embeddings_loop_spec (take BATCH_SIZE (t :: texts)) [] w) as (Hlen & Hfs & Hclock & Hlog).
  destruct (embeddings_loop (take BATCH_SIZE (t :: texts)) [] w) as [embs w'].
  cbn [fst snd] in *.
  destruct (IH (drop BATCH_SIZE (t :: texts)) (all ++ embs) w') as (Hlen' & Hfs' & Hclock' & Hlog').
  { rewrite length_drop. unfold BATCH_SIZE. cbn [length] in *. lia. }
  rewrite Hlen', Hfs', Hclock', Hlog', Hfs, Hclock, Hlog, length_app, Hlen.
  rewrite <- app_assoc, take_drop, length_take, length_drop.
  split_and!; try done. unfold BATCH_SIZE. cbn [length]. lia.
Qed.


Lemma np_stack_ok (arrays stacked : list (list F)) :
  np_stack F arrays = Ok stacked → stacked = arrays.
Proof. unfold np_stack. repeat case_match; by intros; simplify_eq. Qed.

Lemma write_file_ok (files files' : gmap string node) (p data : string) :
  write_file files p data = Ok files' → files' = <[p := File data]> files.
Proof. unfold write_file. repeat case_match; by intros; simplify_eq. Qed.

(** The hash looks at the chunk directory only. *)
Lemma calculate_directory_hash_ext (files files' : gmap string node) d :
  files !! d = files' !! d →
  calculate_directory_hash files d = calculate_directory_hash files' d.
Proof.
  intros H. unfold Indexer.calculate_directory_hash, exists_, listdir, read_entry.
  by rewrite H.
Qed.

Lemma load_existing_world w : (load_existing w).2 = w.
Proof.
  unfold Indexer.load_existing, mbind, M_bind, lift, get_fs, mret, M_ret.
  by repeat case_match.
Qed.

Lemma load_existing_ok w index_bytes index meta_bytes metas :
  fs w !! FAISS_FILE = Some (File index_bytes) →
  faiss_loads index_bytes = Some index →
  fs w !! META_FILE = Some (File meta_bytes) →
  json_loads meta_bytes = Some metas →
  load_existing w = (Ok (Some index, metas), w).
Proof.
  intros Hix Hid Hm Hmd.
  unfold Indexer.load_existing, mbind, M_bind, lift, get_fs, mret, M_ret, read_file.
  by rewrite Hix, Hid, Hm, Hmd.
Qed.

Lemma build_without_rebuild w :
  should_reindex (fs w) INPUT_DIR = Ok false →
  build_faiss_index false w = load_existing w.
Proof.
  intros H. unfold Indexer.build_faiss_index, mbind, M_bind, lift, get_fs.
  by rewrite H.
Qed.

Lemma build_with_rebuild force w :
  force = true ∨ should_reindex (fs w) INPUT_DIR = Ok true →
  build_faiss_index force w = rebuild w.
Proof.
  unfold Indexer.build_faiss_index, mbind, M_bind, lift, get_fs, mret, M_ret.
  intros [-> | H]; [done|]. destruct force; [done|]. by rewrite H.
Qed.

(** *** A build followed by a second one *)

Lemma rebuilt_store_is_current w index metas w1 :
  rebuild w = (Ok (Some index, metas), w1) →
  reads_back index metas →
  should_reindex (fs w1) INPUT_DIR = Ok false ∧
  load_existing w1 = (Ok (Some index, metas), w1).
Proof.
  intros Hre (Hf & Hm & Hi).
  apply rebuild_ok_inv in Hre
    as (texts & records & w_a & all & w_b & files1 & files2 & h & files3 &
        Hload & Hne & Hbatch & Hstack & -> & Hw1 & Hw2 & Hh & Hw3 & ->).
  apply write_file_ok in Hw1, Hw2, Hw3.
  destruct (Hi h (length texts) (clock w_b)) as (info & Hinfo & Hget).
  assert (files3 !! INDEX_INFO_FILE
          = Some (File (json_dumps (index_info isoformat h (length texts)
                                      (clock w_b))))) as Hl3
    by (subst files3; apply lookup_insert_eq).
  assert (files3 !! META_FILE = Some (File (json_dumps (JList records)))) as Hl2.
  { subst files3 files2. rewrite lookup_insert_ne by done.
    apply lookup_insert_eq. }
  assert (files3 !! FAISS_FILE = Some (File (faiss_dumps index))) as Hl1.
  { subst files3 files2 files1. rewrite !lookup_insert_ne by done.
    apply lookup_insert_eq. }
  assert (files3 !! INPUT_DIR = files2 !! INPUT_DIR) as Hdir
    by (subst files3; by rewrite lookup_insert_ne).
  assert (read_last_hash files3 = Ok (hash_json h)) as Hlast.
  { unfold Indexer.read_last_hash, read_file. rewrite Hl3. cbn.
    rewrite Hinfo. exact Hget. }
  cbn [fs]. split.
  - unfold Indexer.should_reindex, exists_. rewrite Hl1, Hl2, Hl3, Hlast.
    rewrite !bool_decide_eq_true_2 by eauto. cbn.
    rewrite (calculate_directory_hash_ext files3 files2) by done.
    rewrite Hh. cbn. f_equal. by apply hash_differs_false.
  - by eapply load_existing_ok.
Qed.

(** *** The fallback dimension *)

Lemma embeddings_loop_prefix texts embeddings w :
  ∃ more, (embeddings_loop texts embeddings w).1 = embeddings ++ more.
Proof.
  revert embeddings w. induction texts as [|t texts IH]; intros embeddings w.
  { exists []. cbn. by rewrite app_nil_r. }
  cbn [Indexer.embeddings_loop]. destruct (embed_one embeddings t w) as [e w'].
  destruct (IH (embeddings ++ [e]) w') as [more ->].
  exists (e :: more). by rewrite <- app_assoc.
Qed.

Lemma batch_loop_prefix fuel texts all w :
  ∃ more, (batch_loop fuel texts all w).1 = all ++ more.
Proof.
  revert texts all w. induction fuel as [|fuel IH]; intros texts all w.
  { exists []. cbn. by rewrite app_nil_r. }
  destruct texts as [|t texts]; [exists []; cbn; by rewrite app_nil_r|].
  cbn [Indexer.batch_loop].
  destruct (get_gemini_embeddings (take BATCH_SIZE (t :: texts)) w) as [embs w'].
  destruct (IH (drop BATCH_SIZE (t :: texts)) (all ++ embs) w') as [more ->].
  exists (embs ++ more). by rewrite <- app_assoc.
Qed.

Lemma batch_loop_unfold fuel texts all w :
  texts ≠ [] →
  batch_loop (S fuel) texts all w
  = batch_loop fuel (drop BATCH_SIZE texts)
      (all ++ (get_gemini_embeddings (take BATCH_SIZE texts) w).1)
      (get_gemini_embeddings (take BATCH_SIZE texts) w).2.
Proof.
  intros Hne. destruct texts as [|t texts]; [done|]. cbn [Indexer.batch_loop].
  by destruct (get_gemini_embeddings _ _).
Qed.

(** The text that opens a batch: when its call fails the substitute has
    the default dimension, whatever was embedded before. *)
Lemma failed_batch_head w t rest :
  embed_content (length (embed_log w)) t = None →
  ∃ more, (get_gemini_embeddings (t :: rest) w).1 = replicate 768 zero :: more.
Proof.
  intros Hfail. unfold Indexer.get_gemini_embeddings.
  cbn [Indexer.embeddings_loop]. unfold Indexer.embed_one. rewrite Hfail.
  apply embeddings_loop_prefix.
Qed.

(** With a provider of dimension 768 the substitutes fit: every vector of
    the run has 768 entries and [np.stack] accepts them. *)
Section Dimension768.

Hypothesis provider_dim :
  ∀ n text v, embed_content n text = Some v → length v = 768%nat.




End Dimension768.

End Facts.

(** [should_reindex] by its two readings, [read_last_hash] and
    [calculate_directory_hash]: [True] exactly when one of the three files
    is missing, or the first reading raises, or the two readings differ;
    [False] exactly when all three files are there and the readings
    agree. *)
Theorem should_reindex_iff
    (md5_hexdigest : string → string) (json_loads : string → option json)
    (files : gmap string node) (input_dir : string) :
  (should_reindex md5_hexdigest json_loads files input_dir = Ok true ↔
     exists_ files FAISS_FILE = false
     ∨ exists_ files META_FILE = false
     ∨ exists_ files INDEX_INFO_FILE = false
     ∨ (∃ e, read_last_hash json_loads files = Raise e)
     ∨ (∃ last_hash current_hash,
          read_last_hash json_loads files = Ok last_hash ∧
          calculate_directory_hash md5_hexdigest files input_dir = Ok current_hash ∧
          last_hash ≠ hash_json current_hash)) ∧
  (should_reindex md5_hexdigest json_loads files input_dir = Ok false ↔
     exists_ files FAISS_FILE = true
     ∧ exists_ files META_FILE = true
     ∧ exists_ files INDEX_INFO_FILE = true
     ∧ ∃ current_hash,
         read_last_hash json_loads files = Ok (hash_json current_hash) ∧
         calculate_directory_hash md5_hexdigest files input_dir = Ok current_hash).
Proof.
  unfold should_reindex.
  destruct (exists_ files FAISS_FILE), (exists_ files META_FILE),
    (exists_ files INDEX_INFO_FILE); simpl; try (split; naive_solver).
  destruct (read_last_hash json_loads files) as [last_hash|e];
    [|split; naive_solver].
  destruct (calculate_directory_hash md5_hexdigest files input_dir)
    as [current_hash|e]; simpl; [|split; naive_solver].
  pose proof (hash_differs_false last_hash current_hash).
  pose proof (hash_differs_true last_hash current_hash).
  destruct (hash_differs last_hash current_hash); split; naive_solver.
Qed.

(** C7. With [force_reindex] false and no re-indexing needed, the build
    makes no embedding call, changes nothing, and returns the index and the
    metadata decoded from the persisted files. That is the case of a
    second build right after a build that wrote files which read back: it
    returns the index and metadata of the first. *)
Theorem unchanged_store_is_loaded_without_embedding
    (F : Type) (zero : F) (embed_content : nat → json → option (list F))
    (md5_hexdigest : string → string) (json_loads : string → option json)
    (json_dumps : json → string)
    (faiss_loads : string → option (IndexFlatL2 F))
    (faiss_dumps : IndexFlatL2 F → string) (isoformat : nat → string) :
  let build := build_faiss_index F zero embed_content md5_hexdigest json_loads
                 json_dumps faiss_loads faiss_dumps isoformat in
  (∀ w, should_reindex md5_hexdigest json_loads (fs w) INPUT_DIR = Ok false →
     (build false w).2 = w ∧
     embed_log (build false w).2 = embed_log w ∧
     ∀ index_bytes index meta_bytes metas,
       fs w !! FAISS_FILE = Some (File index_bytes) →
       faiss_loads index_bytes = Some index →
       fs w !! META_FILE = Some (File meta_bytes) →
       json_loads meta_bytes = Some metas →
       (build false w).1 = Ok (Some index, metas)) ∧
  (∀ force w index metas,
     (build force w).1 = Ok (Some index, metas) →
     reads_back F json_loads json_dumps faiss_loads faiss_dumps isoformat
       index metas →
     let w1 := (build force w).2 in
     should_reindex md5_hexdigest json_loads (fs w1) INPUT_DIR = Ok false ∧
     build false w1 = (Ok (Some index, metas), w1)).
Proof.
  intros build. split.
  - intros w Hno. unfold build. rewrite build_without_rebuild by done.
    rewrite load_existing_world. split_and!; try done.
    intros index_bytes index meta_bytes metas Hix Hid Hm Hmd.
    by erewrite load_existing_ok.
  - intros force w index metas Hok Hback w1. subst w1 build.
    destruct (Indexer.build_faiss_index _ _ _ _ _ _ _ _ _ force w)
      as [r w1] eqn:Hbuild.
    cbn [fst snd] in *. subst r.
    assert (should_reindex md5_hexdigest json_loads (fs w1) INPUT_DIR = Ok false
            ∧ load_existing F json_loads faiss_loads w1
              = (Ok (Some index, metas), w1)) as [Hno Hload].
    { destruct (should_reindex md5_hexdigest json_loads (fs w) INPUT_DIR)
        as [[]|e] eqn:Hneed.
      - rewrite build_with_rebuild in Hbuild by (by right).
        by eapply rebuilt_store_is_current.
      - destruct force.
        + rewrite build_with_rebuild in Hbuild by (by left).
          by eapply rebuilt_store_is_current.
        + rewrite build_without_rebuild in Hbuild by done.
          pose proof (load_existing_world F json_loads faiss_loads w) as Hw.
          rewrite Hbuild in Hw. cbn [snd] in Hw. subst w1. by rewrite Hbuild.
      - destruct force.
        + rewrite build_with_rebuild in Hbuild by (by left).
          by eapply rebuilt_store_is_current.
        + unfold Indexer.build_faiss_index, mbind, M_bind, lift, get_fs in Hbuild.
          by rewrite Hneed in Hbuild. }
    split; [done|]. by rewrite build_without_rebuild.
Qed.

Lemma unchanged_store_is_loaded_without_embedding_witness :
  let first := IndexerDemo.build_faiss_index true IndexerDemo.start in
  first.1 = Ok (Some IndexerDemo.index, JList IndexerDemo.records) ∧
  reads_back Z IndexerDemo.json_loads IndexerDemo.json_dumps IndexerDemo.faiss_loads
    IndexerDemo.faiss_dumps IndexerDemo.isoformat IndexerDemo.index (JList IndexerDemo.records) ∧
  embed_log first.2 = [JStr "alpha"; JStr "beta"] ∧
  should_reindex IndexerDemo.md5_hexdigest IndexerDemo.json_loads (fs first.2) INPUT_DIR
    = Ok false ∧
  IndexerDemo.build_faiss_index false first.2
    = (Ok (Some IndexerDemo.index, JList IndexerDemo.records), first.2) ∧
  embed_log (IndexerDemo.build_faiss_index false first.2).2
    = [JStr "alpha"; JStr "beta"].
Proof.
  intros first.
  assert (first.1 = Ok (Some IndexerDemo.index, JList IndexerDemo.records)) as Hfirst
    by (vm_compute; reflexivity).
  assert (reads_back Z IndexerDemo.json_loads IndexerDemo.json_dumps IndexerDemo.faiss_loads
            IndexerDemo.faiss_dumps IndexerDemo.isoformat IndexerDemo.index (JList IndexerDemo.records))
    as Hback.
  { split_and!; [vm_compute; reflexivity..|].
    intros [h|] n t; eexists; split; vm_compute; reflexivity. }
  destruct (unchanged_store_is_loaded_without_embedding Z 0%Z
              IndexerDemo.embed_content IndexerDemo.md5_hexdigest IndexerDemo.json_loads
              IndexerDemo.json_dumps IndexerDemo.faiss_loads IndexerDemo.faiss_dumps
              IndexerDemo.isoformat) as [Hload Hsecond].
  destruct (Hsecond true IndexerDemo.start IndexerDemo.index (JList IndexerDemo.records)
              Hfirst Hback) as [Hno Hagain].
  destruct (Hload first.2 Hno) as (_ & Hlog & _).
  split; [exact Hfirst|]. split; [exact Hback|].
  split; [vm_compute; reflexivity|]. split; [exact Hno|].
  split; [exact Hagain|].
  etrans; [exact Hlog | vm_compute; reflexivity].
Defined.

(** C10. After a build that constructed a new index and returned it, the
    index holds as many vectors as there are metadata records: one per
    chunk file that loaded, each of which was sent to the embedding
    provider exactly once, whether the call succeeded or not. *)
Theorem index_and_metadata_counts_agree
    (F : Type) (zero : F) (embed_content : nat → json → option (list F))
    (md5_hexdigest : string → string) (json_loads : string → option json)
    (json_dumps : json → string)
    (faiss_loads : string → option (IndexFlatL2 F))
    (faiss_dumps : IndexFlatL2 F → string) (isoformat : nat → string)
    (force : bool) (w : world) (index : IndexFlatL2 F) (metas : json) :
  force = true
  ∨ should_reindex md5_hexdigest json_loads (fs w) INPUT_DIR = Ok true →
  (build_faiss_index F zero embed_content md5_hexdigest json_loads json_dumps
     faiss_loads faiss_dumps isoformat force w).1 = Ok (Some index, metas) →
  ∃ texts records,
    (load_chunks json_loads isoformat INPUT_DIR w).1 = Ok (texts, records) ∧
    metas = JList records ∧
    ntotal index = length records ∧
    length texts = length records ∧
    embed_log (build_faiss_index F zero embed_content md5_hexdigest json_loads
                 json_dumps faiss_loads faiss_dumps isoformat force w).2
    = embed_log w ++ texts.
Proof.
  intros Hnew. rewrite build_with_rebuild by done.
  destruct (rebuild _ _ _ _ _ _ _ _ w) as [r w1] eqn:Hre.
  cbn [fst snd]. intros ->.
  apply rebuild_ok_inv in Hre
    as (texts & records & w_a & all & w_b & files1 & files2 & h & files3 &
        Hload & Hne & Hbatch & Hstack & -> & Hw1 & Hw2 & Hh & Hw3 & ->).
  apply np_stack_ok in Hstack.
  destruct (load_chunks_ok _ _ _ _ _ _ _ Hload) as (Hlen & _ & Hlog).
  destruct (batch_loop_spec F zero embed_content (length texts) texts [] w_a)
    as (Hall & _ & _ & Hlog'); [done|].
  rewrite Hbatch in Hall, Hlog'. cbn [fst snd length] in *.
  exists texts, records. rewrite Hload. unfold ntotal.
  rewrite Hstack, Hall, Hlog', Hlog. by split_and!.
Qed.

Lemma index_and_metadata_counts_agree_witness :
  (true = true
   ∨ should_reindex IndexerDemo.md5_hexdigest IndexerDemo.json_loads (fs IndexerDemo.start)
       INPUT_DIR = Ok true) ∧
  (IndexerDemo.build_faiss_index true IndexerDemo.start).1
    = Ok (Some IndexerDemo.index, JList IndexerDemo.records) ∧
  ntotal IndexerDemo.index = length IndexerDemo.records ∧
  ∃ texts records,
    (load_chunks IndexerDemo.json_loads IndexerDemo.isoformat INPUT_DIR IndexerDemo.start).1
      = Ok (texts, records) ∧
    JList IndexerDemo.records = JList records ∧
    ntotal IndexerDemo.index = length records ∧
    length texts = length records ∧
    embed_log (IndexerDemo.build_faiss_index true IndexerDemo.start).2
    = embed_log IndexerDemo.start ++ texts.
Proof.
  assert ((IndexerDemo.build_faiss_index true IndexerDemo.start).1
          = Ok (Some IndexerDemo.index, JList IndexerDemo.records)) as Hbuild
    by (vm_compute; reflexivity).
  split; [by left|]. split; [exact Hbuild|]. split; [reflexivity|].
  exact (index_and_metadata_counts_agree Z 0%Z IndexerDemo.embed_content
           IndexerDemo.md5_hexdigest IndexerDemo.json_loads IndexerDemo.json_dumps IndexerDemo.faiss_loads
           IndexerDemo.faiss_dumps IndexerDemo.isoformat true IndexerDemo.start IndexerDemo.index
           (JList IndexerDemo.records) (or_introl eq_refl) Hbuild).
Defined.

(** The substitute of a failed call takes its dimension from the list
    of the current batch only: when the call that opens the second batch
    fails, its vector has 768 zeros, whatever the sixteen texts of the
    first batch were embedded to. With a provider of the declared
    dimension, 768, this makes no difference. *)
Theorem fallback_dimension_is_per_batch
    (F : Type) (zero : F) (embed_content : nat → json → option (list F))
    (w : world) (texts1 : list json) (t : json) (texts2 : list json) :
  length texts1 = BATCH_SIZE →
  embed_content (length (embed_log w) + BATCH_SIZE)%nat t = None →
  (batch_loop F zero embed_content (length (texts1 ++ t :: texts2))
     (texts1 ++ t :: texts2) [] w).1 !! BATCH_SIZE
  = Some (replicate 768 zero).
Proof.
  intros Hlen Hfail.
  rewrite length_app. cbn [length]. rewrite Nat.add_succ_r.
  rewrite batch_loop_unfold by (by destruct texts1).
  rewrite take_app_length', drop_app_length' by done.
  destruct (embeddings_loop_spec F zero embed_content texts1 [] w)
    as (Hn & _ & _ & Hlog).
  unfold get_gemini_embeddings.
  destruct (embeddings_loop F zero embed_content texts1 [] w) as [embs w'].
  cbn [fst snd length] in *. rewrite Hlen.
  change (BATCH_SIZE + length texts2)%nat with (S (15 + length texts2)).
  rewrite batch_loop_unfold by done.
  destruct (failed_batch_head F zero embed_content w' t
              (take 15 texts2)) as [more Hmore].
  { by rewrite Hlog, length_app, Hlen. }
  change (take BATCH_SIZE (t :: texts2)) with (t :: take 15 texts2).
  rewrite Hmore. rewrite app_nil_l.
  destruct (batch_loop_prefix F zero embed_content (15 + length texts2)
              (drop BATCH_SIZE (t :: texts2))
              (embs ++ replicate 768 zero :: more)
              (Indexer.get_gemini_embeddings F zero embed_content
                 (t :: take 15 texts2) w').2) as [more' ->].
  rewrite <- app_assoc, lookup_app_r by lia.
  by rewrite Hn, Hlen, Nat.sub_diag.
Qed.

Lemma fallback_dimension_is_per_batch_witness :
  let texts := replicate 17 (JStr "alpha") in
  let run := build_faiss_index Z 0%Z IndexerDemo.embed_content_17 IndexerDemo.md5_hexdigest
               IndexerDemo.json_loads IndexerDemo.json_dumps IndexerDemo.faiss_loads
               IndexerDemo.faiss_dumps IndexerDemo.isoformat true IndexerDemo.start_17 in
  length (replicate 16 (JStr "alpha")) = BATCH_SIZE ∧
  IndexerDemo.embed_content_17 (length (embed_log IndexerDemo.start_17) + BATCH_SIZE)%nat
    (JStr "alpha") = None ∧
  (∃ records,
     (load_chunks IndexerDemo.json_loads IndexerDemo.isoformat INPUT_DIR IndexerDemo.start_17).1
     = Ok (texts, records)) ∧
  map length (batch_loop Z 0%Z IndexerDemo.embed_content_17 17 texts [] IndexerDemo.start_17).1
    = replicate 16 3%nat ++ [768%nat] ∧
  run.1 = Raise (Exception "ValueError"
                   "all input arrays must have the same shape") ∧
  embed_log run.2 = texts ∧
  (batch_loop Z 0%Z IndexerDemo.embed_content_17 17 texts [] IndexerDemo.start_17).1
    !! BATCH_SIZE = Some (replicate 768 0%Z).
Proof.
  intros texts run.
  split; [reflexivity|]. split; [reflexivity|].
  split; [eexists; vm_compute; reflexivity|].
  split; [vm_compute; reflexivity|].
  split; [vm_compute; reflexivity|]. split; [vm_compute; reflexivity|].
  exact (fallback_dimension_is_per_batch Z 0%Z IndexerDemo.embed_content_17
           IndexerDemo.start_17 (replicate 16 (JStr "alpha")) (JStr "alpha") []
           eq_refl eq_refl).
Defined.

End IndexerFacts.

(** ** The chunker: runs of lines, and the script *)

Module ChunkerMainFacts.
Import PyStr PyStrFacts Chunker ChunkerFacts ChunkerMain.

Section Facts.

Variable token_len : string → nat.

Local Abbreviation step_seg := (step_seg token_len).
Local Abbreviation segments := (segments token_len).
Local Abbreviation emitted := (emitted token_len).

Lemma close_buffer_tr_filter why tr cur :
  why ≠ BySizeCap →
  close_buffer_tr token_len why tr cur = tr ++ List.filter emitted [(why, cur)].
Proof.
  intros Hwhy. unfold close_buffer_tr, ChunkerMain.emitted. cbn [List.filter fst snd].
  destruct why; [|done|]; destruct (_ <? _)%nat; by rewrite ?app_nil_r.
Qed.

Lemma step_seg_filter segs cur ln :
  step_tr token_len (List.filter emitted segs, cur) ln
  = (List.filter emitted (step_seg (segs, cur) ln).1, (step_seg (segs, cur) ln).2).
Proof.
  unfold step_tr, ChunkerMain.step_seg.
  destruct (startswith "#" ln), cur as [|l0 cur]; cbv beta iota zeta;
    destruct (_ <? token_len (join NL _))%nat; cbn [fst snd];
    rewrite ?List.filter_app, ?close_buffer_tr_filter by done; try done.
Qed.

Lemma fold_step_seg_filter lines segs cur :
  fold_left (step_tr token_len) lines (List.filter emitted segs, cur)
  = (List.filter emitted (fold_left step_seg lines (segs, cur)).1,
     (fold_left step_seg lines (segs, cur)).2).
Proof.
  revert segs cur. induction lines as [|ln lines IH]; intros segs cur; [done|].
  cbn [fold_left]. rewrite step_seg_filter.
  destruct (step_seg (segs, cur) ln) as [segs' cur']. apply IH.
Qed.

Lemma chunk_trace_segments lines :
  chunk_trace token_len lines = List.filter emitted (segments lines).
Proof.
  unfold chunk_trace, ChunkerMain.segments.
  change (@nil (closed_by * list string)) with (List.filter emitted []) at 1.
  rewrite fold_step_seg_filter.
  destruct (fold_left step_seg lines ([], [])) as [segs cur]. cbn [fst snd].
  destruct cur; [done|].
  by rewrite List.filter_app, close_buffer_tr_filter.
Qed.

Lemma seg_inv_close seen segs cur why :
  cur ≠ [] → seg_inv seen (segs, cur) →
  seg_inv seen (segs ++ [(why, cur)], []).
Proof.
  intros Hne (Hcat & Hsegs & Hcur). unfold seg_inv. cbn [fst snd] in *.
  split_and!.
  - rewrite map_app, concat_app, app_nil_r. cbn. by rewrite app_nil_r.
  - apply Forall_app. split; [done|]. by apply Forall_singleton.
  - constructor.
Qed.

Lemma seg_inv_append seen segs cur ln :
  cur = [] ∨ startswith "#" ln = false →
  seg_inv seen (segs, cur) →
  seg_inv (seen ++ [ln])
    (if (MAX_TOKENS <? token_len (join NL (cur ++ [ln])))%nat
     then (segs ++ [(BySizeCap, cur ++ [ln])], [])
     else (segs, cur ++ [ln])).
Proof.
  intros Hhead (Hcat & Hsegs & Hcur). cbn [fst snd] in *.
  assert (seg_inv (seen ++ [ln]) (segs, cur ++ [ln])) as Hnext.
  { unfold seg_inv. split_and!; cbn [fst snd];
      [by rewrite app_assoc, Hcat | done |].
    unfold no_inner_heading in *. destruct cur as [|l0 cur]; [constructor|].
    cbn [tail app] in *. apply Forall_app. split; [done|].
    apply Forall_singleton. by destruct Hhead. }
  destruct (_ <? _)%nat; [|done].
  apply (seg_inv_close _ _ _ BySizeCap); [by destruct cur | done].
Qed.

Lemma step_seg_inv seen st ln :
  seg_inv seen st → seg_inv (seen ++ [ln]) (step_seg st ln).
Proof.
  destruct st as [segs cur]. intros Hinv. unfold ChunkerMain.step_seg.
  destruct (startswith "#" ln) eqn:Hln; [|by apply seg_inv_append; [right|]].
  destruct cur as [|l0 cur]; [by apply seg_inv_append; [left|]|].
  apply seg_inv_append; [by left|].
  by apply (seg_inv_close _ _ _ AtHeading).
Qed.

Lemma fold_step_seg_inv lines seen st :
  seg_inv seen st → seg_inv (seen ++ lines) (fold_left step_seg lines st).
Proof.
  revert seen st. induction lines as [|ln lines IH]; intros seen st Hinv.
  { by rewrite app_nil_r. }
  cbn [fold_left]. rewrite (cons_middle ln seen lines), app_assoc.
  by apply IH, step_seg_inv.
Qed.

Lemma segments_inv lines : seg_inv lines (segments lines, []).
Proof.
  unfold ChunkerMain.segments.
  pose proof (fold_step_seg_inv lines [] ([], [])) as H.
  destruct (fold_left step_seg lines ([], [])) as [segs cur].
  destruct H as (Hcat & Hsegs & Hcur); [by split_and!; constructor|].
  cbn [fst snd app] in *. destruct cur as [|l0 cur].
  - by split_and!.
  - apply (seg_inv_close _ _ _ AtEndOfInput); [done|]. by split_and!.
Qed.

End Facts.

(** The chunker cuts the document into consecutive runs of lines: the
    closed buffers, in order, are the input; none is empty; a heading is
    only ever the first line of a run; the chunks are the stripped joins
    of the runs that are emitted, in order, so there are at most as many
    chunks as lines. *)
Theorem chunks_are_runs_of_the_input
    (token_len : string → nat) (lines : list string) :
  let segs := segments token_len lines in
  concat (map snd segs) = lines ∧
  Forall (λ e, e.2 ≠ [] ∧ no_inner_heading e.2) segs ∧
  chunk_heading_recursive token_len lines
    = map chunk_text (List.filter (emitted token_len) segs) ∧
  (length (chunk_heading_recursive token_len lines) ≤ length lines)%nat.
Proof.
  intros segs. destruct (segments_inv token_len lines) as (Hcat & Hsegs & _).
  cbn [fst snd] in *. rewrite app_nil_r in Hcat. fold segs in Hcat, Hsegs.
  assert (chunk_heading_recursive token_len lines
          = map chunk_text (List.filter (emitted token_len) segs)) as Hch
    by (by rewrite chunk_trace_text, chunk_trace_segments).
  split_and!; [done..|].
  rewrite Hch, length_map, <- Hcat.
  etrans; [apply List.filter_length_le|].
  clear -Hsegs. induction Hsegs as [|[why buf] segs' [Hne _] _ IH]; [done|].
  cbn [map concat length snd] in *. rewrite length_app.
  destruct buf; [done|]. cbn [length]. lia.
Qed.

Lemma stripped_lines_stripped_chunks
    (token_len : string → nat) (lines : list string) :
  Forall stripped lines →
  Forall stripped (chunk_heading_recursive token_len lines).
Proof.
  intros Hlines. rewrite chunk_trace_text. apply Forall_fmap.
  pose proof (chunk_trace_ok token_len lines) as Hok.
  pose proof (chunk_trace_lines token_len stripped lines Hlines) as Hbuf.
  rewrite Forall_forall in Hok, Hbuf. apply Forall_forall. intros e He.
  destruct (Hok e He) as [Hne _]. specialize (Hbuf e He).
  unfold chunk_text, compose.
  rewrite strip_stripped by (by apply stripped_join).
  by apply stripped_join.
Qed.

(** For stripped, non-blank lines every chunk is the join of its lines
    as they are, so it is not empty, has no white space at either end,
    and its lines are the lines of its run. *)
Theorem chunks_are_stripped (token_len : string → nat) (lines : list string) :
  Forall stripped lines →
  Forall stripped (chunk_heading_recursive token_len lines) ∧
  chunk_heading_recursive token_len lines
  = map (λ e, join NL e.2)
      (List.filter (emitted token_len) (segments token_len lines)).
Proof.
  intros Hlines. split; [by apply stripped_lines_stripped_chunks|].
  rewrite chunk_trace_text, chunk_trace_segments.
  pose proof (chunk_trace_ok token_len lines) as Hok.
  pose proof (chunk_trace_lines token_len stripped lines Hlines) as Hbuf.
  rewrite chunk_trace_segments in Hok, Hbuf.
  rewrite Forall_forall in Hok, Hbuf.
  apply map_ext_in. intros e He%list_elem_of_In.
  destruct (Hok e He) as [Hne _]. specialize (Hbuf e He).
  unfold chunk_text. by rewrite strip_stripped by (by apply stripped_join).
Qed.

Lemma chunks_are_stripped_witness :
  let lines := [words "a" 451; "# " +:+ words "b" 61] in
  Forall stripped lines ∧
  length (chunk_heading_recursive word_tokens lines) = 2%nat ∧
  Forall stripped (chunk_heading_recursive word_tokens lines) ∧
  chunk_heading_recursive word_tokens lines
  = map (λ e, join NL e.2)
      (List.filter (emitted word_tokens) (segments word_tokens lines)).
Proof.
  intros lines.
  assert (Forall stripped lines) as H
    by (refine (bool_decide_unpack _ _); vm_compute; exact I).
  split; [exact H|]. split; [vm_compute; reflexivity|].
  exact (chunks_are_stripped word_tokens lines H).
Defined.

(** *** The lines the script passes *)

Lemma contains_lstrip c s : contains c s = false → contains c (lstrip s) = false.
Proof.
  induction s as [|c' s IH]; [done|]. cbn [lstrip].
  destruct (isspace c'); [|done]. cbn [contains].
  intros [_ H]%orb_false_elim. by apply IH.
Qed.

Lemma contains_rstrip c s : contains c s = false → contains c (rstrip s) = false.
Proof.
  induction s as [|c' s IH]; [done|]. rewrite rstrip_String. cbn [contains].
  intros [Hc H]%orb_false_elim. specialize (IH H).
  destruct (rstrip s) as [|d r].
  - destruct (isspace c'); [done|]. cbn [contains]. by rewrite Hc.
  - cbn [contains] in *. by rewrite Hc, IH.
Qed.

Lemma contains_strip c s : contains c s = false → contains c (strip s) = false.
Proof. intros. by apply contains_rstrip, contains_lstrip. Qed.

Lemma split_on_pieces sep s :
  Forall (λ p, contains sep p = false) (split_on sep s).
Proof.
  induction s as [|c s IH]; [by repeat constructor|]. cbn [split_on].
  destruct (bool_decide (c = sep)) eqn:Hc; [by constructor|].
  destruct (split_on sep s) as [|p ps]; [by repeat constructor; cbn; rewrite Hc|].
  apply Forall_cons in IH as [Hp Hps]. constructor; [|done].
  cbn [contains]. by rewrite Hc, Hp.
Qed.

Lemma split_on_nonempty sep s : split_on sep s ≠ [].
Proof.
  destruct s as [|c s]; [done|]. cbn [split_on].
  destruct (bool_decide _); [done|]. by destruct (split_on sep s).
Qed.

(** [md.split("\n")] loses nothing: joining the pieces gives [md] back. *)
Lemma join_split_on s : join NL (split_on NLc s) = s.
Proof.
  induction s as [|c s IH]; [done|]. cbn [split_on].
  pose proof (split_on_nonempty NLc s) as Hne.
  destruct (split_on NLc s) as [|p ps] eqn:E; [done|].
  destruct (bool_decide (c = NLc)) eqn:Hc.
  - apply bool_decide_eq_true in Hc as ->.
    change (join NL ("" :: p :: ps)) with ("" +:+ NL +:+ join NL (p :: ps)).
    by rewrite IH.
  - destruct ps as [|q ps].
    + cbn [join] in *. by rewrite IH.
    + change (join NL (String c p :: q :: ps))
        with (String c p +:+ NL +:+ join NL (q :: ps)).
      change (join NL (p :: q :: ps)) with (p +:+ NL +:+ join NL (q :: ps)) in IH.
      by rewrite app_String, IH.
Qed.

(** Every line the script hands to the chunker is stripped, not blank and
    free of newlines; hence every chunk of a page is stripped. *)
Theorem clean_lines_are_stripped (token_len : string → nat) (md : string) :
  Forall (λ ln, stripped ln ∧ contains NLc ln = false) (clean_lines md) ∧
  Forall stripped (chunk_heading_recursive token_len (clean_lines md)).
Proof.
  assert (Forall (λ ln, stripped ln ∧ contains NLc ln = false) (clean_lines md))
    as H.
  { apply Forall_forall. intros ln Hin%list_elem_of_In.
    apply List.filter_In in Hin as [Hin Hne].
    apply List.in_map_iff in Hin as (p & <- & Hp%list_elem_of_In).
    pose proof (split_on_pieces NLc md) as Hpieces.
    rewrite Forall_forall in Hpieces. split.
    - apply strip_is_stripped. intros E. by rewrite E in Hne.
    - by apply contains_strip, Hpieces. }
  split; [done|]. apply stripped_lines_stripped_chunks.
  eapply Forall_impl; [exact H|]. by intros ln [? _].
Qed.

(** *** The files of the script *)

Lemma pretty_N_char_digit x : is_digit (pretty_N_char x) = true.
Proof. unfold pretty_N_char. by repeat case_match. Qed.

Lemma all_digits_app a b : all_digits (a +:+ b) = all_digits a && all_digits b.
Proof.
  induction a as [|c a IH]; [done|]. rewrite app_String. cbn [all_digits].
  by rewrite IH, andb_assoc.
Qed.

Lemma app_snoc_string p c s : (p +:+ String c "") +:+ s = p +:+ String c s.
Proof. induction p as [|d p IH]; [done|]. by rewrite !app_String, IH. Qed.

Lemma pretty_N_go_digits x s :
  ∃ p, pretty_N_go x s = p +:+ s ∧ all_digits p = true.
Proof.
  revert s. induction (N.lt_wf_0 x) as [x _ IH]; intros s.
  assert (x = 0 ∨ 0 < x)%N as [->|?] by lia.
  - exists "". by rewrite pretty_N_go_0.
  - rewrite pretty_N_go_step by done.
    destruct (IH (x `div` 10)%N (N.div_lt x 10 ltac:(done) ltac:(done))
                (String (pretty_N_char (x `mod` 10)) s)) as (p & -> & Hp).
    exists (p +:+ String (pretty_N_char (x `mod` 10)) "").
    split; [by rewrite app_snoc_string|].
    rewrite all_digits_app, Hp. cbn [all_digits].
    by rewrite pretty_N_char_digit.
Qed.

Lemma pretty_nat_digits (n : nat) : all_digits (pretty n) = true.
Proof.
  unfold pretty, pretty_nat, pretty, pretty_N. case_decide; [done|].
  destruct (pretty_N_go_digits (N.of_nat n) "") as (p & -> & Hp).
  by rewrite all_digits_app, Hp.
Qed.

(** Two strings of digits, each followed by something that does not start
    with a digit: equal wholes have equal parts. *)
Lemma digits_prefix_inj p1 p2 c1 c2 r1 r2 :
  all_digits p1 = true → all_digits p2 = true →
  is_digit c1 = false → is_digit c2 = false →
  p1 +:+ String c1 r1 = p2 +:+ String c2 r2 →
  p1 = p2 ∧ String c1 r1 = String c2 r2.
Proof.
  revert p2. induction p1 as [|d1 p1 IH]; intros [|d2 p2] H1 H2 Hc1 Hc2 E;
    rewrite ?app_empty, ?app_String in E; cbn in H1, H2.
  - done.
  - injection E as -> _. apply andb_true_iff in H2 as [H2 _]. congruence.
  - injection E as <- _. apply andb_true_iff in H1 as [H1 _]. congruence.
  - injection E as -> E. apply andb_true_iff in H1 as [_ H1].
    apply andb_true_iff in H2 as [_ H2].
    by destruct (IH p2 H1 H2 Hc1 Hc2 E) as [-> ?].
Qed.

Lemma outname_inj p c p' c' : outname p c = outname p' c' → p = p' ∧ c = c'.
Proof.
  unfold outname. intros E. apply (inj (String.app "page_")) in E.
  change ("_chunk_" +:+ ?x) with (String "_" ("chunk_" +:+ x)) in E.
  apply digits_prefix_inj in E as [Hp E];
    [|apply pretty_nat_digits..|done|done].
  injection E as E. rewrite !app_empty in E.
  change (?x +:+ ".json") with (x +:+ String "." "json") in E.
  apply digits_prefix_inj in E as [Hc _];
    [|apply pretty_nat_digits..|done|done].
  split; by apply (inj pretty).
Qed.

Lemma endswith_refl p : endswith p p = true.
Proof. destruct p; cbn; by rewrite ?String.eqb_refl, ?Ascii.eqb_refl. Qed.

Lemma endswith_app p a b : endswith p b = true → endswith p (a +:+ b) = true.
Proof.
  intros H. induction a as [|c a IH]; [done|]. rewrite app_String.
  cbn [endswith]. by rewrite IH, orb_true_r.
Qed.

Lemma outname_json p c : endswith ".json" (outname p c) = true.
Proof. unfold outname. do 4 apply endswith_app. apply endswith_refl. Qed.

Section Script.

Variable token_len : string → nat.
Variable html_to_clean_markdown : string → string.
Variable md5_hexdigest : string → string.
Variable dump_record : chunk_record → string.

Local Abbreviation page_files :=
  (page_files token_len html_to_clean_markdown md5_hexdigest).
Local Abbreviation all_files :=
  (all_files token_len html_to_clean_markdown md5_hexdigest).
Local Abbreviation write_all :=
  (write_all token_len html_to_clean_markdown md5_hexdigest dump_record).
Local Abbreviation page_chunks := (λ data : page,
  chunk_heading_recursive token_len
    (clean_lines (html_to_clean_markdown (page_html data)))).

Lemma page_files_names p data :
  (page_files p data).*1 = outname p <$> seq 0 (length (page_chunks data)).
Proof.
  unfold ChunkerMain.page_files. rewrite fmap_imap.
  rewrite <- imap_seq_0. by apply imap_ext.
Qed.

Lemma page_files_lookup p data c f :
  page_files p data !! c = Some f ↔
  ∃ part, page_chunks data !! c = Some part ∧
    f = (outname p c,
         {| rec_url := page_url data; rec_title := page_title data;
            rec_position := c; rec_text := part;
            rec_checksum := md5_hexdigest part |}).
Proof.
  unfold ChunkerMain.page_files. rewrite list_lookup_imap.
  destruct (_ !! c) as [part|]; cbn; split.
  - intros [= <-]. eauto.
  - by intros (? & [= <-] & ->).
  - done.
  - by intros (? & ? & _).
Qed.

(** The files of the pages from number [k] on. *)
Lemma files_from_names k pages name :
  name ∈ (concat (imap (λ i, page_files (k + i)) pages)).*1 →
  ∃ p c, (k ≤ p)%nat ∧ name = outname p c.
Proof.
  revert k. induction pages as [|data pages IH]; intros k; [by inversion 1|].
  rewrite imap_cons. cbn [concat]. rewrite fmap_app, elem_of_app.
  intros [Hin | Hin].
  - rewrite page_files_names, list_elem_of_fmap in Hin.
    destruct Hin as (c & -> & _). exists (k + 0)%nat, c. split; [lia|done].
  - rewrite (imap_ext _ (λ i, page_files (S k + i))) in Hin
      by (intros; unfold compose; f_equal; lia).
    destruct (IH (S k) Hin) as (p & c & Hp & ->). exists p, c. split; [lia|done].
Qed.

Lemma files_from_NoDup k pages :
  NoDup (concat (imap (λ i, page_files (k + i)) pages)).*1.
Proof.
  revert k. induction pages as [|data pages IH]; intros k; [constructor|].
  rewrite imap_cons. cbn [concat]. rewrite fmap_app.
  rewrite (imap_ext _ (λ i, page_files (S k + i)))
    by (intros; unfold compose; f_equal; lia).
  apply NoDup_app. split_and!; [| |apply IH].
  - rewrite page_files_names. apply NoDup_fmap_2_strong; [|apply NoDup_seq].
    intros c c' _ _ E. by apply outname_inj in E as [_ ?].
  - intros name Hin Hin'. rewrite page_files_names, list_elem_of_fmap in Hin.
    destruct Hin as (c & -> & _).
    apply files_from_names in Hin' as (p & c' & Hp & E).
    apply outname_inj in E as [E _]. lia.
Qed.

Lemma all_files_NoDup pages : NoDup (all_files pages).*1.
Proof. apply (files_from_NoDup 0). Qed.

Lemma all_files_elem pages f :
  f ∈ all_files pages ↔
  ∃ p data c, pages !! p = Some data ∧ page_files p data !! c = Some f.
Proof.
  unfold ChunkerMain.all_files. rewrite list_elem_of_In, in_concat. split.
  - intros (l & Hl%list_elem_of_In & Hf%list_elem_of_In).
    apply elem_of_lookup_imap in Hl as (p & data & -> & Hp).
    apply list_elem_of_lookup in Hf as [c Hc]. eauto.
  - intros (p & data & c & Hp & Hc). exists (page_files p data). split.
    + apply list_elem_of_In. by apply elem_of_lookup_imap_2.
    + apply list_elem_of_In. by eapply list_elem_of_lookup_2.
Qed.

(** Writing a list of files with distinct names. *)
Lemma fold_insert_other (l : list (string * chunk_record))
    (m : gmap string string) name :
  name ∉ l.*1 →
  fold_left (λ dir f, <[f.1 := dump_record f.2]> dir) l m !! name = m !! name.
Proof.
  revert m. induction l as [|[k v] l IH]; intros m Hnot; [done|].
  cbn [fold_left fst snd]. cbn in Hnot. apply not_elem_of_cons in Hnot as [? ?].
  rewrite IH by done. by rewrite lookup_insert_ne.
Qed.

Lemma fold_insert_elem (l : list (string * chunk_record))
    (m : gmap string string) name rec :
  NoDup l.*1 → (name, rec) ∈ l →
  fold_left (λ dir f, <[f.1 := dump_record f.2]> dir) l m !! name
  = Some (dump_record rec).
Proof.
  revert m. induction l as [|[k v] l IH]; intros m Hnd Hin; [by inversion Hin|].
  cbn in Hnd. apply NoDup_cons in Hnd as [Hk Hnd]. cbn [fold_left fst snd].
  apply elem_of_cons in Hin as [[= -> ->] | Hin].
  - rewrite fold_insert_other by done. apply lookup_insert_eq.
  - by apply IH.
Qed.

End Script.

(** The script writes every chunk of every page to a file of its own:
    the names are pairwise distinct and end in [.json]; the file of chunk
    [c] of page [p] holds that chunk with position [c] and the MD5 of its
    text; entries of the directory under other names are left as they
    were. *)
Theorem script_writes_one_file_per_chunk
    (token_len : string → nat) (html_to_clean_markdown : string → string)
    (md5_hexdigest : string → string) (dump_record : chunk_record → string)
    (pages : list page) (entries : gmap string string) :
  let files := all_files token_len html_to_clean_markdown md5_hexdigest pages in
  let after := write_all token_len html_to_clean_markdown md5_hexdigest
                 dump_record pages entries in
  NoDup files.*1 ∧
  (∀ name rec, (name, rec) ∈ files ↔
     ∃ p data part,
       pages !! p = Some data ∧
       chunk_heading_recursive token_len
         (clean_lines (html_to_clean_markdown (page_html data)))
         !! rec_position rec = Some part ∧
       name = outname p (rec_position rec) ∧
       rec = {| rec_url := page_url data; rec_title := page_title data;
                rec_position := rec_position rec; rec_text := part;
                rec_checksum := md5_hexdigest part |}) ∧
  (∀ name rec, (name, rec) ∈ files →
     after !! name = Some (dump_record rec) ∧
     endswith ".json" name = true) ∧
  (∀ name, name ∉ files.*1 → after !! name = entries !! name).
Proof.
  intros files after.
  pose proof (all_files_NoDup token_len html_to_clean_markdown md5_hexdigest
                pages) as Hnd.
  assert (∀ name rec, (name, rec) ∈ files ↔
     ∃ p data part,
       pages !! p = Some data ∧
       chunk_heading_recursive token_len
         (clean_lines (html_to_clean_markdown (page_html data)))
         !! rec_position rec = Some part ∧
       name = outname p (rec_position rec) ∧
       rec = {| rec_url := page_url data; rec_title := page_title data;
                rec_position := rec_position rec; rec_text := part;
                rec_checksum := md5_hexdigest part |}) as Helem.
  { intros name rec. unfold files. rewrite all_files_elem. split.
    - intros (p & data & c & Hp & Hc).
      apply page_files_lookup in Hc as (part & Hpart & [= -> ->]).
      by exists p, data, part.
    - intros (p & data & part & Hp & Hpart & -> & Hrec).
      exists p, data, (rec_position rec). split; [done|].
      apply page_files_lookup. exists part. split; [done|]. by f_equal. }
  split_and!; [done|done| |].
  - intros name rec Hin. split; [by apply fold_insert_elem|].
    apply Helem in Hin as (p & data & part & _ & _ & -> & _).
    apply outname_json.
  - intros name Hnot. by apply fold_insert_other.
Qed.

End ChunkerMainFacts.

(** ** The index builder: order, frame and artifacts *)

Module IndexerMoreFacts.
Import PyStr PyStrFacts Py Indexer IndexerFacts IndexerSearch.

(** *** [sorted] *)

Lemma insert_sorted_perm x l : insert_sorted x l ≡ₚ x :: l.
Proof.
  induction l as [|y l IH]; [done|]. cbn [insert_sorted].
  destruct (String.leb x y); [done|]. rewrite IH. apply Permutation_swap.
Qed.

Lemma sorted_perm l : sorted l ≡ₚ l.
Proof.
  unfold sorted. induction l as [|x l IH]; [done|]. cbn [foldr].
  by rewrite insert_sorted_perm, IH.
Qed.

Lemma leb_false_le x y : String.leb x y = false → String.le y x.
Proof.
  intros H. destruct (total String.le x y) as [Hxy | Hyx]; [|done].
  unfold String.le in Hxy. by rewrite H in Hxy.
Qed.

Lemma insert_sorted_Sorted x l :
  Sorted String.le l → Sorted String.le (insert_sorted x l).
Proof.
  induction 1 as [|y l Hl IH Hhd]; [by repeat constructor|].
  cbn [insert_sorted]. destruct (String.leb x y) eqn:Hxy.
  - constructor; [by constructor|]. constructor. unfold String.le. by rewrite Hxy.
  - constructor; [done|]. apply leb_false_le in Hxy.
    destruct Hhd as [|z l Hz]; cbn [insert_sorted]; [by constructor|].
    destruct (String.leb x z); by constructor.
Qed.

Lemma sorted_Sorted l : Sorted String.le (sorted l).
Proof.
  unfold sorted. induction l as [|x l IH]; [constructor|].
  cbn [foldr]. by apply insert_sorted_Sorted.
Qed.

Lemma sorted_perm_eq l l' : l ≡ₚ l' → sorted l = sorted l'.
Proof.
  intros Hperm. apply (Sorted_unique String.le); [apply sorted_Sorted..|].
  by rewrite !sorted_perm.
Qed.

(** Inserting below everything puts the name in front. *)
Lemma insert_sorted_least x l :
  Forall (String.le x) l → insert_sorted x l = x :: l.
Proof.
  destruct 1 as [|y l Hxy _]; [done|]. cbn [insert_sorted].
  unfold String.le in Hxy. by destruct (String.leb x y).
Qed.

Lemma filter_insert_sorted (P : string → Prop) `{!∀ x, Decision (P x)} x l :
  Sorted String.le l →
  filter P (insert_sorted x l)
  = if decide (P x) then insert_sorted x (filter P l) else filter P l.
Proof.
  intros Hl%(Sorted_StronglySorted _).
  induction Hl as [|y l Hl IH Hy];
    [cbn [insert_sorted]; rewrite filter_cons; by destruct (decide _)|].
  cbn [insert_sorted]. destruct (String.leb x y) eqn:Hxy.
  - rewrite (filter_cons _ x). destruct (decide (P x)); [|done].
    rewrite insert_sorted_least; [done|].
    apply Forall_forall. intros z [_ Hz]%list_elem_of_filter.
    assert (String.le x y) as Hle by (unfold String.le; by rewrite Hxy).
    apply elem_of_cons in Hz as [-> | Hz]; [done|].
    rewrite Forall_forall in Hy. etrans; [exact Hle | by apply Hy].
  - rewrite !(filter_cons _ y), IH.
    destruct (decide (P x)), (decide (P y)); try done.
    cbn [insert_sorted]. by rewrite Hxy.
Qed.

Lemma json_files_sorted names :
  json_files (sorted names) = sorted (json_files names).
Proof.
  unfold json_files, sorted. induction names as [|x names IH]; [done|].
  cbn [foldr]. rewrite filter_insert_sorted by apply sorted_Sorted.
  rewrite filter_cons, IH. by destruct (decide _).
Qed.

(** [sorted] puts the names in ascending order, keeps each of them, and
    gives the same list for every order in which [os.listdir] may return
    them; filtering the [.json] names before or after sorting is the
    same, so the hash is taken over the files [load_chunks] reads, in the
    order it reads them. *)
Theorem sorted_listing_is_canonical (names : list string) :
  Sorted String.le (sorted names) ∧
  sorted names ≡ₚ names ∧
  (∀ names', names' ≡ₚ names → sorted names' = sorted names) ∧
  json_files (sorted names) = sorted (json_files names).
Proof.
  split_and!; [apply sorted_Sorted | apply sorted_perm | |
               apply json_files_sorted].
  intros names'. apply sorted_perm_eq.
Qed.

Lemma mapM_ext_in {A B} (f g : A → result B) (l : list A) :
  (∀ x, x ∈ l → f x = g x) → mapM f l = mapM g l.
Proof.
  induction l as [|x l IH]; intros H; [done|]. cbn [mapM].
  rewrite (H x) by left. rewrite IH; [done|]. intros y Hy. apply H. by right.
Qed.

Lemma fold_left_ext_in {A B} (f g : B → A → B) (l : list A) (b : B) :
  (∀ b x, x ∈ l → f b x = g b x) → fold_left f l b = fold_left g l b.
Proof.
  revert b. induction l as [|x l IH]; intros b H; [done|]. cbn [fold_left].
  rewrite (H b x) by left. apply IH. intros b' y Hy. apply H. by right.
Qed.

Lemma elem_of_json_names (entries : gmap string string) name :
  name ∈ json_files (map fst (map_to_list entries)) ↔
  endswith ".json" name = true ∧ is_Some (entries !! name).
Proof.
  unfold json_files. rewrite list_elem_of_filter, list_elem_of_fmap. split.
  - intros [Hj ([k v] & -> & Hin)]. split; [done|].
    apply elem_of_map_to_list in Hin. by exists v.
  - intros [Hj [v Hv]]. split; [done|]. exists (name, v). split; [done|].
    by apply elem_of_map_to_list.
Qed.

Lemma json_names_agree (entries entries' : gmap string string) :
  (∀ name, endswith ".json" name = true → entries !! name = entries' !! name) →
  json_files (sorted (map fst (map_to_list entries)))
  = json_files (sorted (map fst (map_to_list entries'))).
Proof.
  intros Hagree. rewrite !json_files_sorted. apply sorted_perm_eq.
  apply NoDup_Permutation.
  - apply NoDup_filter, NoDup_fst_map_to_list.
  - apply NoDup_filter, NoDup_fst_map_to_list.
  - intros name. rewrite !elem_of_json_names.
    split; intros [Hj Hsome]; (split; [done|]);
      [by rewrite <- Hagree | by rewrite Hagree].
Qed.

Section Facts.

Variable F : Type.
Variable zero : F.
Variable embed_content : nat → json → option (list F).
Variable md5_hexdigest : string → string.
Variable json_loads : string → option json.
Variable json_dumps : json → string.
Variable faiss_loads : string → option (IndexFlatL2 F).
Variable faiss_dumps : IndexFlatL2 F → string.
Variable isoformat : nat → string.

Local Abbreviation should_reindex := (should_reindex md5_hexdigest json_loads).
Local Abbreviation calculate_directory_hash :=
  (calculate_directory_hash md5_hexdigest).
Local Abbreviation load_chunks := (load_chunks json_loads isoformat).
Local Abbreviation load_one := (load_one json_loads isoformat).
Local Abbreviation embeddings_loop := (embeddings_loop F zero embed_content).
Local Abbreviation get_gemini_embeddings :=
  (get_gemini_embeddings F zero embed_content).
Local Abbreviation batch_loop := (batch_loop F zero embed_content).
Local Abbreviation load_existing := (load_existing F json_loads faiss_loads).
Local Abbreviation rebuild :=
  (rebuild F zero embed_content md5_hexdigest json_loads json_dumps
           faiss_dumps isoformat).
Local Abbreviation build_faiss_index :=
  (build_faiss_index F zero embed_content md5_hexdigest json_loads json_dumps
                     faiss_loads faiss_dumps isoformat).

(** *** Files that are not chunks *)

Lemma read_entry_agree (files files' : gmap string node) d entries entries'
    (names : list string) :
  files !! d = Some (Dir entries) → files' !! d = Some (Dir entries') →
  (∀ name, endswith ".json" name = true → entries !! name = entries' !! name) →
  ∀ name, name ∈ json_files names →
          read_entry files d name = read_entry files' d name.
Proof.
  intros Hd Hd' Hagree name [Hj _]%list_elem_of_filter.
  unfold read_entry. by rewrite Hd, Hd', Hagree.
Qed.

Lemma load_one_agree (files files' : gmap string node) d acc f :
  read_entry files d f = read_entry files' d f →
  load_one files d acc f = load_one files' d acc f.
Proof. intros H. unfold Indexer.load_one. by rewrite H. Qed.

End Facts.

(** Entries of the chunk directory whose name does not end in [.json] do
    not count: two directories with the same [.json] entries have the
    same hash and load the same texts and metadata. *)
Theorem only_json_entries_count
    (md5_hexdigest : string → string) (json_loads : string → option json)
    (isoformat : nat → string)
    (files files' : gmap string node) (d : string)
    (entries entries' : gmap string string)
    (log log' : list json) (t : nat) :
  files !! d = Some (Dir entries) → files' !! d = Some (Dir entries') →
  (∀ name, endswith ".json" name = true → entries !! name = entries' !! name) →
  calculate_directory_hash md5_hexdigest files d
    = calculate_directory_hash md5_hexdigest files' d ∧
  (load_chunks json_loads isoformat d
     {| fs := files; embed_log := log; clock := t |}).1
  = (load_chunks json_loads isoformat d
       {| fs := files'; embed_log := log'; clock := t |}).1.
Proof.
  intros Hd Hd' Hagree. split.
  - unfold calculate_directory_hash, exists_, listdir. rewrite Hd, Hd'.
    rewrite !bool_decide_eq_true_2 by eauto. cbn.
    rewrite (json_names_agree entries entries') by done.
    rewrite (mapM_ext_in (read_entry files d) (read_entry files' d)); [done|].
    by eapply read_entry_agree.
  - unfold load_chunks, exists_, listdir. cbn [fs clock embed_log].
    rewrite Hd, Hd'. rewrite !bool_decide_eq_true_2 by eauto. cbn [negb].
    rewrite <- !json_files_sorted.
    rewrite (json_names_agree entries entries') by done.
    rewrite (fold_left_ext_in (Indexer.load_one json_loads isoformat files d)
               (Indexer.load_one json_loads isoformat files' d)).
    + by destruct (fold_left _ _ _) as [[??]?].
    + intros acc f Hin. apply load_one_agree. by eapply read_entry_agree.
Qed.

Lemma only_json_entries_count_witness :
  let entries' : gmap string string :=
    <["README.txt" := "notes"]> (delete "notes.txt"
      {[ "a.json" := "A"; "b.json" := "B"; "c.json" := "{";
         "d.json" := "L"; "notes.txt" := "A" ]}) in
  let files' : gmap string node := {[ "chunks" := Dir entries' ]} in
  calculate_directory_hash IndexerDemo.md5_hexdigest IndexerDemo.store "chunks"
    = Ok (Some "md5:AB{L") ∧
  (calculate_directory_hash IndexerDemo.md5_hexdigest IndexerDemo.store "chunks"
     = calculate_directory_hash IndexerDemo.md5_hexdigest files' "chunks" ∧
   (load_chunks IndexerDemo.json_loads IndexerDemo.isoformat "chunks"
      {| fs := IndexerDemo.store; embed_log := []; clock := 0 |}).1
   = (load_chunks IndexerDemo.json_loads IndexerDemo.isoformat "chunks"
        {| fs := files'; embed_log := []; clock := 0 |}).1).
Proof.
  intros entries' files'. split; [vm_compute; reflexivity|].
  apply (only_json_entries_count IndexerDemo.md5_hexdigest
           IndexerDemo.json_loads IndexerDemo.isoformat IndexerDemo.store
           files' "chunks"
           {[ "a.json" := "A"; "b.json" := "B"; "c.json" := "{";
              "d.json" := "L"; "notes.txt" := "A" ]} entries' [] [] 0%nat).
  - reflexivity.
  - reflexivity.
  - intros name Hj. unfold entries'.
    destruct (decide (name = "README.txt")) as [-> | Hne];
      [by vm_compute in Hj|].
    destruct (decide (name = "notes.txt")) as [-> | Hne'];
      [by vm_compute in Hj|].
    symmetry. etrans; [apply lookup_insert_ne; congruence|].
    apply lookup_delete_ne. congruence.
Defined.

(** *** What a build writes *)

Section Outcome.

Variable F : Type.
Variable zero : F.
Variable embed_content : nat → json → option (list F).
Variable md5_hexdigest : string → string.
Variable json_loads : string → option json.
Variable json_dumps : json → string.
Variable faiss_loads : string → option (IndexFlatL2 F).
Variable faiss_dumps : IndexFlatL2 F → string.
Variable isoformat : nat → string.

Local Abbreviation should_reindex := (should_reindex md5_hexdigest json_loads).
Local Abbreviation calculate_directory_hash :=
  (calculate_directory_hash md5_hexdigest).
Local Abbreviation load_chunks := (load_chunks json_loads isoformat).
Local Abbreviation batch_loop := (batch_loop F zero embed_content).
Local Abbreviation rebuild :=
  (rebuild F zero embed_content md5_hexdigest json_loads json_dumps
           faiss_dumps isoformat).
Local Abbreviation build_faiss_index :=
  (build_faiss_index F zero embed_content md5_hexdigest json_loads json_dumps
                     faiss_loads faiss_dumps isoformat).

Lemma load_chunks_fs d w :
  fs (load_chunks d w).2 = fs w ∧ embed_log (load_chunks d w).2 = embed_log w.
Proof.
  unfold Indexer.load_chunks. destruct (negb _); [done|].
  destruct (listdir _ _); [|done]. by destruct (fold_left _ _ _) as [[??]?].
Qed.

(** The files after [rebuild], by how far it got: nothing written; the
    index written; index and metadata written; all three written, which
    is the only case in which an index is returned. *)
Lemma rebuild_outcome w :
  (fs (rebuild w).2 = fs w ∧ ∀ index metas, (rebuild w).1 ≠ Ok (Some index, metas))
  ∨ (∃ a e, fs (rebuild w).2 = <[FAISS_FILE := File a]> (fs w) ∧
            (rebuild w).1 = Raise e)
  ∨ (∃ a b e, fs (rebuild w).2
              = <[META_FILE := File b]> (<[FAISS_FILE := File a]> (fs w)) ∧
              (rebuild w).1 = Raise e)
  ∨ (∃ a b c index metas,
       fs (rebuild w).2
       = <[INDEX_INFO_FILE := File c]>
           (<[META_FILE := File b]> (<[FAISS_FILE := File a]> (fs w))) ∧
       (rebuild w).1 = Ok (Some index, metas)).
Proof.
  unfold Indexer.rebuild, mbind, M_bind.
  pose proof (load_chunks_fs INPUT_DIR w) as [Hfs _].
  destruct (load_chunks INPUT_DIR w) as [[[texts records]|e] w_a];
    cbn [fst snd] in *; [|by left].
  destruct texts as [|t0 texts]; [by left|]. cbn [length Nat.eqb].
  destruct (batch_loop_spec F zero embed_content (S (length texts))
              (t0 :: texts) [] w_a) as (_ & Hfs' & _); [done|].
  destruct (batch_loop _ _ _ _) as [all w_b]. cbn [fst snd] in *.
  unfold lift, get_fs, put_fs, save_index_info, now, mbind, M_bind, mret, M_ret.
  destruct (np_stack F all) as [arr|];
    [|left; cbn [fst snd]; by rewrite Hfs', Hfs].
  cbn [fs embed_log clock]. rewrite Hfs', Hfs.
  destruct (write_file (fs w) _ _) as [files1|] eqn:Hw1;
    [|left; cbn [fst snd]; by rewrite Hfs', Hfs].
  apply write_file_ok in Hw1 as ->.
  destruct (write_file _ META_FILE _) as [files2|] eqn:Hw2;
    [|right; left; cbn [fst snd fs]; eauto].
  apply write_file_ok in Hw2 as ->.
  destruct (Indexer.calculate_directory_hash _ _ _) as [h|];
    [|right; right; left; cbn [fst snd fs]; eauto].
  unfold lift, get_fs, put_fs. cbn [fs embed_log clock].
  destruct (write_file _ INDEX_INFO_FILE _) as [files3|] eqn:Hw3;
    [|right; right; left; cbn [fst snd fs]; eauto].
  apply write_file_ok in Hw3 as ->. right; right; right.
  cbn [fst snd fs]. eauto 10.
Qed.

Lemma build_cases force w :
  build_faiss_index force w = rebuild w
  ∨ (build_faiss_index force w).2 = w ∧
    (∀ index metas, (build_faiss_index force w).1 = Ok (Some index, metas) →
       force = false ∧
       Indexer.should_reindex md5_hexdigest json_loads (fs w) INPUT_DIR
       = Ok false).
Proof.
  destruct force; [left; by apply build_with_rebuild; left|].
  destruct (Indexer.should_reindex md5_hexdigest json_loads (fs w) INPUT_DIR)
    as [[]|e] eqn:Hneed.
  - left. apply build_with_rebuild. by right.
  - right. rewrite build_without_rebuild by done.
    split; [apply load_existing_world | done].
  - right. unfold Indexer.build_faiss_index, mbind, M_bind, lift, get_fs.
    rewrite Hneed. by split.
Qed.

(** *** Vectors and records in chunk order *)

Lemma embed_one_vector embeddings text w :
  IndexerOrder.vector_for F zero embed_content (length (embed_log w)) text
    (embed_one F zero embed_content embeddings text w).1 ∧
  embed_log (embed_one F zero embed_content embeddings text w).2
  = embed_log w ++ [text].
Proof.
  unfold embed_one, IndexerOrder.vector_for. cbv zeta.
  destruct (embed_content (length (embed_log w)) text) as [v|]; [done|].
  destruct embeddings as [|e0 ?]; cbn [fst snd embed_log]; split; eauto.
Qed.

Lemma embeddings_loop_vectors texts embeddings w :
  ∃ xs, (embeddings_loop F zero embed_content texts embeddings w).1
        = embeddings ++ xs ∧
    ∀ i t, texts !! i = Some t →
      ∃ x, xs !! i = Some x ∧
           IndexerOrder.vector_for F zero embed_content
             (length (embed_log w) + i) t x.
Proof.
  revert embeddings w. induction texts as [|t0 texts IH]; intros embeddings w.
  { exists []. cbn. by rewrite app_nil_r. }
  cbn [embeddings_loop].
  destruct (embed_one_vector embeddings t0 w) as [Hv Hlog].
  destruct (embed_one F zero embed_content embeddings t0 w) as [e w'].
  cbn [fst snd] in *.
  destruct (IH (embeddings ++ [e]) w') as (xs & -> & Hxs).
  exists (e :: xs). split; [by rewrite <- app_assoc|].
  intros [|i] t Hi; cbn in Hi.
  - simplify_eq. exists e. split; [done|]. by rewrite Nat.add_0_r.
  - destruct (Hxs i t Hi) as (x & Hx & Hvx). exists x. split; [done|].
    rewrite Hlog, length_app in Hvx. cbn [length] in Hvx.
    by replace (length (embed_log w) + S i)%nat
      with (length (embed_log w) + 1 + i)%nat by lia.
Qed.

Lemma batch_loop_vectors fuel texts all w :
  (length texts ≤ fuel)%nat →
  ∃ xs, (batch_loop fuel texts all w).1 = all ++ xs ∧
    ∀ i t, texts !! i = Some t →
      ∃ x, xs !! i = Some x ∧
           IndexerOrder.vector_for F zero embed_content
             (length (embed_log w) + i) t x.
Proof.
  revert texts all w. induction fuel as [|fuel IH]; intros texts all w Hfuel.
  { destruct texts; [|cbn in Hfuel; lia]. exists []. cbn.
    split; [by rewrite app_nil_r | done]. }
  destruct texts as [|t0 texts].
  { exists []. cbn. split; [by rewrite app_nil_r | done]. }
  rewrite batch_loop_unfold by done. unfold get_gemini_embeddings.
  destruct (embeddings_loop_vectors (take BATCH_SIZE (t0 :: texts)) [] w)
    as (xs1 & Hxs1 & Hv1).
  destruct (embeddings_loop_spec F zero embed_content
              (take BATCH_SIZE (t0 :: texts)) [] w) as (Hlen1 & _ & _ & Hlog1).
  destruct (embeddings_loop F zero embed_content _ [] w) as [embs w'].
  cbn [fst snd app length] in *. subst embs.
  destruct (IH (drop BATCH_SIZE (t0 :: texts)) (all ++ xs1) w')
    as (xs2 & -> & Hv2).
  { rewrite length_drop. unfold BATCH_SIZE. cbn [length] in *. lia. }
  exists (xs1 ++ xs2). split; [by rewrite <- app_assoc|].
  intros i t Hi.
  destruct (decide (i < BATCH_SIZE)%nat) as [Hlt | Hge].
  - destruct (Hv1 i t) as (x & Hx & Hvx); [by rewrite lookup_take_lt|].
    exists x. split; [|done]. by apply lookup_app_l_Some.
  - assert (length (take BATCH_SIZE (t0 :: texts)) = BATCH_SIZE) as Htake.
    { apply lookup_lt_Some in Hi. rewrite length_take. lia. }
    destruct (Hv2 (i - BATCH_SIZE)%nat t) as (x & Hx & Hvx).
    { rewrite lookup_drop. by replace (BATCH_SIZE + (i - BATCH_SIZE))%nat
        with i by lia. }
    exists x. split.
    + rewrite lookup_app_r by lia. by rewrite Hlen1, Htake.
    + rewrite Hlog1, length_app, Htake in Hvx.
      by replace (length (embed_log w) + BATCH_SIZE + (i - BATCH_SIZE))%nat
        with (length (embed_log w) + i)%nat in Hvx by lia.
Qed.

Lemma load_one_same_file files d acc f :
  endswith ".json" f = true →
  Forall2 (IndexerOrder.same_file json_loads files d) acc.1.1 acc.1.2 →
  Forall2 (IndexerOrder.same_file json_loads files d)
    (Indexer.load_one json_loads isoformat files d acc f).1.1
    (Indexer.load_one json_loads isoformat files d acc f).1.2.
Proof.
  destruct acc as [[texts metas] t]. intros Hj Hacc. cbn [fst snd] in *.
  unfold Indexer.load_one.
  destruct (read_entry files d f) as [bytes|] eqn:Hread; [|done]. cbn.
  destruct (json_loads bytes) as [data|] eqn:Hdata; [|done]. cbn.
  destruct data as [| | | | |items]; try done. cbn.
  apply Forall2_app; [done|]. constructor; [|constructor].
  exists f, bytes, (JDict items). by split_and!.
Qed.

Lemma load_chunks_same_file d w texts records :
  (load_chunks d w).1 = Ok (texts, records) →
  Forall2 (IndexerOrder.same_file json_loads (fs w) d) texts records.
Proof.
  unfold Indexer.load_chunks. destruct (negb _).
  { intros [= <- <-]. constructor. }
  destruct (listdir _ _) as [names|]; [|done].
  assert (∀ l acc, Forall (λ f, endswith ".json" f = true) l →
    Forall2 (IndexerOrder.same_file json_loads (fs w) d) acc.1.1 acc.1.2 →
    Forall2 (IndexerOrder.same_file json_loads (fs w) d)
      (fold_left (Indexer.load_one json_loads isoformat (fs w) d) l acc).1.1
      (fold_left (Indexer.load_one json_loads isoformat (fs w) d) l acc).1.2)
    as Hfold.
  { induction l as [|f l IH]; intros acc Hl Hacc; [done|].
    apply Forall_cons in Hl as [Hf Hl]. cbn [fold_left].
    by apply IH, load_one_same_file. }
  specialize (Hfold (sorted (json_files names)) ([], [], clock w)).
  destruct (fold_left _ _ _) as [[texts' metas'] t]. cbn [fst snd] in *.
  intros [= <- <-]. apply Hfold; [|constructor].
  rewrite <- json_files_sorted. apply Forall_forall.
  by intros f [Hf _]%list_elem_of_filter.
Qed.

Lemma rebuild_ok_dim w index metas w1 :
  rebuild w = (Ok (Some index, metas), w1) →
  d index = length (default [] (head (xb index))).
Proof.
  unfold Indexer.rebuild, mbind, M_bind.
  destruct (load_chunks INPUT_DIR w) as [[[texts records]|e] w_a]; [|done].
  destruct texts as [|t0 texts]; [by cbn; intros; simplify_eq|].
  cbn [length Nat.eqb]. destruct (batch_loop _ _ _ _) as [all w_b].
  unfold lift, get_fs, put_fs, save_index_info, now, mbind, M_bind, mret, M_ret.
  destruct (np_stack F all) as [arr|]; [|done]. cbn [fs embed_log clock].
  destruct (write_file (fs w_b) _ _) as [files1|]; [|done].
  destruct (write_file files1 _ _) as [files2|]; [|done].
  destruct (Indexer.calculate_directory_hash _ files2 _) as [h|]; [|done].
  unfold lift, get_fs, put_fs. cbn [fs embed_log clock].
  destruct (write_file files2 _ _) as [files3|]; [|done].
  by intros; simplify_eq.
Qed.

(** A build writes nothing but its three artifacts: every other path,
    the chunk directory among them, is after the build what it was
    before, whether the build succeeds or raises. *)
Theorem build_writes_only_its_artifacts (force : bool) (w : world) (p : string) :
  p ≠ FAISS_FILE → p ≠ META_FILE → p ≠ INDEX_INFO_FILE →
  fs (build_faiss_index force w).2 !! p = fs w !! p.
Proof.
  intros H1 H2 H3. destruct (build_cases force w) as [-> | [-> _]]; [|done].
  destruct (rebuild_outcome w)
    as [[-> _] | [(a & e & -> & _) | [(a & b & e & -> & _)
       | (a & b & c & index & metas & -> & _)]]];
    by rewrite ?lookup_insert_ne by done.
Qed.

(** The fingerprint record is written last: a build that does not return
    an index, because it raised or found no chunk, leaves
    [index_info.json] as it was. *)
Theorem failed_build_keeps_fingerprint (force : bool) (w : world) :
  (∀ index metas, (build_faiss_index force w).1 ≠ Ok (Some index, metas)) →
  fs (build_faiss_index force w).2 !! INDEX_INFO_FILE
  = fs w !! INDEX_INFO_FILE.
Proof.
  intros Hnone. destruct (build_cases force w) as [E | [-> _]]; [|done].
  rewrite E in *.
  destruct (rebuild_outcome w)
    as [[-> _] | [(a & e & -> & _) | [(a & b & e & -> & _)
       | (a & b & c & index & metas & _ & Hok)]]];
    rewrite ?lookup_insert_ne by done; try done.
  by destruct (Hnone index metas).
Qed.

(** With no chunk to index (the directory is missing, or none of its
    [.json] files loads) a build that re-indexes returns no index and an
    empty metadata list, makes no embedding call and writes no file: what
    was persisted before stays. *)
Theorem build_without_chunks (force : bool) (w : world) :
  force = true ∨ should_reindex (fs w) INPUT_DIR = Ok true →
  (load_chunks INPUT_DIR w).1 = Ok ([], []) →
  (build_faiss_index force w).1 = Ok (None, JList []) ∧
  fs (build_faiss_index force w).2 = fs w ∧
  embed_log (build_faiss_index force w).2 = embed_log w.
Proof.
  intros Hnew Hload. rewrite build_with_rebuild by done.
  unfold Indexer.rebuild, mbind, M_bind.
  destruct (load_chunks_fs INPUT_DIR w) as [Hfs Hlog].
  destruct (load_chunks INPUT_DIR w) as [r w_a]. cbn [fst snd] in *.
  by subst r.
Qed.

(** After a build that constructed and returned an index, the three
    artifacts hold what was returned: the index file the index, the
    metadata file the records, and the info file the hash of the chunk
    directory as it is now together with the number of vectors; every
    vector has the dimension of the index. *)
Theorem build_persists_what_it_returns
    (force : bool) (w : world) (index : IndexFlatL2 F) (metas : json) :
  force = true ∨ should_reindex (fs w) INPUT_DIR = Ok true →
  (build_faiss_index force w).1 = Ok (Some index, metas) →
  let after := fs (build_faiss_index force w).2 in
  after !! FAISS_FILE = Some (File (faiss_dumps index)) ∧
  after !! META_FILE = Some (File (json_dumps metas)) ∧
  (∃ h t, calculate_directory_hash after INPUT_DIR = Ok (Some h) ∧
          after !! INDEX_INFO_FILE
          = Some (File (json_dumps
                          (index_info isoformat (Some h) (ntotal index) t)))) ∧
  xb index ≠ [] ∧
  Forall (λ v, length v = d index) (xb index).
Proof.
  intros Hnew. rewrite build_with_rebuild by done.
  destruct (rebuild w) as [r w1] eqn:Hre. cbn [fst snd]. intros ->.
  pose proof (rebuild_ok_dim _ _ _ _ Hre) as Hdim.
  apply rebuild_ok_inv in Hre
    as (texts & records & w_a & all & w_b & files1 & files2 & h & files3 &
        Hload & Hne & Hbatch & Hstack & -> & Hw1 & Hw2 & Hh & Hw3 & ->).
  apply write_file_ok in Hw1, Hw2, Hw3. cbv zeta. cbn [fs].
  destruct (batch_loop_spec F zero embed_content (length texts) texts [] w_a)
    as (Hall & _); [done|]. rewrite Hbatch in Hall. cbn [fst length] in Hall.
  assert (files3 !! INPUT_DIR = files2 !! INPUT_DIR) as Hdir
    by (subst files3; by rewrite lookup_insert_ne).
  split_and!.
  - subst. rewrite !lookup_insert_ne by done. apply lookup_insert_eq.
  - subst. rewrite lookup_insert_ne by done. apply lookup_insert_eq.
  - assert (∃ s, h = Some s) as [s ->].
    { unfold Indexer.calculate_directory_hash in Hh.
      destruct (negb (exists_ files2 INPUT_DIR)) eqn:Hex.
      - exfalso. unfold Indexer.load_chunks in Hload.
        destruct (load_chunks_ok _ _ _ _ _ _ _ Hload) as (_ & Hfsa & _).
        destruct (batch_loop_spec F zero embed_content (length texts) texts []
                    w_a) as (_ & Hfsb & _); [done|].
        rewrite Hbatch in Hfsb. cbn [snd] in Hfsb.
        assert (exists_ (fs w) INPUT_DIR = false) as Hex'.
        { apply negb_true_iff in Hex. unfold exists_ in *.
          subst files2 files1. rewrite Hfsb, Hfsa in Hex.
          by rewrite !lookup_insert_ne in Hex by done. }
        rewrite Hex' in Hload. cbn in Hload. simplify_eq.
      - cbn in Hh. destruct (listdir files2 INPUT_DIR) as [names|]; [|done].
        cbn in Hh. destruct (mapM _ _) as [contents|]; [|done].
        cbn in Hh. simplify_eq. eauto. }
    exists s, (clock w_b). split.
    + by rewrite (calculate_directory_hash_ext _ files3 files2).
    + subst files3. rewrite lookup_insert_eq. unfold ntotal.
      apply np_stack_ok in Hstack. by rewrite Hstack, Hall.
  - apply np_stack_ok in Hstack. rewrite Hstack. intros ->.
    destruct texts; [done|]. cbn in Hall. lia.
  - unfold np_stack in Hstack. destruct all as [|a0 all']; [done|].
    destruct (forallb _ _) eqn:Hforall; [|done].
    injection Hstack as Hxb. rewrite Hdim, <- Hxb. cbn [head default].
    apply Forall_forall. intros v Hv%list_elem_of_In.
    rewrite forallb_forall in Hforall. by apply Nat.eqb_eq, Hforall.
Qed.

(** The index and the metadata are parallel: record [i] and text [i] come
    from the same chunk file (the record carries its name, url and
    checksum, and no [text] field), and vector [i] is the provider's
    answer to the call made for text [i], or zeros when that call
    failed. *)
Theorem index_and_metadata_are_parallel
    (force : bool) (w : world) (index : IndexFlatL2 F) (metas : json) :
  force = true ∨ should_reindex (fs w) INPUT_DIR = Ok true →
  (build_faiss_index force w).1 = Ok (Some index, metas) →
  ∃ texts records,
    metas = JList records ∧
    Forall2 (IndexerOrder.same_file json_loads (fs w) INPUT_DIR) texts records ∧
    ∀ i text, texts !! i = Some text →
      ∃ x, xb index !! i = Some x ∧
           IndexerOrder.vector_for F zero embed_content
             (length (embed_log w) + i) text x.
Proof.
  intros Hnew. rewrite build_with_rebuild by done.
  destruct (rebuild w) as [r w1] eqn:Hre. cbn [fst snd]. intros ->.
  apply rebuild_ok_inv in Hre
    as (texts & records & w_a & all & w_b & files1 & files2 & h & files3 &
        Hload & Hne & Hbatch & Hstack & -> & _).
  exists texts, records. split; [done|]. split.
  - apply load_chunks_same_file. by rewrite Hload.
  - apply np_stack_ok in Hstack. rewrite Hstack.
    destruct (load_chunks_ok _ _ _ _ _ _ _ Hload) as (_ & _ & Hlog).
    destruct (batch_loop_vectors (length texts) texts [] w_a)
      as (xs & Hxs & Hv); [done|].
    rewrite Hbatch in Hxs. cbn [fst app] in Hxs. subst all.
    intros i text Hi. rewrite <- Hlog, Hxs. by apply Hv.
Qed.

End Outcome.

Lemma build_writes_only_its_artifacts_witness :
  INPUT_DIR ≠ FAISS_FILE ∧ INPUT_DIR ≠ META_FILE ∧ INPUT_DIR ≠ INDEX_INFO_FILE ∧
  (IndexerDemo.build_faiss_index true IndexerDemo.start).1
    = Ok (Some IndexerDemo.index, JList IndexerDemo.records) ∧
  fs (IndexerDemo.build_faiss_index true IndexerDemo.start).2 !! INPUT_DIR
    = fs IndexerDemo.start !! INPUT_DIR.
Proof.
  split; [done|]. split; [done|]. split; [done|].
  split; [vm_compute; reflexivity|].
  exact (build_writes_only_its_artifacts Z 0%Z IndexerDemo.embed_content
           IndexerDemo.md5_hexdigest IndexerDemo.json_loads
           IndexerDemo.json_dumps IndexerDemo.faiss_loads
           IndexerDemo.faiss_dumps IndexerDemo.isoformat true IndexerDemo.start
           INPUT_DIR ltac:(done) ltac:(done) ltac:(done)).
Defined.

Lemma failed_build_keeps_fingerprint_witness :
  let run := build_faiss_index Z 0%Z IndexerDemo.embed_content_17
               IndexerDemo.md5_hexdigest IndexerDemo.json_loads
               IndexerDemo.json_dumps IndexerDemo.faiss_loads
               IndexerDemo.faiss_dumps IndexerDemo.isoformat true
               IndexerDemo.start_17 in
  (∀ index metas, run.1 ≠ Ok (Some index, metas)) ∧
  fs run.2 !! INDEX_INFO_FILE = fs IndexerDemo.start_17 !! INDEX_INFO_FILE.
Proof.
  intros run.
  assert (run.1 = Raise (Exception "ValueError"
                           "all input arrays must have the same shape")) as E
    by (vm_compute; reflexivity).
  assert (∀ index metas, run.1 ≠ Ok (Some index, metas)) as H
    by (intros index metas; by rewrite E).
  split; [exact H|].
  exact (failed_build_keeps_fingerprint Z 0%Z IndexerDemo.embed_content_17
           IndexerDemo.md5_hexdigest IndexerDemo.json_loads
           IndexerDemo.json_dumps IndexerDemo.faiss_loads
           IndexerDemo.faiss_dumps IndexerDemo.isoformat true
           IndexerDemo.start_17 H).
Defined.

Lemma build_without_chunks_witness :
  let w := {| fs := {[ META_FILE := File "metas" ]}; embed_log := [];
              clock := 0 |} in
  (true = true
   ∨ should_reindex IndexerDemo.md5_hexdigest IndexerDemo.json_loads (fs w)
       INPUT_DIR = Ok true) ∧
  (load_chunks IndexerDemo.json_loads IndexerDemo.isoformat INPUT_DIR w).1
    = Ok ([], []) ∧
  (IndexerDemo.build_faiss_index true w).1 = Ok (None, JList []) ∧
  fs (IndexerDemo.build_faiss_index true w).2 = fs w ∧
  embed_log (IndexerDemo.build_faiss_index true w).2 = embed_log w.
Proof.
  intros w.
  assert ((load_chunks IndexerDemo.json_loads IndexerDemo.isoformat INPUT_DIR
             w).1 = Ok ([], [])) as H by (vm_compute; reflexivity).
  split; [by left|]. split; [exact H|].
  exact (build_without_chunks Z 0%Z IndexerDemo.embed_content
           IndexerDemo.md5_hexdigest IndexerDemo.json_loads
           IndexerDemo.json_dumps IndexerDemo.faiss_loads
           IndexerDemo.faiss_dumps IndexerDemo.isoformat true w
           (or_introl eq_refl) H).
Defined.

Lemma build_persists_what_it_returns_witness :
  let run := IndexerDemo.build_faiss_index true IndexerDemo.start in
  (true = true
   ∨ should_reindex IndexerDemo.md5_hexdigest IndexerDemo.json_loads
       (fs IndexerDemo.start) INPUT_DIR = Ok true) ∧
  run.1 = Ok (Some IndexerDemo.index, JList IndexerDemo.records) ∧
  fs run.2 !! INDEX_INFO_FILE = Some (File "info:md5:AB{L") ∧
  (fs run.2 !! FAISS_FILE
     = Some (File (IndexerDemo.faiss_dumps IndexerDemo.index)) ∧
   fs run.2 !! META_FILE
     = Some (File (IndexerDemo.json_dumps (JList IndexerDemo.records))) ∧
   (∃ h t, calculate_directory_hash IndexerDemo.md5_hexdigest (fs run.2)
             INPUT_DIR = Ok (Some h) ∧
           fs run.2 !! INDEX_INFO_FILE
           = Some (File (IndexerDemo.json_dumps
                           (index_info IndexerDemo.isoformat (Some h)
                              (ntotal IndexerDemo.index) t)))) ∧
   xb IndexerDemo.index ≠ [] ∧
   Forall (λ v, length v = d IndexerDemo.index) (xb IndexerDemo.index)).
Proof.
  intros run.
  assert (run.1 = Ok (Some IndexerDemo.index, JList IndexerDemo.records))
    as H by (vm_compute; reflexivity).
  split; [by left|]. split; [exact H|]. split; [vm_compute; reflexivity|].
  exact (build_persists_what_it_returns Z 0%Z IndexerDemo.embed_content
           IndexerDemo.md5_hexdigest IndexerDemo.json_loads
           IndexerDemo.json_dumps IndexerDemo.faiss_loads
           IndexerDemo.faiss_dumps IndexerDemo.isoformat true IndexerDemo.start
           IndexerDemo.index (JList IndexerDemo.records)
           (or_introl eq_refl) H).
Defined.

Lemma index_and_metadata_are_parallel_witness :
  let run := IndexerDemo.build_faiss_index true IndexerDemo.start in
  (true = true
   ∨ should_reindex IndexerDemo.md5_hexdigest IndexerDemo.json_loads
       (fs IndexerDemo.start) INPUT_DIR = Ok true) ∧
  run.1 = Ok (Some IndexerDemo.index, JList IndexerDemo.records) ∧
  ∃ texts records,
    JList IndexerDemo.records = JList records ∧
    Forall2 (IndexerOrder.same_file IndexerDemo.json_loads
               (fs IndexerDemo.start) INPUT_DIR) texts records ∧
    ∀ i text, texts !! i = Some text →
      ∃ x, xb IndexerDemo.index !! i = Some x ∧
           IndexerOrder.vector_for Z 0%Z IndexerDemo.embed_content
             (length (embed_log IndexerDemo.start) + i) text x.
Proof.
  intros run.
  assert (run.1 = Ok (Some IndexerDemo.index, JList IndexerDemo.records))
    as H by (vm_compute; reflexivity).
  split; [by left|]. split; [exact H|].
  exact (index_and_metadata_are_parallel Z 0%Z IndexerDemo.embed_content
           IndexerDemo.md5_hexdigest IndexerDemo.json_loads
           IndexerDemo.json_dumps IndexerDemo.faiss_loads
           IndexerDemo.faiss_dumps IndexerDemo.isoformat true IndexerDemo.start
           IndexerDemo.index (JList IndexerDemo.records)
           (or_introl eq_refl) H).
Defined.

End IndexerMoreFacts.

(** ** The test search of the indexer *)

Module IndexerSearchFacts.
Import PyStr Py Indexer IndexerFacts IndexerSearch.

Section Facts.

Variable F : Type.
Variable zero : F.
Variable embed_content : nat → json → option (list F).
Variable json_loads : string → option json.
Variable faiss_loads : string → option (IndexFlatL2 F).
Variable index_search : IndexFlatL2 F → list F → Z → result (list (F * Z)).

Local Abbreviation collect_ranked := (collect_ranked F).
Local Abbreviation search_index :=
  (search_index F zero embed_content json_loads faiss_loads index_search).

Lemma collect_ranked_spec metas hits i acc results :
  collect_ranked metas i hits acc = Ok results →
  ∃ new, results = acc ++ new ∧
    length new = length (filter (λ h : F * Z, h.2 ≠ (-1)%Z) hits) ∧
    StronglySorted lt (rank <$> new) ∧
    Forall (λ r, (i < rank r ≤ i + length hits)%nat ∧
                 ∃ idx, idx ≠ (-1)%Z ∧
                   hits !! (rank r - 1 - i)%nat = Some (found_distance r, idx) ∧
                   Service.py_getitem metas idx = Ok (metadata r)) new.
Proof.
  revert i acc. induction hits as [|[dist idx] hits IH]; intros i acc Hres.
  { cbn in Hres. simplify_eq. exists []. rewrite app_nil_r.
    split_and!; try done; constructor. }
  cbn [IndexerSearch.collect_ranked] in Hres.
  destruct (idx =? -1)%Z eqn:Hidx.
  - apply Z.eqb_eq in Hidx as ->.
    destruct (IH _ _ Hres) as (new & -> & Hlen & Hsort & Hall).
    exists new. rewrite filter_cons_False by (cbn; lia).
    split_and!; try done. eapply Forall_impl; [exact Hall|].
    intros r ([Hlo Hhi] & idx & Hne & Hhit & Hmeta). cbn [length].
    split; [lia|]. exists idx. split_and!; try done.
    replace (rank r - 1 - i)%nat with (S (rank r - 1 - S i)) by lia. done.
  - apply Z.eqb_neq in Hidx.
    destruct (Service.py_getitem metas idx) as [meta|] eqn:Hmeta; [|done].
    cbn in Hres.
    destruct (IH _ _ Hres) as (new & -> & Hlen & Hsort & Hall).
    exists ({| rank := i + 1; found_distance := dist; metadata := meta |} :: new).
    rewrite filter_cons_True by done. cbn [length fmap list_fmap].
    split_and!; [by rewrite <- app_assoc | by rewrite Hlen | |].
    + constructor; [done|]. apply Forall_fmap.
      eapply Forall_impl; [exact Hall|]. intros r ([Hlo _] & _). cbn [rank].
      cbv [compose]. lia.
    + constructor.
      * cbn [rank found_distance metadata]. split; [lia|]. exists idx.
        split_and!; try done. by replace (i + 1 - 1 - i)%nat with 0%nat by lia.
      * eapply Forall_impl; [exact Hall|].
        intros r ([Hlo Hhi] & idx' & Hne & Hhit & Hmeta').
        split; [lia|]. exists idx'. split_and!; try done.
        replace (rank r - 1 - i)%nat with (S (rank r - 1 - S i)) by lia. done.
Qed.

(** Without the index file the search returns the empty list: it does
    not raise, reads no metadata and makes no embedding call. *)
Theorem search_without_index (query : string) (top_k : Z) (w : world) :
  exists_ (fs w) FAISS_FILE = false →
  search_index query top_k w = (Ok [], w).
Proof.
  intros H. unfold IndexerSearch.search_index, mbind, M_bind, get_fs.
  by rewrite H.
Qed.

(** A search that returns went through one embedding call, whose failure
    is not an error: the index is then searched with 768 zeros. The
    results are the hits whose index is not -1, in hit order; the rank of
    each is the position of its hit, counted from 1 and with the
    sentinels counted, so the ranks go up strictly, and its metadata is
    the record at the hit's index. *)
Theorem search_ranks_are_hit_positions
    (query : string) (top_k : Z) (w : world)
    (results : list (search_result F)) :
  exists_ (fs w) FAISS_FILE = true →
  (search_index query top_k w).1 = Ok results →
  ∃ index_bytes index meta_bytes metas hits,
    fs w !! FAISS_FILE = Some (File index_bytes) ∧
    faiss_loads index_bytes = Some index ∧
    fs w !! META_FILE = Some (File meta_bytes) ∧
    json_loads meta_bytes = Some metas ∧
    index_search index
      (default (replicate 768 zero)
         (embed_content (length (embed_log w)) (JStr query))) top_k = Ok hits ∧
    embed_log (search_index query top_k w).2 = embed_log w ++ [JStr query] ∧
    fs (search_index query top_k w).2 = fs w ∧
    length results = length (filter (λ h : F * Z, h.2 ≠ (-1)%Z) hits) ∧
    StronglySorted lt (rank <$> results) ∧
    Forall (λ r, (1 ≤ rank r ≤ length hits)%nat ∧
                 ∃ idx, idx ≠ (-1)%Z ∧
                   hits !! (rank r - 1)%nat = Some (found_distance r, idx) ∧
                   Service.py_getitem metas idx = Ok (metadata r)) results.
Proof.
  intros Hex. unfold IndexerSearch.search_index, mbind, M_bind, get_fs, lift,
    read_file, get_gemini_embeddings.
  rewrite Hex. cbn [negb].
  destruct (fs w !! FAISS_FILE) as [[index_bytes|]|]; [|done..]. cbn.
  destruct (faiss_loads index_bytes) as [index|] eqn:Hix; [|done]. cbn.
  destruct (fs w !! META_FILE) as [[meta_bytes|]|]; [|done..]. cbn.
  destruct (json_loads meta_bytes) as [metas|] eqn:Hmd; [|done]. cbn.
  unfold embed_one.
  destruct (embed_content (length (embed_log w)) (JStr query)) as [v|];
    cbn; (destruct (index_search index _ top_k) as [hits|] eqn:Hhits;
          [|done]); cbn;
    intros Hres; apply collect_ranked_spec in Hres
      as (new & -> & Hlen & Hsort & Hall); cbn [app];
    exists index_bytes, index, meta_bytes, metas, hits;
    (split_and!; try done);
    (eapply Forall_impl; [exact Hall|]);
    intros r ([Hlo Hhi] & idx & Hne & Hhit & Hmeta);
    (split; [lia|]); exists idx; (split_and!; try done);
    by rewrite Nat.sub_0_r in Hhit.
Qed.

Lemma py_getitem_raises (records : list json) (idx : Z) (e : exn) :
  Service.py_getitem (JList records) idx = Raise e →
  ∃ msg, e = Exception "IndexError" msg.
Proof.
  unfold Service.py_getitem. cbv zeta.
  generalize (if (idx <? 0)%Z then (Z.of_nat (length records) + idx)%Z
              else idx).
  intros j. destruct (j <? 0)%Z; [intros [= <-]; eauto|].
  unfold of_option. destruct (records !! _); [done|]. intros [= <-]. eauto.
Qed.

Lemma py_getitem_beyond (records : list json) (idx : Z) :
  (Z.of_nat (length records) ≤ idx)%Z →
  ∃ msg, Service.py_getitem (JList records) idx
         = Raise (Exception "IndexError" msg).
Proof.
  intros Hidx. unfold Service.py_getitem. cbv zeta.
  rewrite (proj2 (Z.ltb_ge idx 0)) by lia.
  rewrite (proj2 (Z.ltb_ge idx 0)) by lia.
  unfold of_option. rewrite lookup_ge_None_2 by lia. eauto.
Qed.

Lemma collect_ranked_beyond (records : list json) (hits : list (F * Z))
    (i : nat) (acc : list (search_result F)) (dist : F) (idx : Z) :
  (dist, idx) ∈ hits → (Z.of_nat (length records) ≤ idx)%Z →
  ∃ msg, collect_ranked (JList records) i hits acc
         = Raise (Exception "IndexError" msg).
Proof.
  intros Hin Hidx. revert i acc.
  induction hits as [|[dist0 idx0] hits IH]; intros i acc.
  { by apply elem_of_nil in Hin. }
  cbn [IndexerSearch.collect_ranked].
  apply elem_of_cons in Hin as [[= <- <-] | Hin].
  - rewrite (proj2 (Z.eqb_neq idx (-1))) by lia.
    destruct (py_getitem_beyond records idx Hidx) as [msg ->]. cbn. eauto.
  - destruct (idx0 =? -1)%Z; [by apply IH|].
    destruct (Service.py_getitem (JList records) idx0) as [meta|e] eqn:Hmeta.
    + cbn. by apply IH.
    + apply py_getitem_raises in Hmeta as [msg ->]. cbn. eauto.
Qed.

(** [search_index] does not guard against a hit beyond the metadata: when
    the search returns an index at or past the number of records (the
    index file holds more vectors than [meta.json] has records), the call
    raises [IndexError], where the service skips such a hit. *)
Theorem search_raises_beyond_the_metadata
    (query : string) (top_k : Z) (w : world)
    (index_bytes meta_bytes : string) (index : IndexFlatL2 F)
    (records : list json) (hits : list (F * Z)) (dist : F) (idx : Z) :
  fs w !! FAISS_FILE = Some (File index_bytes) →
  faiss_loads index_bytes = Some index →
  fs w !! META_FILE = Some (File meta_bytes) →
  json_loads meta_bytes = Some (JList records) →
  index_search index
    (default (replicate 768 zero)
       (embed_content (length (embed_log w)) (JStr query))) top_k = Ok hits →
  (dist, idx) ∈ hits →
  (Z.of_nat (length records) ≤ idx)%Z →
  (∃ msg, (search_index query top_k w).1 = Raise (Exception "IndexError" msg)) ∧
  ServiceStream.kept (JList records) (dist, idx) = false.
Proof.
  intros Hf Hix Hm Hmd Hs Hin Hidx. split.
  - unfold IndexerSearch.search_index, mbind, M_bind, get_fs, lift,
      read_file, get_gemini_embeddings, exists_.
    rewrite Hf. rewrite bool_decide_eq_true_2 by eauto. cbn [negb].
    rewrite Hix. cbn. rewrite Hm, Hmd. cbn. unfold embed_one.
    destruct (collect_ranked_beyond records hits 0 [] dist idx Hin Hidx)
      as [msg Hraise].
    destruct (embed_content (length (embed_log w)) (JStr query)) as [v|];
      cbn in Hs |- *; rewrite Hs; cbn; rewrite Hraise; eauto.
  - unfold ServiceStream.kept. cbn [snd Service.py_len].
    apply andb_false_iff. right. apply Z.ltb_ge. done.
Qed.

End Facts.

Lemma search_raises_beyond_the_metadata_witness :
  let w := (IndexerDemo.build_faiss_index true IndexerDemo.start).2 in
  fs w !! FAISS_FILE = Some (File "faiss") ∧
  IndexerDemo.faiss_loads "faiss" = Some IndexerDemo.index ∧
  fs w !! META_FILE = Some (File "metas") ∧
  IndexerDemo.json_loads "metas" = Some (JList IndexerDemo.records) ∧
  demo_search_far IndexerDemo.index
    (default (replicate 768 0%Z)
       (IndexerDemo.embed_content (length (embed_log w))
          (JStr "machine learning"))) 3 = Ok [(0, 0); (7, 5)]%Z ∧
  (7, 5)%Z ∈ [(0, 0); (7, 5)]%Z ∧
  (Z.of_nat (length IndexerDemo.records) ≤ 5)%Z ∧
  (∃ msg, (search_index Z 0%Z IndexerDemo.embed_content
             IndexerDemo.json_loads IndexerDemo.faiss_loads demo_search_far
             "machine learning" 3 w).1
          = Raise (Exception "IndexError" msg)) ∧
  ServiceStream.kept (JList IndexerDemo.records) (7, 5)%Z = false.
Proof.
  intros w.
  assert (fs w !! FAISS_FILE = Some (File "faiss")) as H1
    by (vm_compute; reflexivity).
  assert (fs w !! META_FILE = Some (File "metas")) as H3
    by (vm_compute; reflexivity).
  assert ((7, 5)%Z ∈ [(0, 0); (7, 5)]%Z) as H6 by (right; left).
  assert (Z.of_nat (length IndexerDemo.records) ≤ 5)%Z as H7
    by (vm_compute; discriminate).
  split; [exact H1|]. split; [reflexivity|]. split; [exact H3|].
  split; [reflexivity|]. split; [reflexivity|]. split; [exact H6|].
  split; [exact H7|].
  exact (search_raises_beyond_the_metadata Z 0%Z IndexerDemo.embed_content
           IndexerDemo.json_loads IndexerDemo.faiss_loads demo_search_far
           "machine learning" 3 w "faiss" "metas" IndexerDemo.index
           IndexerDemo.records [(0, 0); (7, 5)]%Z 7%Z 5%Z
           H1 eq_refl H3 eq_refl eq_refl H6 H7).
Defined.

Lemma search_ranks_are_hit_positions_witness :
  let w := (IndexerDemo.build_faiss_index true IndexerDemo.start).2 in
  let results :=
    [ {| rank := 1; found_distance := 0%Z;
         metadata := default JNull (IndexerDemo.records !! 1%nat) |};
      {| rank := 3; found_distance := 9%Z;
         metadata := default JNull (IndexerDemo.records !! 0%nat) |} ] in
  exists_ (fs w) FAISS_FILE = true ∧
  (demo_search_index "machine learning" 3 w).1 = Ok results ∧
  ∃ index_bytes index meta_bytes metas hits,
    fs w !! FAISS_FILE = Some (File index_bytes) ∧
    IndexerDemo.faiss_loads index_bytes = Some index ∧
    fs w !! META_FILE = Some (File meta_bytes) ∧
    IndexerDemo.json_loads meta_bytes = Some metas ∧
    demo_search index
      (default (replicate 768 0%Z)
         (IndexerDemo.embed_content (length (embed_log w))
            (JStr "machine learning"))) 3 = Ok hits ∧
    embed_log (demo_search_index "machine learning" 3 w).2
    = embed_log w ++ [JStr "machine learning"] ∧
    fs (demo_search_index "machine learning" 3 w).2 = fs w ∧
    length results = length (filter (λ h : Z * Z, h.2 ≠ (-1)%Z) hits) ∧
    StronglySorted lt (rank <$> results) ∧
    Forall (λ r, (1 ≤ rank r ≤ length hits)%nat ∧
                 ∃ idx, idx ≠ (-1)%Z ∧
                   hits !! (rank r - 1)%nat = Some (found_distance r, idx) ∧
                   Service.py_getitem metas idx = Ok (metadata r)) results.
Proof.
  intros w results.
  assert (exists_ (fs w) FAISS_FILE = true) as Hex by (vm_compute; reflexivity).
  assert ((demo_search_index "machine learning" 3 w).1 = Ok results) as Hres
    by (vm_compute; reflexivity).
  split; [exact Hex|]. split; [exact Hres|].
  exact (search_ranks_are_hit_positions Z 0%Z IndexerDemo.embed_content
           IndexerDemo.json_loads IndexerDemo.faiss_loads demo_search
           "machine learning" 3 w results Hex Hres).
Defined.

Lemma search_without_index_witness :
  exists_ (fs IndexerDemo.start) FAISS_FILE = false ∧
  demo_search_index "machine learning" 3 IndexerDemo.start
  = (Ok [], IndexerDemo.start).
Proof.
  split; [vm_compute; reflexivity|].
  exact (search_without_index Z 0%Z IndexerDemo.embed_content
           IndexerDemo.json_loads IndexerDemo.faiss_loads demo_search
           "machine learning" 3 IndexerDemo.start eq_refl).
Defined.

End IndexerSearchFacts.

(** ** The service: requests, retrievals and streams *)

Module ServiceStreamFacts.
Import PyStr PyStrFacts Py Service ServiceFacts ServiceStream.

Lemma lstrip_blank (s : string) : lstrip s = "" ↔ blank s.
Proof.
  unfold blank. induction s as [|c s IH]; cbn [lstrip list_ascii_of_string].
  { split; [constructor|done]. }
  destruct (isspace c) eqn:Hc.
  - rewrite IH. split; [by constructor|]. by intros [_ ?]%Forall_cons.
  - split; [done|]. intros [Hc' _]%Forall_cons. congruence.
Qed.

Lemma strip_blank (s : string) : strip s = "" ↔ blank s.
Proof.
  rewrite <- lstrip_blank. unfold strip. split; [|by intros ->].
  destruct (lstrip_head s) as [E | (c & r & E & Hc)]; [done|].
  rewrite E. destruct (rstrip_head c r Hc) as [r' ->]. done.
Qed.

Lemma substring_length (n : nat) (s : string) :
  String.length (substring 0 n s) ≤ n.
Proof.
  revert s. induction n as [|n IH]; intros [|c s]; cbn; try lia.
  specialize (IH s). lia.
Qed.

Lemma length_app_str (a b : string) :
  String.length (a +:+ b) = String.length a + String.length b.
Proof.
  induction a as [|c a IH]; [done|]. rewrite app_String. cbn. by rewrite IH.
Qed.

Lemma py_prefix_len (n : nat) (v t : json) :
  py_prefix n v = Ok t → ∃ k, py_len t = Ok k ∧ (k ≤ Z.of_nat n)%Z.
Proof.
  destruct v; intros; simplify_eq/=; eexists; (split; [done|]).
  - pose proof (substring_length n s). lia.
  - rewrite length_take. lia.
Qed.

Lemma answer_app {F} (a b : list (event F)) :
  answer (a ++ b) = answer a +:+ answer b.
Proof.
  induction a as [|[] a IH]; cbn [app answer]; try done.
  rewrite IH. generalize (answer a) (answer b). clear.
  induction content as [|c s IH]; intros a b; [done|].
  rewrite !app_String. by rewrite IH.
Qed.

Lemma answer_tokens {F} (chunks : list chunk) :
  answer (concat (map (token_events (F:=F)) chunks))
  = String.concat "" (map first_delta chunks) .
Proof.
  assert (∀ l, String.concat "" l = foldr String.append "" l) as Hcat.
  { induction l as [|a [|b l] IH]; [done| |].
    - cbn. clear. induction a as [|c a IH]; [done|]. by rewrite app_String, <- IH.
    - cbn [String.concat foldr] in *. by rewrite IH. }
  rewrite Hcat.
  induction chunks as [|c chunks IH]; [done|].
  cbn [map concat foldr]. rewrite answer_app, IH. f_equal.
  unfold token_events, first_delta.
  destruct (choices c) as [|[content|] ?]; [done| |done].
  case_bool_decide as He; [by subst|]. cbn.
  clear. induction content as [|c s IH]; [done|]. by rewrite app_String, IH.
Qed.

Section Facts.

Variable F : Type.
Variable PARENT_DIR : string.
Variable exn_str : exn → string.
Variable json_repr : json → string.
Variable json_loads : string → option json.
Variable faiss_loads : string → option (IndexFlatL2 F).
Variable embed_content : string → result (list F).
Variable index_search : IndexFlatL2 F → list F → option Z → result (list (F * Z)).
Variable groq_stream : string → list chunk * option exn.

Local Abbreviation retrieve_body :=
  (retrieve_body F PARENT_DIR exn_str json_loads faiss_loads embed_content
                 index_search).
Local Abbreviation retrieve_top_k :=
  (retrieve_top_k F PARENT_DIR exn_str json_loads faiss_loads embed_content
                  index_search).
Local Abbreviation event_generator :=
  (event_generator F PARENT_DIR exn_str json_repr json_loads faiss_loads
                   embed_content index_search groq_stream).
Local Abbreviation chat :=
  (chat F PARENT_DIR exn_str json_repr json_loads faiss_loads embed_content
        index_search groq_stream).
Local Abbreviation FAISS_FILE := (FAISS_FILE PARENT_DIR).
Local Abbreviation META_FILE := (META_FILE PARENT_DIR).

Lemma collect_hit_spec metas results (hit : F * Z) results' :
  collect_hit F metas results hit = Ok results' →
  if kept metas hit
  then ∃ d, results' = results ++ [d] ∧ doc_of_hit metas hit d
  else results' = results.
Proof.
  destruct hit as [dist idx]. unfold collect_hit, kept. cbn [snd].
  destruct (idx =? -1)%Z; cbn.
  { by intros [= ->]. }
  destruct (py_len metas) as [n|]; [|done]. cbn.
  rewrite Z.leb_antisym. destruct (idx <? n)%Z; cbn; [|by intros [= ->]].
  destruct (py_getitem metas idx) as [meta|] eqn:Hmeta; [|done]. cbn.
  destruct (dict_get meta "text" _) as [full|] eqn:Hfull; [|done]. cbn.
  destruct (py_prefix 1500 full) as [t|] eqn:Ht; [|done]. cbn.
  destruct (dict_get meta "url" _) as [u|] eqn:Hu; [|done]. cbn.
  destruct (dict_get meta "title" _) as [ti|] eqn:Hti; [|done]. cbn.
  destruct (dict_get meta "position" _) as [po|] eqn:Hpo; [|done]. cbn.
  intros [= <-]. eexists. split; [done|]. split; [done|].
  exists meta, full. by split_and!.
Qed.

Lemma collect_hits_spec metas (hits : list (F * Z)) acc results :
  collect_hits F metas acc hits = Ok results →
  ∃ new, results = acc ++ new ∧
         Forall2 (doc_of_hit metas) (List.filter (kept metas) hits) new.
Proof.
  revert acc. induction hits as [|hit hits IH]; intros acc.
  { intros [= <-]. exists []. by rewrite app_nil_r. }
  cbn [collect_hits List.filter].
  destruct (collect_hit F metas acc hit) as [acc'|] eqn:Hhit; [|done]. cbn.
  intros (new & -> & Hnew)%IH. apply collect_hit_spec in Hhit.
  destruct (kept metas hit).
  - destruct Hhit as (d & -> & Hd). exists (d :: new).
    split; [by rewrite <- app_assoc|]. by constructor.
  - subst. by exists new.
Qed.

Lemma retrieve_body_inv files query top_k docs :
  retrieve_body files query top_k = Ok docs →
  ∃ index_bytes index meta_bytes metas query_emb hits,
    files !! FAISS_FILE = Some (File index_bytes) ∧
    faiss_loads index_bytes = Some index ∧
    files !! META_FILE = Some (File meta_bytes) ∧
    json_loads meta_bytes = Some metas ∧
    embed_content query = Ok query_emb ∧
    index_search index query_emb top_k = Ok hits ∧
    collect_hits F metas [] hits = Ok docs.
Proof.
  unfold Service.retrieve_body, read_file.
  destruct (negb (exists_ files FAISS_FILE)); [done|].
  destruct (negb (exists_ files META_FILE)); [done|].
  destruct (files !! FAISS_FILE) as [[index_bytes|]|]; [|done..].
  destruct (files !! META_FILE) as [[meta_bytes|]|];
    [|by cbn; destruct (faiss_loads index_bytes)..].
  cbn. destruct (faiss_loads index_bytes) as [index|] eqn:Hix; [|done]. cbn.
  destruct (json_loads meta_bytes) as [metas|] eqn:Hmd; [|done]. cbn.
  unfold embed_query.
  destruct (embed_content query) as [query_emb|] eqn:He; [|done]. cbn.
  destruct (index_search index query_emb top_k) as [hits|] eqn:Hs; [|done]. cbn.
  intros Hdocs. by exists index_bytes, index, meta_bytes, metas, query_emb, hits.
Qed.

Lemma retrieve_top_k_inv files query top_k docs :
  retrieve_top_k files query top_k = Ok docs →
  retrieve_body files query top_k = Ok docs.
Proof.
  unfold Service.retrieve_top_k.
  destruct (Service.retrieve_body _ _ _ _ _ _ _ _ _ _); by intros [= ->].
Qed.

Lemma mapM_source_of (docs : list (doc F)) sources :
  mapM source_of docs = Ok sources → Forall2 source_of_doc sources docs.
Proof.
  revert sources. induction docs as [|d docs IH]; intros sources.
  { intros [= <-]. constructor. }
  cbn [mapM]. destruct (source_of d) as [s|] eqn:Hs; cbn; [|done].
  destruct (mapM source_of docs) as [rest|]; cbn; [|done].
  intros [= <-]. constructor; [|by apply IH].
  unfold source_of in Hs. destruct (text d) as [| | |t| |] eqn:Ht; try done.
  injection Hs as <-. unfold source_of_doc. cbn. split_and!; try done.
  by exists t.
Qed.

(** What a stream can be, whatever the files and the providers do. *)
Lemma event_generator_cases files query top_k :
  (∃ message, event_generator files query top_k
              = {| events := [Error message]; groq_calls := [] |}) ∨
  (∃ docs sources chunks failure,
     retrieve_top_k files query top_k = Ok docs ∧ docs ≠ [] ∧
     mapM source_of docs = Ok sources ∧
     groq_stream (build_prompt F json_repr docs query) = (chunks, failure) ∧
     event_generator files query top_k
     = {| events := Sources sources
                    :: concat (map token_events chunks)
                    ++ [match failure with
                        | None => Done
                        | Some e => error_event exn_str e
                        end];
          groq_calls := [build_prompt F json_repr docs query] |}).
Proof.
  unfold Service.event_generator.
  destruct (retrieve_top_k files query top_k) as [[|d docs]|e] eqn:Hdocs.
  - left. eauto.
  - destruct (mapM source_of (d :: docs)) as [sources|e] eqn:Hsrc.
    + destruct (groq_stream _) as [chunks failure] eqn:Hg.
      right. exists (d :: docs), sources, chunks, failure. by split_and!.
    + left. destruct e; cbn; eauto.
  - left. destruct e; cbn; eauto.
Qed.

End Facts.

(** The documents of a retrieval that returns are made of the hits of
    one search with the embedded query, in hit order: one document for
    each hit whose index is neither -1 nor beyond the metadata, with the
    distance of the hit and the fields of the record at its index, and
    with a text of at most 1500 characters. *)
Theorem retrieved_documents_follow_the_hits
    (F : Type) (PARENT_DIR : string) (exn_str : exn → string)
    (json_loads : string → option json)
    (faiss_loads : string → option (IndexFlatL2 F))
    (embed_content : string → result (list F))
    (index_search : IndexFlatL2 F → list F → option Z → result (list (F * Z)))
    (files : gmap string node) (query : string) (top_k : option Z)
    (docs : list (doc F)) :
  retrieve_top_k F PARENT_DIR exn_str json_loads faiss_loads embed_content
    index_search files query top_k = Ok docs →
  ∃ index_bytes index meta_bytes metas query_emb hits,
    files !! FAISS_FILE PARENT_DIR = Some (File index_bytes) ∧
    faiss_loads index_bytes = Some index ∧
    files !! META_FILE PARENT_DIR = Some (File meta_bytes) ∧
    json_loads meta_bytes = Some metas ∧
    embed_content query = Ok query_emb ∧
    index_search index query_emb top_k = Ok hits ∧
    Forall2 (doc_of_hit metas) (List.filter (kept metas) hits) docs ∧
    Forall (λ d, ∃ n, py_len (text d) = Ok n ∧ (n ≤ 1500)%Z) docs.
Proof.
  intros H%retrieve_top_k_inv%retrieve_body_inv.
  destruct H as (index_bytes & index & meta_bytes & metas & query_emb & hits &
                 Hf & Hix & Hm & Hmd & He & Hs & Hdocs).
  apply collect_hits_spec in Hdocs as (new & -> & Hnew). cbn [app].
  exists index_bytes, index, meta_bytes, metas, query_emb, hits.
  split_and!; try done.
  revert Hnew. generalize (List.filter (kept metas) hits).
  induction new as [|d new IH]; intros l Hl; [constructor|].
  apply Forall2_cons_inv_r in Hl as (hit & l' & Hd & Hl' & ->).
  constructor; [|by eapply IH].
  destruct Hd as (_ & meta & full & _ & _ & Hp & _).
  by apply py_prefix_len in Hp.
Qed.

Lemma retrieved_documents_follow_the_hits_witness :
  let docs := [ {| distance := 0%Z; text := JStr "alpha"; url := JStr "";
                   title := JStr "A"; position := JInt 0 |};
                {| distance := 25%Z; text := JStr "beta"; url := JStr "";
                   title := JStr "B"; position := JInt 0 |} ] in
  retrieve_top_k Z ServiceDemo.PARENT_DIR ServiceDemo.exn_str
    ServiceDemo.json_loads ServiceDemo.faiss_loads ServiceDemo.embed_content
    ServiceDemo.index_search ServiceDemo.with_index "hello" (Some 3%Z)
  = Ok docs ∧
  ∃ index_bytes index meta_bytes metas query_emb hits,
    ServiceDemo.with_index !! FAISS_FILE ServiceDemo.PARENT_DIR
    = Some (File index_bytes) ∧
    ServiceDemo.faiss_loads index_bytes = Some index ∧
    ServiceDemo.with_index !! META_FILE ServiceDemo.PARENT_DIR
    = Some (File meta_bytes) ∧
    ServiceDemo.json_loads meta_bytes = Some metas ∧
    ServiceDemo.embed_content "hello" = Ok query_emb ∧
    ServiceDemo.index_search index query_emb (Some 3%Z) = Ok hits ∧
    Forall2 (doc_of_hit metas) (List.filter (kept metas) hits) docs ∧
    Forall (λ d, ∃ n, py_len (text d) = Ok n ∧ (n ≤ 1500)%Z) docs.
Proof.
  intros docs.
  assert (retrieve_top_k Z ServiceDemo.PARENT_DIR ServiceDemo.exn_str
            ServiceDemo.json_loads ServiceDemo.faiss_loads
            ServiceDemo.embed_content ServiceDemo.index_search
            ServiceDemo.with_index "hello" (Some 3%Z) = Ok docs) as H
    by (vm_compute; reflexivity).
  split; [exact H|].
  exact (retrieved_documents_follow_the_hits Z ServiceDemo.PARENT_DIR
           ServiceDemo.exn_str ServiceDemo.json_loads ServiceDemo.faiss_loads
           ServiceDemo.embed_content ServiceDemo.index_search
           ServiceDemo.with_index "hello" (Some 3%Z) docs H).
Defined.

(** Every stream, whatever the files and the two providers do, ends with
    exactly one terminal event ([done] or [error]) and has none before
    it. Either that event is an error and the whole stream, with no
    generation request made; or the stream opens with the one [sources]
    event, carries token events of non-empty content only, and exactly
    one generation request was made. *)
Theorem stream_has_one_terminal_event
    (F : Type) (PARENT_DIR : string) (exn_str : exn → string)
    (json_repr : json → string) (json_loads : string → option json)
    (faiss_loads : string → option (IndexFlatL2 F))
    (embed_content : string → result (list F))
    (index_search : IndexFlatL2 F → list F → option Z → result (list (F * Z)))
    (groq_stream : string → list chunk * option exn)
    (files : gmap string node) (query : string) (top_k : option Z) :
  let r := event_generator F PARENT_DIR exn_str json_repr json_loads
             faiss_loads embed_content index_search groq_stream
             files query top_k in
  ∃ body last,
    events r = body ++ [last] ∧
    terminal last = true ∧
    Forall (λ ev, terminal ev = false) body ∧
    ((body = [] ∧ (∃ message, last = Error message) ∧ groq_calls r = []) ∨
     (∃ sources contents,
        body = Sources sources :: map Token contents ∧
        Forall (λ content, content ≠ "") contents ∧
        length (groq_calls r) = 1%nat)).
Proof.
  cbv zeta.
  destruct (event_generator_cases F PARENT_DIR exn_str json_repr json_loads
              faiss_loads embed_content index_search groq_stream
              files query top_k)
    as [[message ->] | (docs & sources & chunks & failure & _ & _ & _ & _ & ->)].
  { exists [], (Error message). cbn. split_and!; try done. left. eauto. }
  cbn [events groq_calls]. rewrite token_events_fragments.
  exists (Sources sources :: map Token (fragments chunks)),
    (match failure with None => Done | Some e => error_event exn_str e end).
  split_and!.
  - done.
  - destruct failure as [[]|]; done.
  - constructor; [done|]. apply Forall_forall.
    intros ev (content & -> & _)%list_elem_of_fmap. done.
  - right. exists sources, (fragments chunks). split_and!; try done.
    unfold fragments. clear. induction chunks as [|c chunks IH]; [constructor|].
    cbn [mbind list_bind]. apply Forall_app. split; [|done].
    destruct (choices c) as [|[content|] ?]; try constructor.
    case_bool_decide; by repeat constructor.
Qed.

(** A stream that opens with a [sources] event lists the retrieved
    documents, one entry each and in their order, with the document's
    title, url, distance and position, and as snippet the first 250
    characters of its text followed by three dots; the one generation
    request is the prompt built from these documents; and the token
    contents, put together, are the first-choice contents of the
    provider's chunks, put together: dropping the empty ones loses
    nothing. *)
Theorem sources_and_answer_of_a_stream
    (F : Type) (PARENT_DIR : string) (exn_str : exn → string)
    (json_repr : json → string) (json_loads : string → option json)
    (faiss_loads : string → option (IndexFlatL2 F))
    (embed_content : string → result (list F))
    (index_search : IndexFlatL2 F → list F → option Z → result (list (F * Z)))
    (groq_stream : string → list chunk * option exn)
    (files : gmap string node) (query : string) (top_k : option Z)
    (sources : list (source F)) (rest : list (event F)) :
  let r := event_generator F PARENT_DIR exn_str json_repr json_loads
             faiss_loads embed_content index_search groq_stream
             files query top_k in
  events r = Sources sources :: rest →
  ∃ docs,
    retrieve_top_k F PARENT_DIR exn_str json_loads faiss_loads embed_content
      index_search files query top_k = Ok docs ∧
    Forall2 source_of_doc sources docs ∧
    Forall (λ s, String.length (snippet F s) ≤ 253) sources ∧
    groq_calls r = [build_prompt F json_repr docs query] ∧
    answer (events r)
    = String.concat ""
        (map first_delta
           (groq_stream (build_prompt F json_repr docs query)).1).
Proof.
  cbv zeta.
  destruct (event_generator_cases F PARENT_DIR exn_str json_repr json_loads
              faiss_loads embed_content index_search groq_stream
              files query top_k)
    as [[message ->]
       | (docs & srcs & chunks & failure & Hdocs & _ & Hsrc & Hg & ->)];
    [done|].
  cbn [events groq_calls]. intros [= -> <-]. exists docs.
  apply mapM_source_of in Hsrc. split_and!; try done.
  - eapply Forall2_Forall_l; [exact Hsrc|]. apply Forall_forall.
    intros d _ s (_ & _ & _ & _ & t & _ & ->).
    rewrite length_app_str. pose proof (substring_length 250 t). cbn. lia.
  - rewrite Hg. cbn [fst answer]. rewrite answer_app, answer_tokens.
    destruct failure as [[]|]; cbn [answer error_event];
      generalize (String.concat "" (map first_delta chunks)); clear;
      induction s as [|c s IH]; try done; by rewrite app_String, IH.
Qed.

Lemma sources_and_answer_of_a_stream_witness :
  let r := event_generator Z ServiceDemo.PARENT_DIR ServiceDemo.exn_str
             ServiceDemo.json_repr ServiceDemo.json_loads
             ServiceDemo.faiss_loads ServiceDemo.embed_content
             ServiceDemo.index_search ServiceDemo.groq_stream
             ServiceDemo.with_index "hello" (Some 3%Z) in
  let sources :=
    [ {| source_title := JStr "A"; source_url := JStr "";
         snippet := "alpha..."; source_distance := 0%Z;
         source_position := JInt 0 |};
      {| source_title := JStr "B"; source_url := JStr "";
         snippet := "beta..."; source_distance := 25%Z;
         source_position := JInt 0 |} ] in
  let rest := [Token "Hel"; Token "lo"; Error "connection lost"] in
  events r = Sources sources :: rest ∧
  answer (events r) = "Hello" ∧
  ∃ docs,
    retrieve_top_k Z ServiceDemo.PARENT_DIR ServiceDemo.exn_str
      ServiceDemo.json_loads ServiceDemo.faiss_loads ServiceDemo.embed_content
      ServiceDemo.index_search ServiceDemo.with_index "hello" (Some 3%Z)
    = Ok docs ∧
    Forall2 source_of_doc sources docs ∧
    Forall (λ s, String.length (snippet Z s) ≤ 253) sources ∧
    groq_calls r = [build_prompt Z ServiceDemo.json_repr docs "hello"] ∧
    answer (events r)
    = String.concat ""
        (map first_delta
           (ServiceDemo.groq_stream
              (build_prompt Z ServiceDemo.json_repr docs "hello")).1).
Proof.
  intros r sources rest.
  assert (events r = Sources sources :: rest) as H by (vm_compute; reflexivity).
  split; [exact H|]. split; [vm_compute; reflexivity|].
  exact (sources_and_answer_of_a_stream Z ServiceDemo.PARENT_DIR
           ServiceDemo.exn_str ServiceDemo.json_repr ServiceDemo.json_loads
           ServiceDemo.faiss_loads ServiceDemo.embed_content
           ServiceDemo.index_search ServiceDemo.groq_stream
           ServiceDemo.with_index "hello" (Some 3%Z) sources rest H).
Defined.

(** The handler answers 400 "Query empty" exactly to the queries made of
    white space only (the empty one among them); every other query gets a
    stream, made for the query without its surrounding white space. *)
Theorem chat_rejects_exactly_the_blank_queries
    (F : Type) (PARENT_DIR : string) (exn_str : exn → string)
    (json_repr : json → string) (json_loads : string → option json)
    (faiss_loads : string → option (IndexFlatL2 F))
    (embed_content : string → result (list F))
    (index_search : IndexFlatL2 F → list F → option Z → result (list (F * Z)))
    (groq_stream : string → list chunk * option exn)
    (files : gmap string node) (query : string) (top_k : option Z) :
  let answer := chat F PARENT_DIR exn_str json_repr json_loads faiss_loads
                  embed_content index_search groq_stream files query top_k in
  (blank query ↔ answer = Raise (HTTPException 400 "Query empty")) ∧
  (¬ blank query ↔
   answer = Ok (event_generator F PARENT_DIR exn_str json_repr json_loads
                  faiss_loads embed_content index_search groq_stream
                  files (strip query) top_k)).
Proof.
  cbv zeta. unfold chat. rewrite <- strip_blank.
  case_bool_decide as Hq; split; split; try done; by intros [].
Qed.

End ServiceStreamFacts.

(** ** The builder's metadata under the service *)

Module PipelineFacts.
Import PyStr PyStrFacts Py Indexer IndexerFacts.

Section Facts.

Variable F : Type.
Variable zero : F.
Variable embed_document : nat → json → option (list F).
Variable md5_hexdigest : string → string.
Variable json_loads : string → option json.
Variable json_dumps : json → string.
Variable faiss_dumps : IndexFlatL2 F → string.
Variable isoformat : nat → string.
Variable PARENT_DIR : string.
Variable exn_str : exn → string.
Variable json_repr : json → string.
Variable faiss_loads : string → option (IndexFlatL2 F).
Variable embed_query : string → result (list F).
Variable index_search : IndexFlatL2 F → list F → option Z → result (list (F * Z)).
Variable groq_stream : string → list Service.chunk * option exn.

Local Abbreviation rebuild :=
  (rebuild F zero embed_document md5_hexdigest json_loads json_dumps
           faiss_dumps isoformat).
Local Abbreviation retrieve_top_k :=
  (Service.retrieve_top_k F PARENT_DIR exn_str json_loads faiss_loads
     embed_query index_search).
Local Abbreviation event_generator :=
  (Service.event_generator F PARENT_DIR exn_str json_repr json_loads
     faiss_loads embed_query index_search groq_stream).

(** What a build that constructed an index left in the metadata file. *)
Lemma rebuild_metadata w index metas w1 :
  rebuild w = (Ok (Some index, metas), w1) →
  ∃ texts records,
    metas = JList records ∧
    Forall2 (IndexerOrder.same_file json_loads (fs w) INPUT_DIR) texts records ∧
    fs w1 !! META_FILE = Some (File (json_dumps (JList records))).
Proof.
  intros Hre.
  apply rebuild_ok_inv in Hre
    as (texts & records & w_a & all & w_b & files1 & files2 & h & files3 &
        Hload & _ & _ & _ & -> & Hw1 & Hw2 & _ & Hw3 & ->).
  apply write_file_ok in Hw1, Hw2, Hw3. exists texts, records.
  split; [done|]. split.
  - eapply IndexerMoreFacts.load_chunks_same_file. by rewrite Hload.
  - subst. cbn [fs]. rewrite lookup_insert_ne by done. apply lookup_insert_eq.
Qed.

Lemma py_getitem_elem (records : list json) (idx : Z) (meta : json) :
  Service.py_getitem (JList records) idx = Ok meta → meta ∈ records.
Proof.
  unfold Service.py_getitem. cbv zeta. case_match; [done|].
  unfold of_option. destruct (records !! _) eqn:E; [|done].
  intros [= <-]. by eapply list_elem_of_lookup_2.
Qed.

Lemma no_text_doc (records : list json) (hit : F * Z) (d : Service.doc F) :
  Forall (λ meta, ∀ dflt, dict_get meta "text" dflt = Ok dflt) records →
  ServiceStream.doc_of_hit (JList records) hit d →
  Service.text d = JStr "".
Proof.
  intros Hrec (_ & meta & full & Hmeta & Hfull & Hp & _).
  apply py_getitem_elem in Hmeta.
  rewrite Forall_forall in Hrec. rewrite (Hrec _ Hmeta) in Hfull.
  injection Hfull as <-. cbn in Hp. by injection Hp as <-.
Qed.

End Facts.

(** The builder's records carry no text, so a service that reads the
    metadata file a build wrote retrieves documents with an empty text,
    whatever the index and the search give: every snippet it streams is
    the three dots alone. *)
Theorem built_metadata_gives_empty_texts
    (F : Type) (zero : F) (embed_document : nat → json → option (list F))
    (md5_hexdigest : string → string) (json_loads : string → option json)
    (json_dumps : json → string)
    (faiss_loads_builder : string → option (IndexFlatL2 F))
    (faiss_dumps : IndexFlatL2 F → string)
    (isoformat : nat → string) (PARENT_DIR : string) (exn_str : exn → string)
    (json_repr : json → string) (faiss_loads : string → option (IndexFlatL2 F))
    (embed_query : string → result (list F))
    (index_search : IndexFlatL2 F → list F → option Z → result (list (F * Z)))
    (groq_stream : string → list Service.chunk * option exn)
    (force : bool) (w : world) (index : IndexFlatL2 F) (metas : json)
    (files : gmap string node) (query : string) (top_k : option Z)
    (docs : list (Service.doc F)) :
  force = true ∨ should_reindex md5_hexdigest json_loads (fs w) INPUT_DIR
                 = Ok true →
  (build_faiss_index F zero embed_document md5_hexdigest json_loads json_dumps
     faiss_loads_builder faiss_dumps isoformat force w).1
  = Ok (Some index, metas) →
  files !! Service.META_FILE PARENT_DIR
  = fs (build_faiss_index F zero embed_document md5_hexdigest json_loads
          json_dumps faiss_loads_builder faiss_dumps isoformat force w).2
    !! META_FILE →
  json_loads (json_dumps metas) = Some metas →
  Service.retrieve_top_k F PARENT_DIR exn_str json_loads faiss_loads
    embed_query index_search files query top_k = Ok docs →
  Forall (λ d, Service.text d = JStr "") docs ∧
  ∀ sources rest,
    Service.events
      (Service.event_generator F PARENT_DIR exn_str json_repr json_loads
         faiss_loads embed_query index_search groq_stream files query top_k)
    = Service.Sources sources :: rest →
    Forall (λ s, Service.snippet F s = "...") sources.
Proof.
  intros Hnew Hbuilt Hfile Hround Hdocs.
  rewrite build_with_rebuild in Hbuilt, Hfile by done.
  destruct (rebuild _ _ _ _ _ _ _ _ w) as [r w1] eqn:Hre.
  cbn [fst snd] in Hbuilt, Hfile. subst r.
  apply rebuild_metadata in Hre as (texts & records & -> & Hsame & Hmeta).
  rewrite Hmeta in Hfile.
  assert (Forall (λ meta, ∀ dflt, dict_get meta "text" dflt = Ok dflt) records)
    as Hrec.
  { eapply Forall2_Forall_r; [exact Hsame|]. apply Forall_forall.
    intros text _ meta (f & bytes & data & H). apply H. }
  assert (Forall (λ d, Service.text d = JStr "") docs) as Hempty.
  { apply ServiceStreamFacts.retrieve_top_k_inv in Hdocs.
    apply ServiceStreamFacts.retrieve_body_inv in Hdocs
      as (index_bytes & ix & meta_bytes & metas & query_emb & hits &
          _ & _ & Hm & Hmd & _ & _ & Hdocs).
    rewrite Hfile in Hm. injection Hm as <-. rewrite Hround in Hmd.
    injection Hmd as <-.
    apply ServiceStreamFacts.collect_hits_spec in Hdocs as (new & -> & Hnew').
    cbn [app]. eapply Forall2_Forall_r; [exact Hnew'|]. apply Forall_forall.
    intros hit _ d Hd. by eapply no_text_doc. }
  split; [done|]. intros sources rest Hev.
  destruct (ServiceStreamFacts.event_generator_cases F PARENT_DIR exn_str
              json_repr json_loads faiss_loads embed_query index_search
              groq_stream files query top_k)
    as [[message Hr]
       | (docs' & srcs & chunks & failure & Hdocs' & _ & Hsrc & _ & Hr)];
    rewrite Hr in Hev; cbn [Service.events] in Hev; [done|].
  injection Hev as -> <-. rewrite Hdocs in Hdocs'. injection Hdocs' as <-.
  apply ServiceStreamFacts.mapM_source_of in Hsrc.
  clear -Hsrc Hempty.
  induction Hsrc as [|s d srcs docs Hs _ IH]; [constructor|].
  apply Forall_cons in Hempty as [Hd Hdocs']. constructor; [|by apply IH].
  destruct Hs as (_ & _ & _ & _ & t & Ht & ->). rewrite Hd in Ht.
  by injection Ht as <-.
Qed.

Lemma built_metadata_gives_empty_texts_witness :
  let run := IndexerDemo.build_faiss_index true IndexerDemo.start in
  (true = true
   ∨ should_reindex IndexerDemo.md5_hexdigest IndexerDemo.json_loads
       (fs IndexerDemo.start) INPUT_DIR = Ok true) ∧
  run.1 = Ok (Some IndexerDemo.index, JList IndexerDemo.records) ∧
  PipelineDemo.served !! Service.META_FILE ServiceDemo.PARENT_DIR
  = fs run.2 !! META_FILE ∧
  IndexerDemo.json_loads (IndexerDemo.json_dumps (JList IndexerDemo.records))
  = Some (JList IndexerDemo.records) ∧
  PipelineDemo.retrieve_top_k PipelineDemo.served "hello" (Some 3%Z)
  = Ok PipelineDemo.docs ∧
  Forall (λ d, Service.text d = JStr "") PipelineDemo.docs ∧
  ∀ sources rest,
    Service.events
      (PipelineDemo.event_generator PipelineDemo.served "hello" (Some 3%Z))
    = Service.Sources sources :: rest →
    Forall (λ s, Service.snippet Z s = "...") sources.
Proof.
  intros run.
  assert (run.1 = Ok (Some IndexerDemo.index, JList IndexerDemo.records))
    as H1 by (vm_compute; reflexivity).
  assert (PipelineDemo.served !! Service.META_FILE ServiceDemo.PARENT_DIR
          = fs run.2 !! META_FILE) as H2 by (vm_compute; reflexivity).
  assert (IndexerDemo.json_loads
            (IndexerDemo.json_dumps (JList IndexerDemo.records))
          = Some (JList IndexerDemo.records)) as H3 by (vm_compute; reflexivity).
  assert (PipelineDemo.retrieve_top_k PipelineDemo.served "hello" (Some 3%Z)
          = Ok PipelineDemo.docs) as H4 by (vm_compute; reflexivity).
  split; [by left|]. split; [exact H1|]. split; [exact H2|].
  split; [exact H3|]. split; [exact H4|].
  exact (built_metadata_gives_empty_texts Z 0%Z IndexerDemo.embed_content
           IndexerDemo.md5_hexdigest IndexerDemo.json_loads
           IndexerDemo.json_dumps IndexerDemo.faiss_loads
           IndexerDemo.faiss_dumps IndexerDemo.isoformat
           ServiceDemo.PARENT_DIR ServiceDemo.exn_str ServiceDemo.json_repr
           ServiceDemo.faiss_loads ServiceDemo.embed_content
           ServiceDemo.index_search ServiceDemo.groq_stream
           true IndexerDemo.start IndexerDemo.index (JList IndexerDemo.records)
           PipelineDemo.served "hello" (Some 3%Z) PipelineDemo.docs
           (or_introl eq_refl) H1 H2 H3 H4).
Defined.

End PipelineFacts.

(** ** The crawler *)

Module ScraperFacts.
Import PyStr PyStrFacts Py Scraper.

Lemma endswith_String (p : string) (c : ascii) (s : string) :
  endswith p (String c s) = String.eqb p (String c s) || endswith p s.
Proof. reflexivity. Qed.

Lemma rstrip_slash_no_slash (s : string) :
  endswith "/" (rstrip_slash s) = false.
Proof.
  induction s as [|c s IH]; [done|]. cbn [rstrip_slash].
  destruct (rstrip_slash s) as [|d r] eqn:E.
  - case_bool_decide as Hc; [done|].
    rewrite endswith_String. apply orb_false_iff. split; [|done].
    apply String.eqb_neq. congruence.
  - rewrite endswith_String, IH. apply orb_false_iff. split; [|done].
    by apply String.eqb_neq.
Qed.

Lemma fold_enqueue (seen : gset string) (links queue : list string) :
  (NoDup queue → NoDup (fold_left (enqueue seen) links queue)) ∧
  (∀ u, u ∈ fold_left (enqueue seen) links queue
        ↔ u ∈ queue ∨ (u ∈ links ∧ u ∉ seen)) ∧
  ∃ new, fold_left (enqueue seen) links queue = queue ++ new.
Proof.
  revert queue. induction links as [|link links IH]; intros queue.
  { cbn. split_and!; [done| |exists []; by rewrite app_nil_r].
    intros u. split; [by left|]. intros [?|[?%elem_of_nil _]]; done. }
  cbn [fold_left]. destruct (IH (enqueue seen queue link)) as (Hnd & Hin & new & Hnew).
  unfold enqueue in *.
  destruct (bool_decide (link ∉ seen) && bool_decide (link ∉ queue)) eqn:Hb.
  - apply andb_true_iff in Hb as [Hs%bool_decide_eq_true Hq%bool_decide_eq_true].
    split_and!.
    + intros Hq'. apply Hnd. apply NoDup_app. split_and!; [done| |apply NoDup_singleton].
      intros x Hx ->%list_elem_of_singleton. done.
    + intros u. rewrite Hin, elem_of_app, list_elem_of_singleton, elem_of_cons.
      naive_solver.
    + exists (link :: new). by rewrite Hnew, <- app_assoc.
  - split_and!; [done| |by exists new].
    intros u. rewrite Hin, elem_of_cons. split; [naive_solver|].
    intros [?|[[->|?] Hs]]; [by left| |by right].
    apply andb_false_iff in Hb as [Hb|Hb]; apply bool_decide_eq_false in Hb.
    + done.
    + left. by apply dec_stable.
Qed.

Section Facts.

Variable urldefrag : string → string.
Variable urljoin : string → string → string.
Variable netloc : string → string.
Variable set_order : list string → list string.
Variable can_fetch : string → bool.
Variable requests_get : nat → string → fetched.
Variable driver_get : nat → string → fetched.
Variable soup_title : string → string.
Variable soup_canonical : string → option string.
Variable clean_content : string → string.
Variable soup_hrefs : string → list string.
Variable md5_hexdigest : string → string.
Variable strftime : nat → string.

Local Abbreviation normalize_url := (normalize_url urldefrag urljoin).
Local Abbreviation add_link := (add_link urldefrag urljoin netloc).
Local Abbreviation extract_links :=
  (extract_links urldefrag urljoin netloc set_order soup_hrefs).
Local Abbreviation keep_page :=
  (keep_page urldefrag urljoin netloc set_order soup_title soup_canonical
             clean_content soup_hrefs md5_hexdigest strftime).
Local Abbreviation scrape :=
  (scrape urldefrag urljoin netloc set_order can_fetch requests_get driver_get
          soup_title soup_canonical clean_content soup_hrefs md5_hexdigest
          strftime).
Local Abbreviation run_loop :=
  (run_loop urldefrag urljoin netloc set_order can_fetch requests_get
            driver_get soup_title soup_canonical clean_content soup_hrefs
            md5_hexdigest strftime).
Local Abbreviation run :=
  (run urldefrag urljoin netloc set_order can_fetch requests_get driver_get
       soup_title soup_canonical clean_content soup_hrefs md5_hexdigest
       strftime).
Local Abbreviation bookkeeping := (bookkeeping can_fetch requests_get).
Local Abbreviation discovered :=
  (discovered urldefrag urljoin netloc set_order soup_hrefs).

Lemma normalize_url_no_slash (url base_url : string) :
  endswith "/" (normalize_url url base_url) = false.
Proof. apply rstrip_slash_no_slash. Qed.

Lemma fold_add_link (current_url base_domain : string)
    (hrefs links : list string) :
  (NoDup links → NoDup (fold_left (add_link current_url base_domain) hrefs links)) ∧
  ∀ u, u ∈ fold_left (add_link current_url base_domain) hrefs links
       ↔ u ∈ links ∨
         ∃ href, href ∈ hrefs ∧
           existsb (λ prefix, startswith prefix href) skipped_prefixes = false ∧
           u = normalize_url href current_url ∧
           netloc u = base_domain.
Proof.
  revert links. induction hrefs as [|href hrefs IH]; intros links.
  { cbn. split; [done|]. intros u. split; [by left|].
    intros [?|(? & []%elem_of_nil & _)]; done. }
  cbn [fold_left].
  destruct (IH (add_link current_url base_domain links href)) as [Hnd Hin].
  unfold Scraper.add_link in *.
  destruct (existsb _ skipped_prefixes) eqn:Hskip.
  { split; [done|]. intros u. rewrite Hin. split; [|].
    - intros [?|(h & Hh & ?)]; [by left|]. right. exists h.
      split; [by right|done].
    - intros [?|(h & [->|Hh]%elem_of_cons & Hs & ?)]; [by left|congruence|].
      right. by exists h. }
  cbv zeta in *. case_bool_decide as Hnet.
  - case_bool_decide as Hdup.
    + split; [done|]. intros u. rewrite Hin. split.
      * intros [?|(h & Hh & ?)]; [by left|]. right. exists h.
        split; [by right|done].
      * intros [?|(h & [->|Hh]%elem_of_cons & Hs & -> & Hn)]; [by left|by left|].
        right. by exists h.
    + split.
      * intros Hl. apply Hnd. apply NoDup_app.
        split_and!; [done| |apply NoDup_singleton].
        intros x Hx ->%list_elem_of_singleton. done.
      * intros u. rewrite Hin, elem_of_app, list_elem_of_singleton. split.
        -- intros [[?| ->]|(h & Hh & ?)]; [by left| |].
           ++ right. exists href. split; [by left|done].
           ++ right. exists h. split; [by right|done].
        -- intros [?|(h & [->|Hh]%elem_of_cons & Hs & -> & Hn)];
             [by left; left|by left; right|].
           right. by exists h.
  - split; [done|]. intros u. rewrite Hin. split.
    + intros [?|(h & Hh & ?)]; [by left|]. right. exists h.
      split; [by right|done].
    + intros [?|(h & [->|Hh]%elem_of_cons & Hs & -> & Hn)];
        [by left|congruence|].
      right. by exists h.
Qed.

(** *** One call of [scrape] *)

Lemma scrape_progress (url : string) (self self' : HybridScraper) :
  scrape url self = (self', None) →
  (visited self' = visited self ∧ to_visit self' = to_visit self) ∨
  size (visited self') = S (size (visited self)).
Proof.
  unfold Scraper.scrape.
  destruct (bool_decide (url ∈ visited self)) eqn:Hv; cbn [orb].
  { intros [= <-]. by left. }
  apply bool_decide_eq_false in Hv.
  destruct (bool_decide (url ∈ failed self)); [by intros [= <-]; left|].
  destruct (negb (can_fetch url)); [by intros [= <-]; left|].
  assert (∀ html n fallback,
            size (visited (keep_page url html n (logged url fallback self)))
            = S (size (visited self))) as Hkept.
  { intros html n fallback. cbn [Scraper.keep_page logged visited].
    rewrite size_union by (clear -Hv; set_solver). by rewrite size_singleton. }
  destruct (requests_get _ url) as [html| |e]; [|..|done].
  - intros [= <-]. right. apply Hkept.
  - destruct (driver_get _ url) as [html| |e]; [| |done].
    + intros [= <-]. right. apply Hkept.
    + intros [= <-]. by left.
Qed.

Lemma run_loop_terminates (k n : nat) (self : HybridScraper) :
  MAX_PAGES - size (visited self) ≤ k → length (to_visit self) ≤ n →
  ∃ fuel r, run_loop fuel self = Some r.
Proof.
  revert n self. induction k as [|k IHk].
  { intros n self Hk _. exists 1. cbn [Scraper.run_loop].
    destruct (to_visit self); [eauto|].
    destruct (MAX_PAGES <=? size (visited self)) eqn:Hmax; [eauto|].
    apply Nat.leb_gt in Hmax. lia. }
  induction n as [|n IHn]; intros self Hk Hn.
  { exists 1. cbn [Scraper.run_loop].
    destruct (to_visit self); [eauto|]. cbn in Hn. lia. }
  destruct (to_visit self) as [|url rest] eqn:Hq.
  { exists 1. cbn [Scraper.run_loop]. rewrite Hq. eauto. }
  destruct (MAX_PAGES <=? size (visited self)) eqn:Hmax.
  { exists 1. cbn [Scraper.run_loop]. rewrite Hq, Hmax. eauto. }
  apply Nat.leb_gt in Hmax.
  destruct (scrape url {| to_visit := rest; visited := visited self;
                          failed := failed self;
                          pages_data := pages_data self;
                          requested := requested self;
                          driven := driven self |})
    as [self' [e|]] eqn:Hs.
  { exists 1. cbn [Scraper.run_loop].
    apply Nat.leb_gt in Hmax. rewrite Hq, Hmax, Hs. eauto. }
  assert (∃ fuel r, run_loop fuel self' = Some r) as (fuel & r & Hr).
  { destruct (scrape_progress _ _ _ Hs) as [[Hv Ht] | Hsize];
      cbn [visited to_visit] in *.
    - apply IHn; [by rewrite Hv|]. rewrite Ht. cbn in Hn. lia.
    - apply (IHk (length (to_visit self'))); [|done]. lia. }
  exists (S fuel), r. cbn [Scraper.run_loop].
  apply Nat.leb_gt in Hmax. by rewrite Hq, Hmax, Hs.
Qed.

Lemma run_loop_more_fuel (fuel : nat) (self : HybridScraper) r :
  run_loop fuel self = Some r → run_loop (S fuel) self = Some r.
Proof.
  revert self. induction fuel as [|fuel IH]; intros self; [done|].
  intros H. cbn [Scraper.run_loop] in H |- *.
  destruct (to_visit self) as [|url rest]; [done|].
  destruct (MAX_PAGES <=? size (visited self)); [done|].
  destruct (scrape url _) as [self' [e|]]; [done|]. by apply IH.
Qed.

Lemma run_loop_fuel_le (fuel fuel' : nat) (self : HybridScraper) r :
  fuel ≤ fuel' → run_loop fuel self = Some r → run_loop fuel' self = Some r.
Proof.
  induction 1 as [|fuel' _ IH]; [done|]. intros H.
  by apply run_loop_more_fuel, IH.
Qed.

Lemma logged_keeps (url : string) (fallback : bool) (self : HybridScraper) :
  bookkeeping self → settled self → discovered self →
  url ∉ visited self → url ∉ failed self → can_fetch url = true →
  (url = BASE_URL ∨
   ∃ page, page ∈ pages_data self ∧
           url ∈ extract_links (data_html page) (data_url page) BASE_URL) →
  (fallback = true → ∃ n, requests_get n url = Unreachable) →
  bookkeeping (logged url fallback self) ∧
  discovered (logged url fallback self) ∧
  url ∈ requested (logged url fallback self) ∧
  ∀ u, u ∈ requested (logged url fallback self) →
       u = url ∨ u ∈ visited self ∨ u ∈ failed self.
Proof.
  intros (Hq & Hqv & Hvf & Hpages & Hset & Hsize & Hreq & Hcan & Hvr & Hdrv
          & Hdr) Hsettled Hdisc Hv Hf Hallowed Hurl Hfall.
  assert (url ∉ requested self) as Hnew.
  { intros [?|?]%Hsettled; done. }
  assert (url ∉ driven self) as Hnew'.
  { intros [? _]%Hdr. done. }
  unfold Scraper.bookkeeping, logged.
  cbn [visited failed to_visit pages_data requested driven].
  split_and!; try done.
  - apply NoDup_app. split_and!; [done| |apply NoDup_singleton].
    intros x Hx ->%list_elem_of_singleton. done.
  - intros u [Hu| ->%list_elem_of_singleton]%elem_of_app; [by apply Hcan|done].
  - intros u Hu. apply elem_of_app. left. by apply Hvr.
  - destruct fallback; [|done]. apply NoDup_app.
    split_and!; [done| |apply NoDup_singleton].
    intros x Hx ->%list_elem_of_singleton. done.
  - intros u Hu. destruct fallback.
    + apply elem_of_app in Hu as [Hu| ->%list_elem_of_singleton].
      * destruct (Hdr u Hu) as [Hur Hn]. split; [|done].
        apply elem_of_app. by left.
      * split; [apply elem_of_app; right; by left|]. by apply Hfall.
    + destruct (Hdr u Hu) as [Hur Hn]. split; [|done].
      apply elem_of_app. by left.
  - intros u [Hu|[[Hu| ->%list_elem_of_singleton]%elem_of_app|Hu]].
    + apply Hdisc. by left.
    + apply Hdisc. by right; left.
    + done.
    + apply Hdisc. by right; right.
  - apply elem_of_app. right. by left.
  - intros u [Hu| ->%list_elem_of_singleton]%elem_of_app; [|by left].
    right. by apply Hsettled.
Qed.

Lemma mark_failed_keeps (url : string) (self : HybridScraper) :
  bookkeeping self → discovered self → url ∉ visited self →
  (url = BASE_URL ∨
   ∃ page, page ∈ pages_data self ∧
           url ∈ extract_links (data_html page) (data_url page) BASE_URL) →
  (∀ u, u ∈ requested self → u = url ∨ u ∈ visited self ∨ u ∈ failed self) →
  bookkeeping (mark_failed url self) ∧
  discovered (mark_failed url self) ∧
  settled (mark_failed url self).
Proof.
  intros (Hq & Hqv & Hvf & Hpages & Hset & Hsize & Hreq & Hcan & Hvr & Hdrv
          & Hdr) Hdisc Hv Hurl Hpending.
  unfold Scraper.bookkeeping, mark_failed.
  cbn [visited failed to_visit pages_data requested driven].
  split_and!; try done.
  - clear -Hvf Hv. set_solver.
  - intros u [Hu|[Hu|Hu]]; cbn [to_visit requested failed] in Hu.
    + apply Hdisc. by left.
    + apply Hdisc. by right; left.
    + apply elem_of_union in Hu as [->%elem_of_singleton|Hu]; [done|].
      apply Hdisc. by right; right.
  - intros u Hu. cbn [requested visited failed] in *.
    destruct (Hpending u Hu) as [->|[?|?]]; [|by left|].
    + right. apply elem_of_union. left. by apply elem_of_singleton.
    + right. apply elem_of_union. by right.
Qed.

Lemma keep_page_keeps (url html : string) (n : nat) (self : HybridScraper) :
  bookkeeping self → discovered self →
  url ∉ visited self → url ∉ failed self → url ∉ to_visit self →
  url ∈ requested self → size (visited self) < MAX_PAGES →
  (∀ u, u ∈ requested self → u = url ∨ u ∈ visited self ∨ u ∈ failed self) →
  bookkeeping (keep_page url html n self) ∧
  discovered (keep_page url html n self) ∧
  settled (keep_page url html n self).
Proof.
  intros (Hq & Hqv & Hvf & Hpages & Hset & Hsize & Hreq & Hcan & Hvr & Hdrv
          & Hdr) Hdisc Hv Hf Hrest Hrequested Hmax Hpending.
  destruct (fold_enqueue ({[url]} ∪ visited self)
              (extract_links html url BASE_URL) (to_visit self))
    as (Hnd & Hin & _).
  unfold Scraper.bookkeeping, Scraper.keep_page. cbv zeta.
  cbn [visited failed to_visit pages_data requested driven].
  split_and!; try done.
  - by apply Hnd.
  - intros u [Hu|[_ Hu]]%Hin; [|done].
    apply not_elem_of_union. split; [|by apply Hqv].
    intros ->%elem_of_singleton. done.
  - clear -Hvf Hf. set_solver.
  - rewrite fmap_app. cbn [fmap list_fmap data_url]. apply NoDup_app.
    split_and!; [done| |apply NoDup_singleton].
    intros x Hx ->%list_elem_of_singleton. apply Hv. rewrite <- Hset.
    by apply elem_of_list_to_set.
  - rewrite fmap_app, list_to_set_app_L, Hset.
    cbn [fmap list_fmap data_url list_to_set]. clear. set_solver.
  - rewrite size_union by (clear -Hv; set_solver).
    rewrite size_singleton. clear -Hmax. lia.
  - intros u [->%elem_of_singleton|Hu]%elem_of_union; [done|by apply Hvr].
  - intros u Hu. cbn [to_visit requested failed pages_data] in *.
    assert (u ∈ to_visit self ∨ u ∈ requested self ∨ u ∈ failed self
            ∨ u ∈ extract_links html url BASE_URL) as Hcases.
    { destruct Hu as [[?|[? _]]%Hin|[?|?]]; eauto 6. }
    destruct Hcases as [Hu'|[Hu'|[Hu'|Hu']]].
    1-3: (destruct (Hdisc u) as [?|(page & Hp & Hl)]; [tauto|by left|];
          right; exists page; split; [apply elem_of_app; by left|done]).
    right. eexists. split; [apply elem_of_app; right; by left|]. done.
  - intros u Hu. cbn [requested visited failed] in *.
    destruct (Hpending u Hu) as [->|[?|?]]; [| |by right].
    + left. apply elem_of_union. left. by apply elem_of_singleton.
    + left. apply elem_of_union. by right.
Qed.

Lemma scrape_keeps (url : string) (rest : list string)
    (self self' : HybridScraper) (e : option exn) :
  bookkeeping self → settled self → discovered self →
  to_visit self = url :: rest →
  size (visited self) < MAX_PAGES →
  scrape url {| to_visit := rest; visited := visited self;
                failed := failed self; pages_data := pages_data self;
                requested := requested self;
                driven := driven self |} = (self', e) →
  bookkeeping self' ∧ discovered self' ∧ (e = None → settled self').
Proof.
  intros Hb Hsettled Hdisc Hpop Hmax.
  set (popped := {| to_visit := rest; visited := visited self;
                    failed := failed self; pages_data := pages_data self;
                    requested := requested self; driven := driven self |}).
  assert (url ∉ to_visit popped) as Hurl.
  { destruct Hb as (Hq & _). rewrite Hpop in Hq.
    by apply NoDup_cons in Hq as [Hurl _]. }
  assert (bookkeeping popped) as Hb0.
  { destruct Hb as (Hq & Hqv & Hrest). rewrite Hpop in Hq, Hqv.
    apply NoDup_cons in Hq as [_ Hq].
    unfold Scraper.bookkeeping, popped.
    cbn [visited failed to_visit pages_data requested driven].
    split; [done|]. split; [|exact Hrest].
    intros u Hu. apply Hqv. by right. }
  assert (settled popped) as Hs0 by exact Hsettled.
  assert (discovered popped) as Hd0.
  { intros u Hu. apply Hdisc. rewrite Hpop.
    destruct Hu as [Hu|Hu]; [left; by right|by right]. }
  assert (url = BASE_URL ∨
          ∃ page, page ∈ pages_data popped ∧
                  url ∈ extract_links (data_html page) (data_url page) BASE_URL)
    as Hurl_disc.
  { apply Hdisc. left. rewrite Hpop. by left. }
  assert (size (visited popped) < MAX_PAGES) as Hmax0 by exact Hmax.
  clearbody popped. clear Hb Hsettled Hdisc Hpop Hmax self.
  unfold Scraper.scrape.
  destruct (bool_decide (url ∈ visited popped)) eqn:Hv; cbn [orb].
  { intros [= <- <-]. split_and!; done. }
  apply bool_decide_eq_false in Hv.
  destruct (bool_decide (url ∈ failed popped)) eqn:Hf.
  { intros [= <- <-]. split_and!; done. }
  apply bool_decide_eq_false in Hf.
  destruct (can_fetch url) eqn:Hallowed; cbn [negb].
  2:{ intros [= <- <-].
      destruct (mark_failed_keeps url popped) as (? & ? & ?); try done.
      intros u Hu. right. by apply Hs0. }
  assert (∀ fallback html n,
            (fallback = true → ∃ n, requests_get n url = Unreachable) →
            let kept := keep_page url html n (logged url fallback popped) in
            bookkeeping kept ∧ discovered kept ∧ settled kept) as Hkept.
  { intros fallback html n Hfall.
    destruct (logged_keeps url fallback popped) as (Hb1 & Hd1 & Hin1 & Hp1);
      try done.
    apply keep_page_keeps;
      [exact Hb1|exact Hd1|exact Hv|exact Hf|exact Hurl|exact Hin1
      |exact Hmax0|exact Hp1]. }
  destruct (requests_get _ url) as [html| |e0] eqn:Hreq.
  - intros [= <- <-]. destruct (Hkept false html
      (S (length (requested popped) + length (driven popped)))) as (?&?&?);
      done.
  - assert (∃ n, requests_get n url = Unreachable) as Hfall by eauto.
    destruct (driver_get _ url) as [html| |e0].
    + intros [= <- <-]. destruct (Hkept true html
        (S (S (length (requested popped) + length (driven popped)))))
        as (?&?&?); done.
    + intros [= <- <-].
      destruct (logged_keeps url true popped) as (Hb1 & Hd1 & Hin1 & Hp1);
        try done.
      destruct (mark_failed_keeps url (logged url true popped)) as (?&?&?);
        done.
    + intros [= <- <-].
      destruct (logged_keeps url true popped) as (Hb1 & Hd1 & Hin1 & Hp1);
        done.
  - intros [= <- <-].
    destruct (logged_keeps url false popped) as (Hb1 & Hd1 & Hin1 & Hp1);
      done.
Qed.

Lemma run_loop_keeps (fuel : nat) (self self' : HybridScraper)
    (e : option exn) :
  bookkeeping self → settled self → discovered self →
  run_loop fuel self = Some (self', e) →
  bookkeeping self' ∧ discovered self' ∧
  (e = None → settled self' ∧ finished self').
Proof.
  revert self. induction fuel as [|fuel IH]; intros self Hb Hs Hd; [done|].
  cbn [Scraper.run_loop].
  destruct (to_visit self) as [|url rest] eqn:Hq.
  { intros [= <- <-]. split_and!; try done. intros _. split; [done|]. by left. }
  destruct (MAX_PAGES <=? size (visited self)) eqn:Hmax.
  { intros [= <- <-]. split_and!; try done. intros _. split; [done|].
    right. apply Nat.leb_le in Hmax.
    destruct Hb as (_ & _ & _ & _ & _ & Hsize & _). clear -Hmax Hsize. lia. }
  apply Nat.leb_gt in Hmax.
  destruct (scrape url _) as [self1 e1] eqn:Hscrape.
  destruct (scrape_keeps _ _ _ _ _ Hb Hs Hd Hq Hmax Hscrape) as (Hb1 & Hd1 & Hs1).
  destruct e1 as [e1|].
  - intros [= <- <-]. split_and!; done.
  - intros Hrun. apply (IH self1); auto.
Qed.

Lemma init_books : bookkeeping init ∧ settled init ∧ discovered init.
Proof.
  split_and!.
  - unfold Scraper.bookkeeping, init.
    cbn [visited failed to_visit pages_data requested driven fmap list_fmap
         list_to_set].
    split_and!.
    + apply NoDup_singleton.
    + intros u _. apply not_elem_of_empty.
    + apply disjoint_empty_l.
    + apply NoDup_nil_2.
    + reflexivity.
    + rewrite size_empty. apply Nat.le_0_l.
    + apply NoDup_nil_2.
    + intros u Hu. by apply elem_of_nil in Hu.
    + intros u Hu. by apply not_elem_of_empty in Hu.
    + apply NoDup_nil_2.
    + intros u Hu. by apply elem_of_nil in Hu.
  - intros u Hu. by apply elem_of_nil in Hu.
  - intros u [Hu|[Hu|Hu]]; cbn [init to_visit requested failed] in Hu.
    + left. by apply list_elem_of_singleton in Hu.
    + by apply elem_of_nil in Hu.
    + by apply not_elem_of_empty in Hu.
Qed.

Lemma set_order_elem (l : list string) (u : string) :
  (∀ l, set_order l ≡ₚ l) → u ∈ set_order l ↔ u ∈ l.
Proof. intros Hperm. by rewrite (Hperm l). Qed.

Lemma extract_links_elem (html current_url base_url u : string) :
  (∀ l, set_order l ≡ₚ l) →
  u ∈ extract_links html current_url base_url ↔
  ∃ href, href ∈ soup_hrefs html ∧
    existsb (λ prefix, startswith prefix href) skipped_prefixes = false ∧
    u = normalize_url href current_url ∧
    netloc u = netloc base_url.
Proof.
  intros Hperm. unfold Scraper.extract_links.
  rewrite set_order_elem by done.
  destruct (fold_add_link current_url (netloc base_url) (soup_hrefs html) [])
    as [_ Hin].
  rewrite Hin. split; [|by right]. by intros [[]%elem_of_nil|?].
Qed.

(** What [extract_links] gives the crawler, in whatever order the set is
    iterated: no link twice; exactly the normalised [href]s that do not
    start with one of the four skipped prefixes and whose host is the
    host of the base; and none of them ends with a slash, so that none is
    the seed URL, which does. *)
Theorem extracted_links_are_normalised (html current_url base_url : string) :
  (∀ l, set_order l ≡ₚ l) →
  NoDup (extract_links html current_url base_url) ∧
  (∀ u, u ∈ extract_links html current_url base_url ↔
     ∃ href, href ∈ soup_hrefs html ∧
       existsb (λ prefix, startswith prefix href) skipped_prefixes = false ∧
       u = normalize_url href current_url ∧
       netloc u = netloc base_url) ∧
  Forall (λ u, endswith "/" u = false ∧ u ≠ BASE_URL)
    (extract_links html current_url base_url).
Proof.
  intros Hperm. split_and!.
  - unfold Scraper.extract_links. rewrite (Hperm _).
    apply fold_add_link. apply NoDup_nil_2.
  - intros u. by apply extract_links_elem.
  - apply Forall_forall. intros u Hu.
    apply extract_links_elem in Hu as (href & _ & _ & -> & _); [|done].
    pose proof (normalize_url_no_slash href current_url) as Hno.
    split; [done|]. intros E. rewrite E in Hno. by vm_compute in Hno.
Qed.

(** The crawl ends: some number of iterations is enough for [run] to
    return, and what it leaves does not depend on how many more are
    allowed. *)
Theorem crawl_terminates :
  ∃ out, (∃ fuel, run fuel = Some out) ∧
         ∀ fuel' out', run fuel' = Some out' → out' = out.
Proof.
  destruct (run_loop_terminates (MAX_PAGES - size (visited init))
              (length (to_visit init)) init) as (fuel & [self e] & Hr);
    [done..|].
  exists {| saved := pages_data self; stopped_by := e; final := self |}.
  split.
  - exists fuel. unfold Scraper.run. by rewrite Hr.
  - intros fuel' out'. unfold Scraper.run.
    destruct (run_loop fuel' init) as [[self' e']|] eqn:Hr'; [|done].
    intros [= <-].
    apply (run_loop_fuel_le _ (fuel `max` fuel')) in Hr; [|lia].
    apply (run_loop_fuel_le _ (fuel `max` fuel')) in Hr'; [|lia].
    rewrite Hr in Hr'. by injection Hr' as <- <-.
Qed.

(** The books of a crawl, when [run] returns: the pages written are the
    pages visited, one per URL and at most [MAX_PAGES] of them; no URL is
    both visited and failed; [requests.get] was called at most once for a
    URL and never for one that robots.txt forbids, and every visited URL
    went through it; [driver.get] was called at most once for a URL, and
    only for a URL that [requests.get] had been called for and had
    failed on. If no exception ended the loop, the queue is empty or
    [MAX_PAGES] pages were visited, and every URL asked for ended as a
    page or as a failure. *)
Theorem crawl_bookkeeping (fuel : nat) (out : outcome) :
  run fuel = Some out →
  saved out = pages_data (final out) ∧
  NoDup (data_url <$> saved out) ∧
  (∀ u, u ∈ visited (final out) ↔ u ∈ data_url <$> saved out) ∧
  length (saved out) = size (visited (final out)) ∧
  length (saved out) ≤ MAX_PAGES ∧
  visited (final out) ## failed (final out) ∧
  NoDup (requested (final out)) ∧
  (∀ u, u ∈ requested (final out) → can_fetch u = true) ∧
  (∀ u, u ∈ visited (final out) → u ∈ requested (final out)) ∧
  NoDup (driven (final out)) ∧
  (∀ u, u ∈ driven (final out) →
        u ∈ requested (final out) ∧ ∃ n, requests_get n u = Unreachable) ∧
  (stopped_by out = None →
   finished (final out) ∧
   ∀ u, u ∈ requested (final out) →
        u ∈ visited (final out) ∨ u ∈ failed (final out)).
Proof.
  unfold Scraper.run.
  destruct (run_loop fuel init) as [[self e]|] eqn:Hr; [|done].
  intros [= <-]. cbn [saved final stopped_by].
  destruct init_books as (Hb & Hs & Hd).
  destruct (run_loop_keeps _ _ _ _ Hb Hs Hd Hr)
    as ((_ & _ & Hvf & Hpages & Hset & Hsize & Hreq & Hcan & Hvr & Hdrv & Hdr)
        & _ & Hend).
  assert (length (pages_data self) = size (visited self)) as Hlen.
  { rewrite <- Hset, size_list_to_set by done. by rewrite length_fmap. }
  split_and!; try done.
  - intros u. rewrite <- Hset. by rewrite elem_of_list_to_set.
  - by rewrite Hlen.
  - intros ->. destruct Hend as [Hsettled Hfin]; done.
Qed.

(** The crawl stays on the site: every URL requested or still queued
    when [run] returns is the seed or a link found on a saved page, with
    the host of the seed and no slash at its end, and every failed URL
    likewise. *)
Theorem crawl_stays_on_the_site (fuel : nat) (out : outcome) (u : string) :
  (∀ l, set_order l ≡ₚ l) →
  run fuel = Some out →
  u ∈ requested (final out) ∨ u ∈ to_visit (final out)
  ∨ u ∈ failed (final out) →
  u = BASE_URL ∨
  (netloc u = netloc BASE_URL ∧ endswith "/" u = false ∧
   ∃ page href, page ∈ saved out ∧ href ∈ soup_hrefs (data_html page) ∧
                u = normalize_url href (data_url page)).
Proof.
  intros Hperm. unfold Scraper.run.
  destruct (run_loop fuel init) as [[self e]|] eqn:Hr; [|done].
  intros [= <-]. cbn [saved final stopped_by].
  destruct init_books as (Hb & Hs & Hd).
  destruct (run_loop_keeps _ _ _ _ Hb Hs Hd Hr) as (_ & Hdisc & _).
  intros Hu.
  destruct (Hdisc u) as [?|(page & Hpage & Hlink)]; [tauto|by left|].
  right. apply extract_links_elem in Hlink as (href & Hh & _ & -> & Hn);
    [|done].
  split_and!; [done|apply normalize_url_no_slash|by exists page, href].
Qed.

End Facts.

Lemma demo_set_order (l : list string) : ScraperDemo.set_order l ≡ₚ l.
Proof. symmetry. apply Permutation_rev. Qed.

Lemma extracted_links_are_normalised_witness :
  let links := ScraperDemo.extract_links "x" "https://docs.python.org/3/"
                 BASE_URL in
  (∀ l, ScraperDemo.set_order l ≡ₚ l) ∧
  links = ["https://docs.python.org/3/private";
           "https://docs.python.org/3/library"; "https://docs.python.org/3"] ∧
  NoDup links ∧
  (∀ u, u ∈ links ↔
     ∃ href, href ∈ ScraperDemo.soup_hrefs "x" ∧
       existsb (λ prefix, startswith prefix href) skipped_prefixes = false ∧
       u = normalize_url ScraperDemo.urldefrag ScraperDemo.urljoin href
             "https://docs.python.org/3/" ∧
       ScraperDemo.netloc u = ScraperDemo.netloc BASE_URL) ∧
  Forall (λ u, endswith "/" u = false ∧ u ≠ BASE_URL) links.
Proof.
  intros links. split; [exact demo_set_order|].
  split; [vm_compute; reflexivity|].
  exact (extracted_links_are_normalised ScraperDemo.urldefrag
           ScraperDemo.urljoin ScraperDemo.netloc ScraperDemo.set_order
           ScraperDemo.soup_hrefs "x" "https://docs.python.org/3/" BASE_URL
           demo_set_order).
Defined.

Lemma crawl_bookkeeping_witness :
  ∃ out,
    ScraperDemo.run 10 = Some out ∧
    data_url <$> saved out
    = ["https://docs.python.org/3/"; "https://docs.python.org/3"] ∧
    driven (final out)
    = ["https://docs.python.org/3/library"; "https://docs.python.org/3"] ∧
    saved out = pages_data (final out) ∧
    NoDup (data_url <$> saved out) ∧
    (∀ u, u ∈ visited (final out) ↔ u ∈ data_url <$> saved out) ∧
    length (saved out) = size (visited (final out)) ∧
    length (saved out) ≤ MAX_PAGES ∧
    visited (final out) ## failed (final out) ∧
    NoDup (requested (final out)) ∧
    (∀ u, u ∈ requested (final out) → ScraperDemo.can_fetch u = true) ∧
    (∀ u, u ∈ visited (final out) → u ∈ requested (final out)) ∧
    NoDup (driven (final out)) ∧
    (∀ u, u ∈ driven (final out) →
          u ∈ requested (final out) ∧
          ∃ n, ScraperDemo.requests_get n u = Unreachable) ∧
    (stopped_by out = None →
     finished (final out) ∧
     ∀ u, u ∈ requested (final out) →
          u ∈ visited (final out) ∨ u ∈ failed (final out)).
Proof.
  destruct (ScraperDemo.run 10) as [out|] eqn:H; [|by vm_compute in H].
  assert (data_url <$> saved out
          = ["https://docs.python.org/3/"; "https://docs.python.org/3"])
    as Hsaved.
  { assert (fmap data_url ∘ saved <$> ScraperDemo.run 10
            = Some ["https://docs.python.org/3/"; "https://docs.python.org/3"])
      as Hs by (vm_compute; reflexivity).
    rewrite H in Hs. by injection Hs as Hs. }
  assert (driven (final out)
          = ["https://docs.python.org/3/library"; "https://docs.python.org/3"])
    as Hdriven.
  { assert (driven ∘ final <$> ScraperDemo.run 10
            = Some ["https://docs.python.org/3/library";
                    "https://docs.python.org/3"])
      as Hs by (vm_compute; reflexivity).
    rewrite H in Hs. by injection Hs as Hs. }
  exists out. split; [reflexivity|]. split; [exact Hsaved|].
  split; [exact Hdriven|].
  exact (crawl_bookkeeping ScraperDemo.urldefrag ScraperDemo.urljoin
           ScraperDemo.netloc ScraperDemo.set_order ScraperDemo.can_fetch
           ScraperDemo.requests_get ScraperDemo.driver_get
           ScraperDemo.soup_title ScraperDemo.soup_canonical
           ScraperDemo.clean_content ScraperDemo.soup_hrefs
           ScraperDemo.md5_hexdigest ScraperDemo.strftime 10 out H).
Defined.

Lemma crawl_stays_on_the_site_witness :
  ∃ out,
    ScraperDemo.run 10 = Some out ∧
    (∀ l, ScraperDemo.set_order l ≡ₚ l) ∧
    "https://docs.python.org/3" ∈ requested (final out) ∧
    ("https://docs.python.org/3" = BASE_URL ∨
     (ScraperDemo.netloc "https://docs.python.org/3"
      = ScraperDemo.netloc BASE_URL ∧
      endswith "/" "https://docs.python.org/3" = false ∧
      ∃ page href,
        page ∈ saved out ∧
        href ∈ ScraperDemo.soup_hrefs (data_html page) ∧
        "https://docs.python.org/3"
        = normalize_url ScraperDemo.urldefrag ScraperDemo.urljoin href
            (data_url page))).
Proof.
  destruct (ScraperDemo.run 10) as [out|] eqn:H; [|by vm_compute in H].
  assert ("https://docs.python.org/3" ∈ requested (final out)) as Hu.
  { assert (requested ∘ final <$> ScraperDemo.run 10
            = Some ["https://docs.python.org/3/";
                    "https://docs.python.org/3/library";
                    "https://docs.python.org/3"]) as Hreq
      by (vm_compute; reflexivity).
    rewrite H in Hreq. injection Hreq as Hreq. cbn in Hreq. rewrite Hreq.
    do 2 right. by left. }
  exists out. split; [reflexivity|]. split; [exact demo_set_order|].
  split; [exact Hu|].
  exact (crawl_stays_on_the_site ScraperDemo.urldefrag ScraperDemo.urljoin
           ScraperDemo.netloc ScraperDemo.set_order ScraperDemo.can_fetch
           ScraperDemo.requests_get ScraperDemo.driver_get
           ScraperDemo.soup_title ScraperDemo.soup_canonical
           ScraperDemo.clean_content ScraperDemo.soup_hrefs
           ScraperDemo.md5_hexdigest ScraperDemo.strftime 10 out
           "https://docs.python.org/3" demo_set_order H (or_introl Hu)).
Defined.

End ScraperFacts.

(** ** The fingerprint check *)

Module FingerprintFacts.
Import PyStr PyStrFacts Py Indexer IndexerFacts Fingerprint.

Section Facts.

Variable md5_hexdigest : string → string.
Variable json_loads : string → option json.

Local Abbreviation should_reindex := (should_reindex md5_hexdigest json_loads).
Local Abbreviation calculate_directory_hash :=
  (calculate_directory_hash md5_hexdigest).
Local Abbreviation read_last_hash := (read_last_hash json_loads).
Local Abbreviation record_is := (record_is json_loads).
Local Abbreviation store_fingerprint := (store_fingerprint md5_hexdigest).
Local Abbreviation current_fingerprint := (current_fingerprint md5_hexdigest).

Lemma record_is_unique files items items' :
  record_is files items → record_is files items' → items = items'.
Proof.
  intros (bytes & Hf & Hj) (bytes' & Hf' & Hj'). rewrite Hf in Hf'.
  injection Hf' as <-. rewrite Hj in Hj'. by injection Hj' as <-.
Qed.

Lemma read_last_hash_ok files items :
  record_is files items → read_last_hash files = Ok (stored_fingerprint items).
Proof.
  intros (bytes & Hf & Hj). unfold Indexer.read_last_hash, read_file.
  rewrite Hf. cbn. by rewrite Hj.
Qed.

Lemma read_last_hash_inv files last_hash :
  read_last_hash files = Ok last_hash →
  ∃ items, record_is files items ∧ last_hash = stored_fingerprint items.
Proof.
  unfold Indexer.read_last_hash, read_file.
  destruct (files !! INDEX_INFO_FILE) as [[bytes|]|] eqn:Hf; [|done..]. cbn.
  destruct (json_loads bytes) as [[| | | | |items]|] eqn:Hj; try done. cbn.
  intros [= <-]. exists items. split; [by exists bytes|done].
Qed.

Lemma mapM_read_entry files d entries names :
  files !! d = Some (Dir entries) →
  Forall (λ name, is_Some (entries !! name)) names →
  mapM (read_entry files d) names = Ok (omap (λ name, entries !! name) names).
Proof.
  intros Hd. induction 1 as [|name names [data Hname] _ IH]; [done|].
  assert (read_entry files d name = Ok data) as Hread
    by (unfold read_entry; by rewrite Hd, Hname).
  cbn [mapM omap list_omap]. rewrite Hread, IH, Hname. done.
Qed.

Lemma calculate_directory_hash_dir files d entries :
  files !! d = Some (Dir entries) →
  calculate_directory_hash files d = Ok (Some (store_fingerprint entries)).
Proof.
  intros Hd. unfold Indexer.calculate_directory_hash, exists_, listdir.
  rewrite Hd. rewrite bool_decide_eq_true_2 by eauto. cbn.
  rewrite IndexerMoreFacts.json_files_sorted.
  rewrite (mapM_read_entry files d entries); [done..|].
  apply Forall_forall. intros name Hname.
  rewrite (IndexerMoreFacts.sorted_perm _) in Hname.
  by apply IndexerMoreFacts.elem_of_json_names in Hname as [_ ?].
Qed.

Lemma calculate_directory_hash_cases files d :
  match files !! d with
  | None => calculate_directory_hash files d = Ok None
  | Some (Dir entries) =>
      calculate_directory_hash files d = Ok (Some (store_fingerprint entries))
  | Some (File _) => ∃ e, calculate_directory_hash files d = Raise e
  end.
Proof.
  destruct (files !! d) as [[data|entries]|] eqn:Hd.
  - unfold Indexer.calculate_directory_hash, exists_, listdir. rewrite Hd.
    rewrite bool_decide_eq_true_2 by eauto. cbn. eauto.
  - by apply calculate_directory_hash_dir.
  - unfold Indexer.calculate_directory_hash, exists_. rewrite Hd.
    rewrite bool_decide_eq_false_2; [done|]. by intros [? ?].
Qed.

Lemma calculate_directory_hash_inv files d current_hash :
  calculate_directory_hash files d = Ok current_hash ↔
  current_fingerprint files d current_hash.
Proof.
  unfold Fingerprint.current_fingerprint.
  pose proof (calculate_directory_hash_cases files d) as H.
  destruct (files !! d) as [[data|entries]|].
  - destruct H as [e ->]. done.
  - rewrite H. split; [by intros [= <-]|by intros ->].
  - rewrite H. split; [by intros [= <-]|by intros ->].
Qed.

Lemma hash_differs_same last_hash current_hash :
  hash_differs last_hash current_hash = false ↔
  same_fingerprint last_hash current_hash.
Proof. rewrite hash_differs_false. by destruct current_hash. Qed.

Lemma exists_lookup (files : gmap string node) p :
  exists_ files p = false ↔ files !! p = None.
Proof.
  unfold exists_. rewrite bool_decide_eq_false, <- eq_None_not_Some. done.
Qed.

Lemma exists_is_Some (files : gmap string node) p :
  exists_ files p = true ↔ is_Some (files !! p).
Proof. unfold exists_. by rewrite bool_decide_eq_true. Qed.

End Facts.

(** C8. [should_reindex], told by what the files hold. It returns [True]
    exactly when the index file is missing, or the metadata file is
    missing, or the fingerprint record is missing or cannot be read (it is
    no regular file, or does not decode to a JSON object), or the record's
    [content_hash] is not the current fingerprint of the chunk store: the
    MD5 of its [.json] entries in name order, and none when there is no
    chunk directory. It returns [False] exactly when the two files are
    there, the record can be read and its [content_hash] is the current
    fingerprint; a record without [content_hash] (or with [null]) equals
    the fingerprint of a missing chunk directory. It raises exactly when
    the files are there, the record can be read, and the chunk path is a
    regular file. *)
Theorem should_reindex_by_contents
    (md5_hexdigest : string → string) (json_loads : string → option json)
    (files : gmap string node) (input_dir : string) :
  (should_reindex md5_hexdigest json_loads files input_dir = Ok true ↔
     files !! FAISS_FILE = None
     ∨ files !! META_FILE = None
     ∨ files !! INDEX_INFO_FILE = None
     ∨ (∀ items, ¬ record_is json_loads files items)
     ∨ (∃ items fingerprint,
          record_is json_loads files items ∧
          current_fingerprint md5_hexdigest files input_dir fingerprint ∧
          ¬ same_fingerprint (stored_fingerprint items) fingerprint)) ∧
  (should_reindex md5_hexdigest json_loads files input_dir = Ok false ↔
     is_Some (files !! FAISS_FILE) ∧ is_Some (files !! META_FILE) ∧
     ∃ items fingerprint,
       record_is json_loads files items ∧
       current_fingerprint md5_hexdigest files input_dir fingerprint ∧
       same_fingerprint (stored_fingerprint items) fingerprint) ∧
  ((∃ e, should_reindex md5_hexdigest json_loads files input_dir = Raise e) ↔
     is_Some (files !! FAISS_FILE) ∧ is_Some (files !! META_FILE) ∧
     (∃ items, record_is json_loads files items) ∧
     ∃ data, files !! input_dir = Some (File data)).
Proof.
  unfold should_reindex.
  destruct (exists_ files FAISS_FILE) eqn:Hix; cbn [negb orb].
  2:{ apply exists_lookup in Hix. split_and!.
      - split; [by left|done].
      - split; [done|]. intros ([? ?] & _). congruence.
      - split; [by intros [? ?]|]. intros ([? ?] & _). congruence. }
  destruct (exists_ files META_FILE) eqn:Hmeta; cbn [negb].
  2:{ apply exists_lookup in Hmeta. split_and!.
      - split; [by right; left|done].
      - split; [done|]. intros (_ & [? ?] & _). congruence.
      - split; [by intros [? ?]|]. intros (_ & [? ?] & _). congruence. }
  apply exists_is_Some in Hix, Hmeta.
  destruct (exists_ files INDEX_INFO_FILE) eqn:Hinfo; cbn [negb].
  2:{ apply exists_lookup in Hinfo. split_and!.
      - split; [by right; right; left|done].
      - split; [done|]. intros (_ & _ & items & _ & (? & ? & _) & _).
        congruence.
      - split; [by intros [? ?]|].
        intros (_ & _ & (items & ? & ? & _) & _). congruence. }
  apply exists_is_Some in Hinfo.
  destruct (read_last_hash json_loads files) as [last_hash|e] eqn:Hlast.
  2:{ assert (∀ items, ¬ record_is json_loads files items) as Hno.
      { intros items Hrec%(read_last_hash_ok json_loads). congruence. }
      split_and!.
      - split; [by right; right; right; left|done].
      - split; [done|]. intros (_ & _ & items & _ & Hrec & _).
        by destruct (Hno items).
      - split; [by intros [? ?]|]. intros (_ & _ & (items & Hrec) & _).
        by destruct (Hno items). }
  apply read_last_hash_inv in Hlast as (items & Hrec & ->).
  pose proof (calculate_directory_hash_cases md5_hexdigest files input_dir)
    as Hcalc.
  unfold current_fingerprint.
  destruct (files !! input_dir) as [[data|entries]|] eqn:Hdir.
  - destruct Hcalc as [e ->]. cbn. split_and!.
    + split; [done|].
      intros [Hn|[Hn|[Hn|[Hn|(? & ? & _ & [] & _)]]]];
        try (rewrite Hn in *; by destruct Hix || by destruct Hmeta
                               || by destruct Hinfo).
      by destruct (Hn items).
    + split; [done|]. by intros (_ & _ & ? & ? & _ & [] & _).
    + split; [|eauto]. intros _. split_and!; eauto.
  - rewrite Hcalc. cbn.
    pose proof (hash_differs_same (stored_fingerprint items)
                  (Some (store_fingerprint md5_hexdigest entries))) as Hsame.
    destruct (hash_differs _ _); split_and!.
    + split; [|done]. intros _. right; right; right; right.
      exists items, (Some (store_fingerprint md5_hexdigest entries)).
      split_and!; [done..|]. intros H%Hsame. done.
    + split; [done|]. intros (_ & _ & items' & fp & Hrec' & -> & Hs).
      rewrite (record_is_unique json_loads _ _ _ Hrec' Hrec) in Hs.
      apply Hsame in Hs. done.
    + split; [by intros [? ?]|]. by intros (_ & _ & _ & ? & ?).
    + split; [done|].
      intros [Hn|[Hn|[Hn|[Hn|(items' & fp & Hrec' & -> & Hs)]]]];
        try (rewrite Hn in *; by destruct Hix || by destruct Hmeta
                               || by destruct Hinfo).
      * by destruct (Hn items).
      * rewrite (record_is_unique json_loads _ _ _ Hrec' Hrec) in Hs.
        destruct Hs. by apply Hsame.
    + split; [|done]. intros _. split_and!; [done..|].
      exists items, (Some (store_fingerprint md5_hexdigest entries)).
      split_and!; [done..|]. by apply Hsame.
    + split; [by intros [? ?]|]. by intros (_ & _ & _ & ? & ?).
  - rewrite Hcalc. cbn.
    pose proof (hash_differs_same (stored_fingerprint items) None) as Hsame.
    destruct (hash_differs _ _); split_and!.
    + split; [|done]. intros _. right; right; right; right.
      exists items, None. split_and!; [done..|]. intros H%Hsame. done.
    + split; [done|]. intros (_ & _ & items' & fp & Hrec' & -> & Hs).
      rewrite (record_is_unique json_loads _ _ _ Hrec' Hrec) in Hs.
      apply Hsame in Hs. done.
    + split; [by intros [? ?]|]. by intros (_ & _ & _ & ? & ?).
    + split; [done|].
      intros [Hn|[Hn|[Hn|[Hn|(items' & fp & Hrec' & -> & Hs)]]]];
        try (rewrite Hn in *; by destruct Hix || by destruct Hmeta
                               || by destruct Hinfo).
      * by destruct (Hn items).
      * rewrite (record_is_unique json_loads _ _ _ Hrec' Hrec) in Hs.
        destruct Hs. by apply Hsame.
    + split; [|done]. intros _. split_and!; [done..|].
      exists items, None. split_and!; [done..|]. by apply Hsame.
    + split; [by intros [? ?]|]. by intros (_ & _ & _ & ? & ?).
Qed.

Lemma should_reindex_by_contents_witness :
  without_store !! INPUT_DIR = None ∧
  record_is IndexerDemo.json_loads without_store [] ∧
  stored_fingerprint [] = JNull ∧
  should_reindex IndexerDemo.md5_hexdigest IndexerDemo.json_loads
    without_store INPUT_DIR = Ok false.
Proof.
  assert (without_store !! INPUT_DIR = None) as Hdir
    by (vm_compute; reflexivity).
  assert (record_is IndexerDemo.json_loads without_store []) as Hrec.
  { exists "info-". split; [vm_compute; reflexivity|reflexivity]. }
  split; [exact Hdir|]. split; [exact Hrec|]. split; [reflexivity|].
  apply (proj2 (proj1 (proj2
           (should_reindex_by_contents IndexerDemo.md5_hexdigest
              IndexerDemo.json_loads without_store INPUT_DIR)))).
  split; [by eexists; vm_compute|]. split; [by eexists; vm_compute|].
  exists [], None. split; [exact Hrec|]. split; [|reflexivity].
  unfold current_fingerprint. by rewrite Hdir.
Defined.

End FingerprintFacts.

(** ** Failed embedding calls *)

Module FallbackFacts.
Import PyStr PyStrFacts Py Indexer IndexerFacts.


Section Facts.

Variable F : Type.
Variable zero : F.
Variable embed_content : nat → json → option (list F).
Variable md5_hexdigest : string → string.
Variable json_loads : string → option json.
Variable json_dumps : json → string.
Variable faiss_loads : string → option (IndexFlatL2 F).
Variable faiss_dumps : IndexFlatL2 F → string.
Variable isoformat : nat → string.

Local Abbreviation should_reindex := (should_reindex md5_hexdigest json_loads).
Local Abbreviation load_chunks := (load_chunks json_loads isoformat).
Local Abbreviation batch_loop := (batch_loop F zero embed_content).
Local Abbreviation rebuild :=
  (rebuild F zero embed_content md5_hexdigest json_loads json_dumps
           faiss_dumps isoformat).
Local Abbreviation build_faiss_index :=
  (build_faiss_index F zero embed_content md5_hexdigest json_loads json_dumps
                     faiss_loads faiss_dumps isoformat).




End Facts.


End FallbackFacts.
